(** * Offline-first task synchronisation: StorageService and ApiService

    A shallow embedding of the storage/cache layer (StorageService) and of
    the sync orchestrator (ApiService) of the task manager, followed by the
    properties of the merge, the cache, the offline queue and the drain.

    Conventions of the embedding.
    - AsyncStorage is a finite map from string keys to stored texts.  A stored
      text is represented by what [JSON.parse] makes of it: a document
      ([Doc]) or a text that [JSON.parse] rejects ([Garbled]).
    - JavaScript objects with optional fields are records of [option]s:
      [None] is a property that is absent or undefined.  Object spread is
      field-wise override.  The one property that the application sets to
      null, [completedAt], has null among its values.
    - An ISO-8601 [createdAt] string is represented by the instant it denotes
      (milliseconds since the epoch); [None] is a missing or unparseable date.
    - Every method is a function from the world to a result and a new world;
      a JavaScript exception is the result [Throw].  The clock does not
      advance inside a call; [advance] moves it between calls.
    - The remote server is an oracle: it answers a request, given the requests
      made before it, with a response or with a failure.
    - The storage medium itself does not fail, and one call runs to its end
      before the next one starts. *)

From stdpp Require Import gmap strings list fin_maps pretty sorting.

Local Open Scope string_scope.
Local Open Scope Z_scope.

(** ** Data model *)

Inductive Priority := low | medium | high.

Inductive Source := api | cache | local_permanent.

(** The [action] of an offline change: 'create', 'update' or 'delete'. *)
Inductive Action := Create | Update | Delete.

(** A value that may be null. *)
Inductive Nullable (A : Type) :=
| Null
| NotNull (a : A).

Arguments Null {A}.
Arguments NotNull {A} a.

(** A task object; every property may be absent.  [completedAt] is set to
    null by the details screen when a task is reopened: [Some Null] is the
    property present with the value null, which [JSON.stringify] keeps. *)
Record Task := mkTask {
  id : option string;
  title : option string;
  description : option string;
  priority : option Priority;
  image : option string;
  dueDate : option string;
  createdAt : option Z;
  completed : option bool;
  completedAt : option (Nullable Z);
  source : option Source;
  offline : option bool;
  synced : option bool
}.

Definition emptyTask : Task :=
  mkTask None None None None None None None None None None None None.

(** [orElse b a]: the property of the later operand of a spread wins when it
    is present. *)
Definition orElse {A : Type} (b a : option A) : option A :=
  match b with Some x => Some x | None => a end.

(** [spread a b] is the object literal [{ ...a, ...b }]: every property that
    [b] has wins, a null one included.  The properties of [b] are those that
    are not [None]: an operand that carries a property with the value
    undefined, which would override too, is not expressible. *)
Definition spread (a b : Task) : Task :=
  {| id := orElse (id b) (id a);
     title := orElse (title b) (title a);
     description := orElse (description b) (description a);
     priority := orElse (priority b) (priority a);
     image := orElse (image b) (image a);
     dueDate := orElse (dueDate b) (dueDate a);
     createdAt := orElse (createdAt b) (createdAt a);
     completed := orElse (completed b) (completed a);
     completedAt := orElse (completedAt b) (completedAt a);
     source := orElse (source b) (source a);
     offline := orElse (offline b) (offline a);
     synced := orElse (synced b) (synced a) |}.

Definition withId (i : string) : Task :=
  mkTask (Some i) None None None None None None None None None None None.

Definition withSource (s : Source) : Task :=
  mkTask None None None None None None None None None (Some s) None None.

Definition withSynced (b : bool) : Task :=
  mkTask None None None None None None None None None None None (Some b).

(** An offline change [{ action, task, timestamp }]. *)
Record OfflineChange := mkChange {
  action : Action;
  task : Task;
  timestamp : Z
}.

(** The JSON documents the application keeps in AsyncStorage. *)
Inductive json :=
| JNull
| JBool (b : bool)
| JNum (n : Z)
| JStr (s : string)
| JTasks (ts : list Task)
| JChanges (cs : list OfflineChange)
| JEnvelope (data : json) (stamp : Z) (expirationTime : Z).

(** A stored text, seen through [JSON.parse]. *)
Inductive stored :=
| Doc (v : json)
| Garbled (text : string).

(** JavaScript truthiness of a value. *)
Definition truthy (v : json) : bool :=
  match v with
  | JNull => false
  | JBool b => b
  | JNum n => negb (n =? 0)
  | JStr s => negb (String.eqb s EmptyString)
  | JTasks _ | JChanges _ | JEnvelope _ _ _ => true
  end.

(** ** The remote API *)

Inductive Method := GET | POST | PUT | DELETE.

Record Request := mkRequest {
  method : Method;
  endpoint : string;
  body : option Task
}.

(** An item of the remote [/todos] collection. *)
Record RemoteItem := mkItem {
  itemId : option Z;
  itemTitle : option string;
  userId : option Z;
  itemCompleted : option bool
}.

Inductive Response :=
| RItems (items : list RemoteItem)
| RObject (o : Task).

(** ** The world: storage, connectivity, clock, randomness, server *)

Record World := mkWorld {
  storage : gmap string stored;
  isOnline : bool;
  clock : Z;
  entropy : nat → Z;
  draws : nat;
  server : list Request → Request → option Response;
  requests : list Request
}.

Definition setStorage (s : gmap string stored) (w : World) : World :=
  mkWorld s (isOnline w) (clock w) (entropy w) (draws w) (server w) (requests w).

Definition setOnline (b : bool) (w : World) : World :=
  mkWorld (storage w) b (clock w) (entropy w) (draws w) (server w) (requests w).

(** One more random number has been drawn. *)
Definition nextDraw (w : World) : World :=
  mkWorld (storage w) (isOnline w) (clock w) (entropy w) (S (draws w))
          (server w) (requests w).

(** One more request has been sent. *)
Definition logRequest (req : Request) (w : World) : World :=
  mkWorld (storage w) (isOnline w) (clock w) (entropy w) (draws w) (server w)
          (requests w ++ [req])%list.

(** Time passes between two calls. *)
Definition advance (d : Z) (w : World) : World :=
  mkWorld (storage w) (isOnline w) (clock w + d) (entropy w) (draws w)
          (server w) (requests w).

(** ** Results and sequencing *)

Inductive Result (A : Type) :=
| Ok (a : A)
| Throw (e : string).

Arguments Ok {A} a.
Arguments Throw {A} e.

Definition M (A : Type) : Type := World → Result A * World.

Definition ret {A : Type} (a : A) : M A := λ w, (Ok a, w).

Definition throw {A : Type} (e : string) : M A := λ w, (Throw e, w).

Definition bind {A B : Type} (m : M A) (k : A → M B) : M B :=
  λ w, match m w with
       | (Ok a, w') => k a w'
       | (Throw e, w') => (Throw e, w')
       end.

(** [try { m } catch (e) { h e }]: what [m] did to the world before it threw
    stays done. *)
Definition try_catch {A : Type} (m : M A) (h : string → M A) : M A :=
  λ w, match m w with
       | (Ok a, w') => (Ok a, w')
       | (Throw e, w') => h e w'
       end.

Declare Scope js_scope.
Delimit Scope js_scope with js.
Notation "x <- m ;; k" := (bind m (λ x, k))
  (at level 100, m at next level, right associativity) : js_scope.
Notation "m ;;; k" := (bind m (λ _, k))
  (at level 100, right associativity) : js_scope.
Local Open Scope js_scope.

(** [Date.now()]. *)
Definition dateNow : M Z := λ w, (Ok (clock w), w).

(** [Math.floor(Math.random() * 1000)]. *)
Definition random1000 : M Z :=
  λ w, (Ok (entropy w (draws w) `mod` 1000), nextDraw w).

(** [`local-${Date.now()}-${Math.floor(Math.random() * 1000)}`]. *)
Definition generateUniqueId : M string :=
  now <- dateNow ;;
  r <- random1000 ;;
  ret ("local-" +:+ pretty now +:+ "-" +:+ pretty r).

(** ** AsyncStorage *)

Module AsyncStorage.

Definition getItem (key : string) : M (option stored) :=
  λ w, (Ok (storage w !! key), w).

Definition setItem (key : string) (v : stored) : M unit :=
  λ w, (Ok tt, setStorage (<[key := v]> (storage w)) w).

Definition removeItem (key : string) : M unit :=
  λ w, (Ok tt, setStorage (delete key (storage w)) w).

(** [getAllKeys] followed by [multiRemove] of the keys that satisfy [p]. *)
Definition multiRemoveWhere (p : string → bool) : M unit :=
  λ w, (Ok tt, setStorage (filter (λ kv, p kv.1 = false) (storage w)) w).

Definition getAllKeys : M (list string) :=
  λ w, (Ok ((map_to_list (storage w)).*1), w).

Definition multiRemove (keys : list string) : M unit :=
  λ w, (Ok tt, setStorage (foldr delete (storage w) keys) w).

Definition multiGet (keys : list string) : M (list (string * option stored)) :=
  λ w, (Ok ((λ key, (key, storage w !! key)) <$> keys), w).

(** [multiSet]: the pairs are written in their order. *)
Definition multiSet (pairs : list (string * stored)) : M unit :=
  λ w, (Ok tt,
        setStorage (fold_left (λ m kv, <[kv.1 := kv.2]> m) pairs (storage w)) w).

End AsyncStorage.

(** ** Values used as arrays *)

(** The value is used as an array of tasks ([find], [findIndex], [filter],
    [map], spread).  A value that is not an array has no such method: a
    TypeError; a number, a boolean, null and an object are not iterable
    either.  Two shapes are outside the embedding and are excluded by the
    hypotheses of every statement that reaches them: a string that is spread
    (it is iterable and yields its characters, which are not task objects)
    and an array of objects that are not tasks. *)
Definition asTasks (v : json) : M (list Task) :=
  match v with
  | JTasks ts => ret ts
  | JChanges [] => ret []
  | _ => throw "TypeError"
  end.

(** The value is used as an array of offline changes ([push], [length],
    [for ... of]). *)
Definition asChanges (v : json) : M (list OfflineChange) :=
  match v with
  | JChanges cs => ret cs
  | JTasks [] => ret []
  | _ => throw "TypeError"
  end.

(** [a || []]. *)
Definition orEmptyArray (v : json) : json :=
  if truthy v then v else JTasks [].

(** [a.id === b] on values that are a string or undefined. *)
Definition sameId (a b : option string) : bool := bool_decide (a = b).

(** ** Sorting, as [Array.prototype.sort] with a comparator: stable; the
    element [a] goes after [b] only when [cmp a b > 0].  A comparator result
    of NaN counts as 0.

    The language fixes the result of the sort only for a consistent
    comparator, for which the stable sort is unique and is the list computed
    here.  The comparator of the application is consistent on tasks that all
    have a creation date.  Once a task has none, the comparator equates it
    with every other task, the order of the result is left to the engine, and
    only the elements of the list computed here are meaningful: the
    statements fix an order under [dated] hypotheses only, and speak of the
    result up to permutation otherwise. *)
Section Sorting.
Context {A : Type} (cmp : A → A → Z).

Fixpoint insertSorted (a : A) (l : list A) : list A :=
  match l with
  | [] => [a]
  | b :: l' => if 0 <? cmp a b then b :: insertSorted a l' else a :: b :: l'
  end.

Definition sortWith (l : list A) : list A := foldr insertSorted [] l.
End Sorting.

(** [new Date(b.createdAt) - new Date(a.createdAt)], with NaN read as 0. *)
Definition newestFirst (a b : Task) : Z :=
  match createdAt b, createdAt a with
  | Some tb, Some ta => tb - ta
  | _, _ => 0
  end.

(** ** StorageService *)

Module STORAGE_KEYS.
Definition TASKS : string := "TASKS".
Definition USER : string := "USER".
Definition THEME : string := "THEME".
Definition SETTINGS : string := "APP_SETTINGS".
Definition CACHE_PREFIX : string := "CACHE_".
Definition OFFLINE_CHANGES : string := "OFFLINE_CHANGES".
End STORAGE_KEYS.

Module CACHE_EXPIRATION.
Definition SHORT : Z := 5 * 60 * 1000.
Definition MEDIUM : Z := 30 * 60 * 1000.
Definition LONG : Z := 24 * 60 * 60 * 1000.
End CACHE_EXPIRATION.

Module StorageService.

(** [get]: [null] for a missing or empty text, the parsed document, or the
    text itself when it is not JSON. *)
Definition get (key : string) : M json :=
  value <- AsyncStorage.getItem key ;;
  match value with
  | None => ret JNull
  | Some (Garbled EmptyString) => ret JNull
  | Some (Doc v) => ret v
  | Some (Garbled s) => ret (JStr s)
  end.

(** [set]: a string is stored as it is, anything else through
    [JSON.stringify].  The string is taken not to be a JSON text itself, as
    the theme names, the only strings that the application stores, are not:
    a string such as '123' would be read back parsed. *)
Definition set (key : string) (value : json) : M bool :=
  AsyncStorage.setItem key
    (match value with JStr s => Garbled s | _ => Doc value end) ;;;
  ret true.

Definition remove (key : string) : M bool :=
  AsyncStorage.removeItem key ;;; ret true.

(** [getCached]: only [data] and [timestamp] are taken from the envelope.
    A text that does not parse, or a document that is not an envelope (its
    [timestamp] is undefined, so the comparison is false), is removed. *)
Definition getCached (key : string) (expirationTime : Z) : M json :=
  let cacheKey := STORAGE_KEYS.CACHE_PREFIX +:+ key in
  cached <- AsyncStorage.getItem cacheKey ;;
  match cached with
  | None => ret JNull
  | Some (Garbled EmptyString) => ret JNull
  | Some (Doc (JEnvelope data stamp _)) =>
      now <- dateNow ;;
      if now - stamp <? expirationTime then ret data
      else (remove cacheKey ;;; ret JNull)
  | Some _ => remove cacheKey ;;; ret JNull
  end.

Definition setCached (key : string) (value : json) (expirationTime : Z)
  : M bool :=
  let cacheKey := STORAGE_KEYS.CACHE_PREFIX +:+ key in
  now <- dateNow ;;
  AsyncStorage.setItem cacheKey (Doc (JEnvelope value now expirationTime)) ;;;
  ret true.

Definition getTasks : M json :=
  v <- get STORAGE_KEYS.TASKS ;;
  ret (orEmptyArray v).

Definition saveTasks (tasks : list Task) : M unit :=
  set STORAGE_KEYS.TASKS (JTasks tasks) ;;;
  setCached "tasks_list" (JTasks tasks) CACHE_EXPIRATION.SHORT ;;;
  ret tt.

Definition getTaskById (taskId : option string) : M (option Task) :=
  v <- getTasks ;;
  tasks <- asTasks v ;;
  ret (List.find (λ t, sameId (id t) taskId) tasks).

Definition saveTask (t : Task) : M Task :=
  v <- getTasks ;;
  tasks <- asTasks v ;;
  let tasks' :=
    match list_find (λ x, sameId (id x) (id t) = true) tasks with
    | Some (existingIndex, _) => <[existingIndex := t]> tasks
    | None => (tasks ++ [t])%list
    end in
  saveTasks (sortWith newestFirst tasks') ;;;
  ret t.

Definition updateTask (taskId : option string) (updates : Task)
  : M (option Task) :=
  v <- getTasks ;;
  tasks <- asTasks v ;;
  match list_find (λ x, sameId (id x) taskId = true) tasks with
  | Some (index, old) =>
      let new := spread old updates in
      saveTasks (<[index := new]> tasks) ;;;
      ret (Some new)
  | None => ret None
  end.

Definition deleteTask (taskId : option string) : M bool :=
  v <- getTasks ;;
  tasks <- asTasks v ;;
  saveTasks (List.filter (λ t, negb (sameId (id t) taskId)) tasks) ;;;
  ret true.

Definition getOfflineChanges : M json :=
  v <- get STORAGE_KEYS.OFFLINE_CHANGES ;;
  ret (orEmptyArray v).

Definition saveOfflineChanges (changes : list OfflineChange) : M bool :=
  set STORAGE_KEYS.OFFLINE_CHANGES (JChanges changes).

Definition clearOfflineChanges : M bool :=
  remove STORAGE_KEYS.OFFLINE_CHANGES.

(** [clearCache]: every key that starts with the cache prefix is removed. *)
Definition clearCache : M bool :=
  AsyncStorage.multiRemoveWhere (String.prefix STORAGE_KEYS.CACHE_PREFIX) ;;;
  ret true.

(** [getTheme]: the stored theme, or 'light'. *)
Definition getTheme : M json :=
  v <- get STORAGE_KEYS.THEME ;;
  ret (if truthy v then v else JStr "light").

Definition saveTheme (theme : string) : M bool :=
  set STORAGE_KEYS.THEME (JStr theme).

(** [clearAllData]: the user, the offline queue and every cache key are
    removed; TASKS is deliberately not in the list. *)
Definition clearAllData : M bool :=
  let keysToRemove := [STORAGE_KEYS.USER; STORAGE_KEYS.OFFLINE_CHANGES] in
  keys <- AsyncStorage.getAllKeys ;;
  let cacheKeys := List.filter (String.prefix STORAGE_KEYS.CACHE_PREFIX) keys in
  AsyncStorage.multiRemove (keysToRemove ++ cacheKeys)%list ;;;
  ret true.

(** One "fix ... if needed" block of [migrateLegacyData]: a text that is
    there (not empty) and that [JSON.parse] rejects is removed. *)
Definition removeIfCorrupted (key : string) : M unit :=
  value <- AsyncStorage.getItem key ;;
  match value with
  | Some (Garbled EmptyString) => ret tt
  | Some (Garbled _) => AsyncStorage.removeItem key
  | _ => ret tt
  end.

(** [migrateLegacyData]: the theme is only looked at; USER, TASKS and
    APP_SETTINGS are fixed in this order. *)
Definition migrateLegacyData : M bool :=
  AsyncStorage.getItem STORAGE_KEYS.THEME ;;;
  removeIfCorrupted STORAGE_KEYS.USER ;;;
  removeIfCorrupted STORAGE_KEYS.TASKS ;;;
  removeIfCorrupted STORAGE_KEYS.SETTINGS ;;;
  ret true.

(** [typeof value === 'string' ? value : JSON.stringify(value)]; a string is
    taken not to be a JSON text itself, as in [set]. *)
Definition valueToStore (value : json) : stored :=
  match value with JStr s => Garbled s | _ => Doc value end.

Definition batchSave (items : list (string * json)) : M bool :=
  let pairs := (λ kv, (kv.1, valueToStore kv.2)) <$> items in
  AsyncStorage.multiSet pairs ;;;
  ret true.

Definition batchGet (keys : list string) : M (list (string * json)) :=
  items <- AsyncStorage.multiGet keys ;;
  ret ((λ kv : string * option stored,
          match kv.2 with
          | None => (kv.1, JNull)
          | Some (Garbled EmptyString) => (kv.1, JNull)
          | Some (Doc v) => (kv.1, v)
          | Some (Garbled s) => (kv.1, JStr s)
          end) <$> items).

End StorageService.

(** ** Replies of the orchestrator *)

Module Reply.
Record t (D : Type) := mk {
  success : bool;
  data : option D;
  source : option Source;
  offline : option bool;
  error : option string
}.
Arguments mk {D}.
Arguments success {D}.
Arguments data {D}.
Arguments source {D}.
Arguments offline {D}.
Arguments error {D}.
End Reply.

(** An entry of [syncResults]: [{ taskId, result, action }]. *)
Record SyncResult := mkSyncResult {
  taskId : option string;
  result : Reply.t Response;
  resultAction : Action
}.

Module SyncReply.
Record t := mk {
  success : bool;
  syncResults : option (list SyncResult);
  error : option string
}.
End SyncReply.

(** ** The insertion-ordered [Map] of the merge *)

Section InsertionOrderedMap.
Context {V : Type}.

Definition mapHas (k : option string) (m : list (option string * V)) : bool :=
  existsb (λ kv, sameId kv.1 k) m.

(** [set] replaces the value of a present key where it stands and appends
    an absent key. *)
Fixpoint mapSet (k : option string) (v : V) (m : list (option string * V))
  : list (option string * V) :=
  match m with
  | [] => [(k, v)]
  | (k', v') :: m' =>
      if sameId k' k then (k, v) :: m' else (k', v') :: mapSet k v m'
  end.

Definition mapValues (m : list (option string * V)) : list V := snd <$> m.
End InsertionOrderedMap.

Definition isApiOrCache (s : option Source) : bool :=
  match s with
  | Some api | Some cache => true
  | _ => false
  end.

(** The loop over [combinedTasks]: a task is written under its id when the id
    is new or when the task itself is tagged 'api' or 'cache'. *)
Definition uniqueStep (m : list (option string * Task)) (t : Task)
  : list (option string * Task) :=
  if negb (mapHas (id t) m) || isApiOrCache (source t)
  then mapSet (id t) t m else m.

Definition uniqueTasksMap (combinedTasks : list Task)
  : list (option string * Task) :=
  fold_left uniqueStep combinedTasks [].

Definition markLocal (t : Task) : Task := spread t (withSource local_permanent).

(** Steps 3 and following of [getTasks]: combine, deduplicate, sort. *)
Definition mergeTasks (finalData permanentLocalTasks : list Task) : list Task :=
  let markedLocalTasks := markLocal <$> permanentLocalTasks in
  let combinedTasks := (finalData ++ markedLocalTasks)%list in
  sortWith newestFirst (mapValues (uniqueTasksMap combinedTasks)).

(** ** ApiService *)

Module API_CONFIG.
Definition TASKS : string := "/todos".
End API_CONFIG.

(** [`${x}`] of a value that may be undefined. *)
Definition showString (o : option string) : string := default "undefined" o.
Definition showNumber (o : option Z) : string := default "undefined" (pretty <$> o).
Definition showBool (o : option bool) : string :=
  match o with
  | Some true => "true"
  | Some false => "false"
  | None => "undefined"
  end.

(** Monadic [Array.prototype.map] and [for ... of] with an accumulator. *)
Fixpoint mapM {A B : Type} (f : A → M B) (l : list A) : M (list B) :=
  match l with
  | [] => ret []
  | a :: l' => b <- f a ;; bs <- mapM f l' ;; ret (b :: bs)
  end.

Fixpoint forOf {A S : Type} (body : S → A → M S) (l : list A) (acc : S) : M S :=
  match l with
  | [] => ret acc
  | a :: l' => acc' <- body acc a ;; forOf body l' acc'
  end.

(** The object [{ id: taskId }]. *)
Definition onlyId (taskId : option string) : Task :=
  mkTask taskId None None None None None None None None None None None.

Module ApiService.

Definition getOnline : M bool := λ w, (Ok (isOnline w), w).

(** [apiCall]: the request is sent (and recorded); a network failure or a
    response that is not ok is thrown.  The Authorization header does not
    change the control flow and is left out. *)
Definition apiCall (endpoint : string) (m : Method) (b : option Task)
  : M Response :=
  λ w, let req := mkRequest m endpoint b in
       match server w (requests w) req with
       | Some r => (Ok r, logRequest req w)
       | None => (Throw "API Error", logRequest req w)
       end.

Definition addToOfflineChangesQueue (act : Action) (taskData : Task) : M unit :=
  i <- match id taskData with
       | Some s => if negb (String.eqb s EmptyString) then ret s else generateUniqueId
       | None => generateUniqueId
       end ;;
  now <- dateNow ;;
  let change :=
    mkChange act (spread taskData (spread (withId i) (withSynced false))) now in
  v <- StorageService.getOfflineChanges ;;
  changes <- asChanges v ;;
  StorageService.saveOfflineChanges (changes ++ [change])%list ;;;
  ret tt.

(** The property [data] of a value: only an envelope has one. *)
Definition dataOf (v : json) : json :=
  match v with
  | JEnvelope d _ _ => d
  | _ => JNull
  end.

(** [expiredCacheData && expiredCacheData.data]. *)
Definition staleData (v : json) : json := if truthy v then dataOf v else v.

(** The mapping of one remote item.  [item.id] is an integer, as the ids of
    the service are, and small enough for [toString] to print it digit by
    digit. *)
Definition mapItem (item : RemoteItem) : M Task :=
  i <- match itemId item with
       | Some n => if negb (n =? 0) then ret (pretty n) else generateUniqueId
       | None => generateUniqueId
       end ;;
  now <- dateNow ;;
  ret {| id := Some i;
         title := itemTitle item;
         description :=
           Some ("User ID: " +:+ showNumber (userId item) +:+ " (Completed: "
                 +:+ showBool (itemCompleted item) +:+ ")");
         priority := Some (if default false (itemCompleted item)
                           then low else medium);
         image := None; dueDate := None;
         createdAt := Some now;
         completed := None; completedAt := None;
         source := Some api;
         offline := None; synced := None |}.

Definition fetchTasksFromApi (forceRefresh : bool) : M (Reply.t json) :=
  let cacheKey := "tasks_list" in
  (* 1. valid cache, unless a refresh is forced *)
  hit <- (if negb forceRefresh
          then cachedData <- StorageService.getCached cacheKey CACHE_EXPIRATION.SHORT ;;
               ret (if truthy cachedData then Some cachedData else None)
          else ret None) ;;
  match hit with
  | Some cachedData =>
      ret (Reply.mk true (Some cachedData) (Some cache) (Some false) None)
  | None =>
      online <- getOnline ;;
      if negb online then
        (* 2. expired cache when offline *)
        expiredCacheData <- StorageService.get ("CACHE_" +:+ cacheKey) ;;
        if truthy (staleData expiredCacheData)
        then ret (Reply.mk true (Some (dataOf expiredCacheData)) (Some cache)
                           (Some true) None)
        else ret (Reply.mk false None None (Some true)
                           (Some "Offline and no cached data available."))
      else
        (* 3. the API, with the expired cache as a fallback *)
        try_catch
          (response <- apiCall API_CONFIG.TASKS GET None ;;
           items <- match response with
                    | RItems items => ret items
                    | RObject _ => throw "TypeError"
                    end ;;
           tasks <- mapM mapItem items ;;
           StorageService.setCached cacheKey (JTasks tasks) CACHE_EXPIRATION.SHORT ;;;
           ret (Reply.mk true (Some (JTasks tasks)) (Some api) (Some false) None))
          (λ message,
             expiredCacheData <- StorageService.get ("CACHE_" +:+ cacheKey) ;;
             if truthy (staleData expiredCacheData)
             then ret (Reply.mk true (Some (dataOf expiredCacheData)) (Some cache)
                                (Some true) None)
             else ret (Reply.mk false None None None (Some message)))
  end.

(** [finalData], [finalSource] and [offlineMode] of [getTasks]: initialised
    to [[]], ['api'] and [false], and overwritten only when the fetch
    succeeded. *)
Definition finalDataOf (apiResult : Reply.t json) : json :=
  if Reply.success apiResult
  then default JNull (Reply.data apiResult) else JTasks [].

Definition finalSourceOf (apiResult : Reply.t json) : option Source :=
  if Reply.success apiResult then Reply.source apiResult else Some api.

Definition offlineModeOf (apiResult : Reply.t json) : option bool :=
  if Reply.success apiResult then Reply.offline apiResult else Some false.

Definition getTasks (forceRefresh : bool) : M (Reply.t (list Task)) :=
  (* 1. API or cached tasks *)
  apiResult <- fetchTasksFromApi forceRefresh ;;
  let finalData := finalDataOf apiResult in
  let finalSource := finalSourceOf apiResult in
  let offlineMode := offlineModeOf apiResult in
  (* 2. permanent local tasks *)
  v <- StorageService.getTasks ;;
  permanentLocalTasks <- asTasks v ;;
  (* 3. combine, deduplicate, sort *)
  remoteTasks <- asTasks finalData ;;
  ret (Reply.mk true (Some (mergeTasks remoteTasks permanentLocalTasks))
                finalSource offlineMode None).

Definition addTask (taskData : Task) : M (Reply.t Task) :=
  i <- generateUniqueId ;;
  now <- dateNow ;;
  let newTask :=
    spread taskData
      {| id := Some i; title := None; description := None; priority := None;
         image := None; dueDate := None; createdAt := Some now;
         completed := None; completedAt := None;
         source := Some local_permanent; offline := Some true;
         synced := Some false |} in
  StorageService.saveTask newTask ;;;
  StorageService.remove "CACHE_tasks_list" ;;;
  ret (Reply.mk true (Some newTask) (Some local_permanent) (Some true) None).

Definition deleteTask (taskId : option string) : M (Reply.t Response) :=
  (* 1. a permanent local task *)
  found <- StorageService.getTaskById taskId ;;
  match found with
  | Some _ =>
      StorageService.deleteTask taskId ;;;
      StorageService.remove "CACHE_tasks_list" ;;;
      ret (Reply.mk true None (Some local_permanent) (Some true) None)
  | None =>
      (* 2. an API or cached task *)
      online <- getOnline ;;
      early <- (if online then
                  try_catch
                    (apiCall (API_CONFIG.TASKS +:+ "/" +:+ showString taskId)
                             DELETE None ;;;
                     ret None)
                    (λ _,
                       addToOfflineChangesQueue Delete (onlyId taskId) ;;;
                       StorageService.remove "CACHE_tasks_list" ;;;
                       ret (Some (Reply.mk true None None (Some true) None)))
                else
                  addToOfflineChangesQueue Delete (onlyId taskId) ;;;
                  ret None) ;;
      match early with
      | Some reply => ret reply
      | None =>
          StorageService.remove "CACHE_tasks_list" ;;;
          online' <- getOnline ;;
          ret (Reply.mk true None None (Some (negb online')) None)
      end
  end.

Definition updateTask (taskId : option string) (updates : Task)
  : M (Reply.t Response) :=
  online <- getOnline ;;
  let queued := spread (onlyId taskId) updates in
  if online then
    try_catch
      (response <- apiCall (API_CONFIG.TASKS +:+ "/" +:+ showString taskId)
                           PUT (Some updates) ;;
       ret (Reply.mk true (Some response) None (Some false) None))
      (λ _,
         addToOfflineChangesQueue Update queued ;;;
         ret (Reply.mk true None None (Some true) None))
  else
    addToOfflineChangesQueue Update queued ;;;
    ret (Reply.mk true None None (Some true) None).

(** One turn of the replay loop, with its try/catch. *)
Definition replay (syncResults : list SyncResult) (change : OfflineChange)
  : M (list SyncResult) :=
  let t := task change in
  try_catch
    (match action change with
     | Create =>
         r <- updateTask (id t) t ;;
         ret (syncResults ++ [mkSyncResult (id t) r Create])%list
     | Delete =>
         deleteTask (id t) ;;;
         ret (syncResults ++
                [mkSyncResult (id t) (Reply.mk true None None None None) Delete])%list
     | Update =>
         r <- updateTask (id t) t ;;
         ret (syncResults ++ [mkSyncResult (id t) r Update])%list
     end)
    (λ _, ret syncResults).

Definition syncOfflineChanges : M SyncReply.t :=
  online <- getOnline ;;
  if negb online then
    ret (SyncReply.mk false None (Some "Cannot sync: Device is offline."))
  else
    v <- StorageService.getOfflineChanges ;;
    changes <- asChanges v ;;
    if bool_decide (length changes = 0%nat) then
      ret (SyncReply.mk true (Some []) None)
    else
      syncResults <- forOf replay changes [] ;;
      StorageService.clearOfflineChanges ;;;
      StorageService.remove "CACHE_tasks_list" ;;;
      ret (SyncReply.mk true (Some syncResults) None).

Definition clearAllCaches : M (Reply.t unit) :=
  try_catch
    (StorageService.clearCache ;;;
     ret (Reply.mk true None None None None))
    (λ message, ret (Reply.mk false None None None (Some message))).

End ApiService.

(** ** The application component: preloading and the theme *)

Module App.

(** [cachedTheme === 'dark']. *)
Definition isDarkName (v : json) : bool :=
  match v with
  | JStr s => String.eqb s "dark"
  | _ => false
  end.

Definition themeName (darkMode : bool) : string :=
  if darkMode then "dark" else "light".

(** [v.length > 0]: an array and a string have a length; for any other
    value the length is undefined and the comparison is false.  (Null, whose
    length cannot be read, is never handed to it: [getTasks] of the
    repository returns an array in its place.) *)
Definition hasPositiveLength (v : json) : bool :=
  match v with
  | JTasks ts => bool_decide (0 < length ts)%nat
  | JChanges cs => bool_decide (0 < length cs)%nat
  | JStr s => bool_decide (0 < String.length s)%nat
  | _ => false
  end.

(** [preloadTasks]: whatever [getTasks] of the repository returns is copied
    into the cache entry of the tasks collection when its length is
    positive: an array that is not empty, and also the text of a TASKS key
    that does not parse. *)
Definition preloadTasks : M unit :=
  try_catch
    (tasks <- StorageService.getTasks ;;
     if hasPositiveLength tasks
     then StorageService.setCached "tasks_list" tasks
                                   CACHE_EXPIRATION.SHORT ;;; ret tt
     else ret tt)
    (λ _, ret tt).

(** [initializeApp]: the result is the value handed to [setIsDark], if any. *)
Definition initializeApp : M (option bool) :=
  try_catch
    (StorageService.migrateLegacyData ;;;
     cachedTheme <- StorageService.getCached "app_theme" CACHE_EXPIRATION.LONG ;;
     if truthy cachedTheme then ret (Some (isDarkName cachedTheme))
     else
       savedTheme <- StorageService.getTheme ;;
       StorageService.setCached "app_theme" savedTheme CACHE_EXPIRATION.LONG ;;;
       ret (Some (isDarkName savedTheme)))
    (λ _, ret None).

Definition handleThemeChange (darkMode : bool) : M unit :=
  try_catch
    (StorageService.saveTheme (themeName darkMode) ;;;
     StorageService.setCached "app_theme" (JStr (themeName darkMode))
                              CACHE_EXPIRATION.LONG ;;;
     ret tt)
    (λ _, ret tt).

End App.

(** ** Predicates and sample data used by the statements *)

(** The storage key of the cached tasks collection. *)
Definition tasksCacheKey : string := STORAGE_KEYS.CACHE_PREFIX +:+ "tasks_list".

(** A world with empty storage, online, whose server rejects every request. *)
Definition sampleWorld : World :=
  mkWorld ∅ true 1700000000000 (λ n, 7 + Z.of_nat n) 0 (λ _ _, None) [].

Definition sampleTask (i : string) (created : Z) : Task :=
  mkTask (Some i) (Some "Buy milk") None (Some low) None None (Some created)
         None None None None None.

(** The TASKS key is absent or holds the array [L] of tasks. *)
Definition holdsTasks (w : World) (L : list Task) : Prop :=
  storage w !! STORAGE_KEYS.TASKS = Some (Doc (JTasks L)) ∨
  (storage w !! STORAGE_KEYS.TASKS = None ∧ L = []).

(** The OFFLINE_CHANGES key is absent or holds the array [Q] of changes. *)
Definition holdsChanges (w : World) (Q : list OfflineChange) : Prop :=
  storage w !! STORAGE_KEYS.OFFLINE_CHANGES = Some (Doc (JChanges Q)) ∨
  (storage w !! STORAGE_KEYS.OFFLINE_CHANGES = None ∧ Q = []).

(** The list that [saveTask t] writes over the stored list [L]. *)
Definition afterSave (t : Task) (L : list Task) : list Task :=
  sortWith newestFirst
    match list_find (λ x, sameId (id x) (id t) = true) L with
    | Some (existingIndex, _) => <[existingIndex := t]> L
    | None => (L ++ [t])%list
    end.

(** The list that [deleteTask taskId] writes over the stored list [L]. *)
Definition afterDelete (taskId : option string) (L : list Task) : list Task :=
  List.filter (λ t, negb (sameId (id t) taskId)) L.

(** The storage after [saveTasks L]: the TASKS key and the cache entry of the
    tasks collection both hold [L]. *)
Definition savedStorage (L : list Task) (w : World) : gmap string stored :=
  <[tasksCacheKey :=
      Doc (JEnvelope (JTasks L) (clock w) CACHE_EXPIRATION.SHORT)]>
    (<[STORAGE_KEYS.TASKS := Doc (JTasks L)]> (storage w)).

(** Every entry of the map is filed under the id of its task, and no key
    occurs twice. *)
Definition wellKeyed (m : list (option string * Task)) : Prop :=
  NoDup (m.*1) ∧ ∀ kv, kv ∈ m → kv.1 = id kv.2.

(** The cache entry of the tasks collection, when it is an envelope with a
    truthy payload, carries an array of tasks.  Nothing is asked of an entry
    that is absent, does not parse or is not an envelope. *)
Definition cacheShape (w : World) : Prop :=
  ∀ d ts e, storage w !! tasksCacheKey = Some (Doc (JEnvelope d ts e)) →
            truthy d = true → ∃ R, d = JTasks R.

(** Two worlds differ at most in the number of random draws. *)
Definition sameButDraws (w w' : World) : Prop :=
  storage w' = storage w ∧ isOnline w' = isOnline w ∧ clock w' = clock w ∧
  entropy w' = entropy w ∧ server w' = server w ∧ requests w' = requests w.

(** A remote record and two permanent records, one of them under the id of
    the remote record. *)
Definition remoteOne : Task :=
  mkTask (Some "1") (Some "delectus aut autem") None (Some medium) None None
         (Some 1699999999000) None None (Some api) None None.

Definition localOne : Task :=
  mkTask (Some "1") (Some "Buy milk") None (Some low) None None
         (Some 1699999000000) None None None None None.

Definition localTwo : Task :=
  mkTask (Some "local-1699999500000-12") (Some "Call home") None (Some high)
         None None (Some 1699999500000) None None (Some local_permanent)
         (Some true) (Some false).

(** A world whose cache entry of the tasks collection is valid and holds
    [cached], and whose repository holds [permanent]. *)
Definition cachedWorld (cached permanent : list Task) : World :=
  setStorage
    (<[tasksCacheKey :=
         Doc (JEnvelope (JTasks cached) (clock sampleWorld - 1000)
                        CACHE_EXPIRATION.SHORT)]>
       (<[STORAGE_KEYS.TASKS := Doc (JTasks permanent)]> ∅))
    sampleWorld.

(** What durability of the permanent task [t] means for one [getTasks] call
    in the world [w] whose repository holds [L]: the call returns success and
    its data has a record with the id of [t]; that record is [t] itself,
    tagged 'local_permanent', when [t] is the repository's record for its id
    and the fetched array [R] has no record with that id; and the repository
    and the shape of the cache are as before, so that the same holds for the
    calls that follow. *)
Definition durableIn (forceRefresh : bool) (w : World) (L : list Task) (t : Task)
  : Prop :=
  ∃ a w1 R reply data,
    ApiService.fetchTasksFromApi forceRefresh w = (Ok a, w1) ∧
    ApiService.finalDataOf a = JTasks R ∧
    ApiService.getTasks forceRefresh w = (Ok reply, w1) ∧
    Reply.success reply = true ∧
    Reply.data reply = Some data ∧
    (∃ t', t' ∈ data ∧ id t' = id t) ∧
    (List.find (λ x, sameId (id x) (id t)) L = Some t →
     id t ∉ id <$> R → markLocal t ∈ data) ∧
    holdsTasks w1 L ∧ cacheShape w1.

(** A world whose cache entry of the tasks collection does not parse and
    whose server rejects every request. *)
Definition corruptWorld : World :=
  setStorage
    (<[tasksCacheKey := Garbled "{not json"]>
       (<[STORAGE_KEYS.TASKS := Doc (JTasks [localOne; localTwo])]> ∅))
    sampleWorld.

(** The list is already in the order of the comparator: no element has to go
    after its successor. *)
Fixpoint alreadySorted {A : Type} (cmp : A → A → Z) (l : list A) : bool :=
  match l with
  | a :: (b :: _) as l' => negb (0 <? cmp a b) && alreadySorted cmp l'
  | _ => true
  end.

(** The id that [generateUniqueId] produces in the world [w]. *)
Definition localId (w : World) : string :=
  "local-" +:+ pretty (clock w) +:+ "-" +:+ pretty (entropy w (draws w) `mod` 1000).

(** [taskData.id] is falsy: undefined or the empty string. *)
Definition needsId (taskData : Task) : bool :=
  match id taskData with
  | Some s => String.eqb s EmptyString
  | None => true
  end.

(** The change that [addToOfflineChangesQueue action taskData] builds in the
    world [w], and the world it leaves when the queue held [Q]. *)
Definition queuedChange (act : Action) (taskData : Task) (w : World)
  : OfflineChange :=
  mkChange act
    (spread taskData
       (spread (withId (if needsId taskData then localId w
                        else default EmptyString (id taskData)))
               (withSynced false)))
    (clock w).

Definition enqueued (act : Action) (taskData : Task) (Q : list OfflineChange)
    (w : World) : World :=
  setStorage
    (<[STORAGE_KEYS.OFFLINE_CHANGES :=
         Doc (JChanges (Q ++ [queuedChange act taskData w]))]> (storage w))
    (if needsId taskData then nextDraw w else w).

(** The request that replays a queued change whose task is not a permanent
    local one. *)
Definition requestOf (c : OfflineChange) : Request :=
  match action c with
  | Delete =>
      mkRequest DELETE (API_CONFIG.TASKS +:+ "/" +:+ showString (id (task c))) None
  | _ =>
      mkRequest PUT (API_CONFIG.TASKS +:+ "/" +:+ showString (id (task c)))
                (Some (task c))
  end.

(** Both arrays of the store have their shape. *)
Definition wellShaped (w : World) : Prop :=
  (∃ L, holdsTasks w L) ∧ (∃ Q, holdsChanges w Q).

(** The world once the cache entry of the tasks collection is removed. *)
Definition withoutTasksCache (w : World) : World :=
  setStorage (delete tasksCacheKey (storage w)) w.

(** Three mutations made offline, in this order: an update of task 7, a
    delete of task 8, an update of task 9; then the device comes back online.
    None of the ids is a permanent local task. *)
Definition titled (s : string) : Task :=
  mkTask None (Some s) None None None None None None None None None None.

Definition afterABC : World :=
  setOnline true
    (ApiService.updateTask (Some "9") (titled "C")
       (ApiService.deleteTask (Some "8")
          (ApiService.updateTask (Some "7") (titled "A")
             (setOnline false sampleWorld)).2).2).2.

Definition changesABC : list OfflineChange :=
  [ queuedChange Update (spread (onlyId (Some "7")) (titled "A")) sampleWorld;
    queuedChange Delete (onlyId (Some "8")) sampleWorld;
    queuedChange Update (spread (onlyId (Some "9")) (titled "C")) sampleWorld ].

(** A cache entry that [getCached] cannot use: a text that is there but does
    not parse, or a document that is not an envelope. *)
Definition unreadable (item : stored) : bool :=
  match item with
  | Garbled EmptyString => false
  | Garbled _ => true
  | Doc (JEnvelope _ _ _) => false
  | Doc _ => true
  end.

(** The task has a creation date that parses. *)
Definition dated (t : Task) : Prop := is_Some (createdAt t).

(** [a] was created no earlier than [b]. *)
Definition notOlder (a b : Task) : Prop :=
  ∃ ta tb, createdAt a = Some ta ∧ createdAt b = Some tb ∧ tb ≤ ta.

(** [Array.from(uniqueTasksMap.values())]: the tasks of the merge before they
    are sorted. *)
Definition uniqueTasks (finalData permanentLocalTasks : list Task) : list Task :=
  mapValues (uniqueTasksMap (finalData ++ (markLocal <$> permanentLocalTasks))%list).

(** [data] is what the merge makes of the fetched tasks [R] and the permanent
    tasks [L]: the deduplicated tasks, and these in the order newest first
    (ties in the order of the deduplication) when all of them have a creation
    date. *)
Definition isMergeOf (data R L : list Task) : Prop :=
  data ≡ₚ uniqueTasks R L ∧
  (Forall dated R → Forall dated L → data = mergeTasks R L).

(** The list of [saveTask t] over the stored list [L] before it is sorted:
    [t] replaces the first task stored under its id, or is appended. *)
Definition upserted (t : Task) (L : list Task) : list Task :=
  match list_find (λ x, sameId (id x) (id t) = true) L with
  | Some (existingIndex, _) => <[existingIndex := t]> L
  | None => (L ++ [t])%list
  end.

(** [L'] is what [saveTask t] writes over the stored list [L]: the upserted
    list, and it in the order newest first when all its tasks have a
    creation date. *)
Definition isSaveOf (L' : list Task) (t : Task) (L : list Task) : Prop :=
  L' ≡ₚ upserted t L ∧
  (dated t → Forall dated L → L' = afterSave t L).

(** What [saveTasks L'] called at the time [now] leaves in the world [w1]:
    the TASKS key holds [L'], the cache entry of the tasks collection holds
    [L'] too, stamped [now] with the SHORT window, and a validity-checked
    read of it is a hit. *)
Definition rewritten (w1 : World) (L' : list Task) (now : Z) : Prop :=
  storage w1 !! STORAGE_KEYS.TASKS = Some (Doc (JTasks L')) ∧
  storage w1 !! tasksCacheKey
    = Some (Doc (JEnvelope (JTasks L') now CACHE_EXPIRATION.SHORT)) ∧
  clock w1 = now ∧
  StorageService.getCached "tasks_list" CACHE_EXPIRATION.SHORT w1
    = (Ok (JTasks L'), w1).

(** The orchestrator call that replays a queued change: [deleteTask] for a
    'delete', [updateTask] for anything else. *)
Definition replayCall (c : OfflineChange) : M (Reply.t Response) :=
  match action c with
  | Delete => ApiService.deleteTask (id (task c))
  | _ => ApiService.updateTask (id (task c)) (task c)
  end.

(** The world after the changes were replayed one after the other, in the
    order of the list. *)
Definition replayedWorld (cs : list OfflineChange) (w : World) : World :=
  fold_left (λ w' c, (replayCall c w').2) cs w.

(** The world once the offline queue and the cache entry of the tasks
    collection are removed. *)
Definition drained (w : World) : World :=
  setStorage (delete tasksCacheKey
                (delete STORAGE_KEYS.OFFLINE_CHANGES (storage w))) w.

(** The object that the details screen hands to [updateTask] when the
    completion of [task] is toggled at the time [now]:
    [{ ...task, completed: !task.completed,
       completedAt: !task.completed ? now : null }]. *)
Definition toggled (t : Task) (now : Z) : Task :=
  let done := negb (default false (completed t)) in
  spread t
    (mkTask None None None None None None None (Some done)
            (Some (if done then NotNull now else Null)) None None None).

(** A permanent task that was completed. *)
Definition doneTask : Task :=
  mkTask (Some "local-1699999600000-3") (Some "Water the plants") None
         (Some low) None None (Some 1699999600000) (Some true)
         (Some (NotNull 1699999700000)) (Some local_permanent) (Some true)
         (Some false).


(** The keys that [clearAllData] removes. *)
Definition clearedByClearAllData (key : string) : bool :=
  bool_decide (key = STORAGE_KEYS.USER)
  || bool_decide (key = STORAGE_KEYS.OFFLINE_CHANGES)
  || String.prefix STORAGE_KEYS.CACHE_PREFIX key.

(** The keys that [migrateLegacyData] fixes. *)
Definition fixedByMigration (key : string) : bool :=
  bool_decide (key = STORAGE_KEYS.USER)
  || bool_decide (key = STORAGE_KEYS.TASKS)
  || bool_decide (key = STORAGE_KEYS.SETTINGS).

(** A text that is there and that [JSON.parse] rejects. *)
Definition corrupted (o : option stored) : bool :=
  match o with
  | Some (Garbled EmptyString) => false
  | Some (Garbled _) => true
  | _ => false
  end.

(** The value is a string. *)
Definition isText (v : json) : bool :=
  match v with JStr _ => true | _ => false end.

(** The task that [addTask taskData] builds in the world [w]. *)
Definition newTaskOf (taskData : Task) (w : World) : Task :=
  spread taskData
    {| id := Some (localId w); title := None; description := None;
       priority := None; image := None; dueDate := None;
       createdAt := Some (clock w); completed := None; completedAt := None;
       source := Some local_permanent; offline := Some true;
       synced := Some false |}.

(** The request of the fetch step. *)
Definition fetchRequest : Request := mkRequest GET API_CONFIG.TASKS None.

(** A server that answers the GET of the collection with two items and
    everything else with an empty object, and a world that is online with it
    and has empty storage. *)
Definition twoItems : list RemoteItem :=
  [ mkItem (Some 1) (Some "delectus aut autem") (Some 1) (Some false);
    mkItem (Some 2) (Some "quis ut nam") (Some 1) (Some true) ].

Definition answeringServer (history : list Request) (r : Request)
  : option Response :=
  match method r with
  | GET => Some (RItems twoItems)
  | _ => Some (RObject emptyTask)
  end.

Definition servedWorld : World :=
  mkWorld ∅ true 1700000000000 (λ n, 7 + Z.of_nat n) 0 answeringServer [].

(** A world whose cache entry of the tasks collection holds [cached] and is
    an hour old, and whose repository holds [permanent]. *)
Definition staleWorld (cached permanent : list Task) : World :=
  setStorage
    (<[tasksCacheKey :=
         Doc (JEnvelope (JTasks cached) (clock sampleWorld - 3600000)
                        CACHE_EXPIRATION.SHORT)]>
       (<[STORAGE_KEYS.TASKS := Doc (JTasks permanent)]> ∅))
    sampleWorld.

(** * Properties *)

(** ** Running the sequencing combinators *)

Ltac run :=
  repeat (progress (cbv beta delta
    [bind ret throw try_catch dateNow AsyncStorage.getItem
     AsyncStorage.setItem AsyncStorage.removeItem StorageService.remove
     StorageService.set ApiService.getOnline] iota; cbn [fst snd])).

Lemma storage_setStorage (s : gmap string stored) (w : World) :
  storage (setStorage s w) = s.
Proof. reflexivity. Qed.

Lemma clock_setStorage (s : gmap string stored) (w : World) :
  clock (setStorage s w) = clock w.
Proof. reflexivity. Qed.

Lemma setStorage_twice (s s' : gmap string stored) (w : World) :
  setStorage s (setStorage s' w) = setStorage s w.
Proof. reflexivity. Qed.

(** ** The cache layer *)

Lemma getCached_envelope (k : string) (win : Z) (w : World) d ts e :
  storage w !! (STORAGE_KEYS.CACHE_PREFIX +:+ k) = Some (Doc (JEnvelope d ts e)) →
  StorageService.getCached k win w =
    if clock w - ts <? win then (Ok d, w)
    else (Ok JNull,
          setStorage (delete (STORAGE_KEYS.CACHE_PREFIX +:+ k) (storage w)) w).
Proof.
  intros H. unfold StorageService.getCached. run. rewrite H. run.
  destruct (clock w - ts <? win); reflexivity.
Qed.

Lemma get_absent (key : string) (w : World) :
  storage w !! key = None → StorageService.get key w = (Ok JNull, w).
Proof. intros H. unfold StorageService.get. run. by rewrite H. Qed.

Lemma setCached_world (k : string) (v : json) (win : Z) (w : World) :
  StorageService.setCached k v win w =
    (Ok true,
     setStorage (<[STORAGE_KEYS.CACHE_PREFIX +:+ k :=
                     Doc (JEnvelope v (clock w) win)]> (storage w)) w).
Proof. reflexivity. Qed.

(** C3. A value written with [setCached k v w] is returned by an immediate
    [getCached k w]; once [w] milliseconds or more have passed since the
    write, [getCached k w] returns null and deletes the entry, so that a raw
    read of the cache key finds nothing. *)
Theorem setCached_getCached_expiration
    (k : string) (v : json) (win : Z) (w : World) :
  0 < win →
  let w1 := (StorageService.setCached k v win w).2 in
  StorageService.getCached k win w1 = (Ok v, w1) ∧
  ∀ d, win ≤ d →
    let r := StorageService.getCached k win (advance d w1) in
    r.1 = Ok JNull ∧
    storage r.2 !! (STORAGE_KEYS.CACHE_PREFIX +:+ k) = None ∧
    StorageService.get (STORAGE_KEYS.CACHE_PREFIX +:+ k) r.2 = (Ok JNull, r.2).
Proof.
  intros Hwin w1. subst w1. rewrite setCached_world. cbn [snd]. split.
  - erewrite getCached_envelope by (rewrite storage_setStorage; apply lookup_insert_eq).
    rewrite clock_setStorage.
    replace (clock w - clock w <? win) with true; [done|].
    symmetry. apply Z.ltb_lt. lia.
  - intros d Hd. cbv zeta.
    erewrite getCached_envelope by (cbn; apply lookup_insert_eq).
    replace (clock (advance d (setStorage _ w)) - clock w <? win) with false.
    + cbn [fst snd]. rewrite storage_setStorage. split; [done|].
      split; [apply lookup_delete_eq|].
      apply get_absent. rewrite storage_setStorage. apply lookup_delete_eq.
    + symmetry. apply Z.ltb_ge. cbn. lia.
Qed.

Lemma setCached_getCached_expiration_witness :
  0 < CACHE_EXPIRATION.SHORT ∧
  StorageService.getCached "tasks_list" CACHE_EXPIRATION.SHORT
    (StorageService.setCached "tasks_list" (JTasks [sampleTask "1" 5])
       CACHE_EXPIRATION.SHORT sampleWorld).2
  = (Ok (JTasks [sampleTask "1" 5]),
     (StorageService.setCached "tasks_list" (JTasks [sampleTask "1" 5])
        CACHE_EXPIRATION.SHORT sampleWorld).2) ∧
  (StorageService.getCached "tasks_list" CACHE_EXPIRATION.SHORT
     (advance (CACHE_EXPIRATION.SHORT + 1)
        (StorageService.setCached "tasks_list" (JTasks [sampleTask "1" 5])
           CACHE_EXPIRATION.SHORT sampleWorld).2)).1 = Ok JNull.
Proof.
  assert (Hpos : 0 < CACHE_EXPIRATION.SHORT) by (vm_compute; reflexivity).
  split; [exact Hpos|].
  destruct (setCached_getCached_expiration "tasks_list"
              (JTasks [sampleTask "1" 5]) CACHE_EXPIRATION.SHORT sampleWorld Hpos)
    as [Hnow Hlater].
  split; [exact Hnow|].
  refine (proj1 (Hlater (CACHE_EXPIRATION.SHORT + 1) _)).
  vm_compute. discriminate.
Defined.

(** C10. The window that [getCached] applies is the caller's argument; the
    [expirationTime] written into the envelope by [setCached] is never read.
    Two envelopes that differ only in it read alike; whatever it is, the
    entry is a hit for every window larger than its age and an expired miss,
    with the entry deleted, for every window up to its age. *)
Theorem getCached_window_is_the_callers
    (k : string) (d0 : json) (ts e1 e2 : Z) (w : World) :
  let put e :=
    setStorage (<[STORAGE_KEYS.CACHE_PREFIX +:+ k := Doc (JEnvelope d0 ts e)]>
                  (storage w)) w in
  (∀ win, (StorageService.getCached k win (put e1)).1
          = (StorageService.getCached k win (put e2)).1) ∧
  (∀ win, clock w - ts < win →
          StorageService.getCached k win (put e1) = (Ok d0, put e1)) ∧
  (∀ win, win ≤ clock w - ts →
          let r := StorageService.getCached k win (put e1) in
          r.1 = Ok JNull ∧
          storage r.2 !! (STORAGE_KEYS.CACHE_PREFIX +:+ k) = None).
Proof.
  intros put.
  assert (Hread : ∀ e win,
            StorageService.getCached k win (put e) =
            if clock w - ts <? win then (Ok d0, put e)
            else (Ok JNull,
                  setStorage (delete (STORAGE_KEYS.CACHE_PREFIX +:+ k)
                                     (storage (put e))) (put e))).
  { intros e win. erewrite getCached_envelope; [reflexivity|].
    subst put. cbn. apply lookup_insert_eq. }
  split; [|split].
  - intros win. rewrite !Hread. by destruct (clock w - ts <? win).
  - intros win Hlt. rewrite Hread.
    by replace (clock w - ts <? win) with true by (symmetry; apply Z.ltb_lt; lia).
  - intros win Hge. cbv zeta. rewrite Hread.
    replace (clock w - ts <? win) with false by (symmetry; apply Z.ltb_ge; lia).
    split; [done|]. cbn. apply lookup_delete_eq.
Qed.

Lemma getCached_window_is_the_callers_witness :
  let w1 :=
    setStorage (<[tasksCacheKey :=
                    Doc (JEnvelope (JNum 42) (clock sampleWorld - 1000) 5)]>
                  (storage sampleWorld)) sampleWorld in
  StorageService.getCached "tasks_list" 1001 w1 = (Ok (JNum 42), w1) ∧
  (StorageService.getCached "tasks_list" 1000 w1).1 = Ok JNull.
Proof.
  destruct (getCached_window_is_the_callers "tasks_list" (JNum 42)
              (clock sampleWorld - 1000) 5 7 sampleWorld) as (_ & Hhit & Hmiss).
  split.
  - apply (Hhit 1001). vm_compute. reflexivity.
  - refine (proj1 (Hmiss 1000 _)). vm_compute. discriminate.
Defined.

(** ** Sorting permutes *)

Lemma insertSorted_Permutation {A : Type} (cmp : A → A → Z) (a : A) (l : list A) :
  insertSorted cmp a l ≡ₚ a :: l.
Proof.
  induction l as [|b l IH]; cbn; [done|].
  destruct (0 <? cmp a b); [|done].
  rewrite IH. apply Permutation_swap.
Qed.

Lemma sortWith_Permutation {A : Type} (cmp : A → A → Z) (l : list A) :
  sortWith cmp l ≡ₚ l.
Proof.
  induction l as [|a l IH]; cbn; [done|].
  rewrite insertSorted_Permutation. by rewrite IH.
Qed.

Lemma afterSave_isSaveOf (t : Task) (L : list Task) :
  isSaveOf (afterSave t L) t L.
Proof. split; [apply sortWith_Permutation|done]. Qed.

Lemma mergeTasks_isMergeOf (R L : list Task) : isMergeOf (mergeTasks R L) R L.
Proof. split; [apply sortWith_Permutation|done]. Qed.

(** ** The Task Repository *)

Lemma getTasks_holds (w : World) (L : list Task) :
  holdsTasks w L → StorageService.getTasks w = (Ok (JTasks L), w).
Proof.
  intros [H | [H ->]]; unfold StorageService.getTasks, StorageService.get;
    run; rewrite H; reflexivity.
Qed.

Lemma saveTasks_world (L : list Task) (w : World) :
  StorageService.saveTasks L w = (Ok tt, setStorage (savedStorage L w) w).
Proof. reflexivity. Qed.

Lemma tasksCacheKey_not_TASKS : tasksCacheKey ≠ STORAGE_KEYS.TASKS.
Proof. intros E. vm_compute in E. discriminate E. Qed.

Lemma tasksCacheKey_not_OFFLINE_CHANGES :
  tasksCacheKey ≠ STORAGE_KEYS.OFFLINE_CHANGES.
Proof. intros E. vm_compute in E. discriminate E. Qed.

Lemma TASKS_not_OFFLINE_CHANGES :
  STORAGE_KEYS.TASKS ≠ STORAGE_KEYS.OFFLINE_CHANGES.
Proof. intros E. vm_compute in E. discriminate E. Qed.

Lemma holdsTasks_saved (L : list Task) (w : World) :
  holdsTasks (setStorage (savedStorage L w) w) L.
Proof.
  left. rewrite storage_setStorage. unfold savedStorage.
  rewrite lookup_insert_ne by apply tasksCacheKey_not_TASKS.
  apply lookup_insert_eq.
Qed.

Lemma getCached_saved (L : list Task) (w : World) :
  StorageService.getCached "tasks_list" CACHE_EXPIRATION.SHORT
    (setStorage (savedStorage L w) w)
  = (Ok (JTasks L), setStorage (savedStorage L w) w).
Proof.
  erewrite getCached_envelope by (cbn; apply lookup_insert_eq).
  cbn [clock setStorage]. by rewrite Z.sub_diag.
Qed.

Lemma saveTask_world (t : Task) (w : World) (L : list Task) :
  holdsTasks w L →
  StorageService.saveTask t w
  = (Ok t, setStorage (savedStorage (afterSave t L) w) w).
Proof.
  intros H. unfold StorageService.saveTask, bind at 1.
  rewrite (getTasks_holds w L H). reflexivity.
Qed.

Lemma deleteTask_world (i : option string) (w : World) (L : list Task) :
  holdsTasks w L →
  StorageService.deleteTask i w
  = (Ok true, setStorage (savedStorage (afterDelete i L) w) w).
Proof.
  intros H. unfold StorageService.deleteTask, bind at 1.
  rewrite (getTasks_holds w L H). reflexivity.
Qed.

Lemma updateTask_world (i : option string) (u : Task) (w : World) (L : list Task) :
  holdsTasks w L →
  StorageService.updateTask i u w
  = match list_find (λ x, sameId (id x) i = true) L with
    | Some (n, old) =>
        (Ok (Some (spread old u)),
         setStorage (savedStorage (<[n := spread old u]> L) w) w)
    | None => (Ok None, w)
    end.
Proof.
  intros H. unfold StorageService.updateTask, bind at 1.
  rewrite (getTasks_holds w L H). cbn [asTasks]. unfold bind at 1, ret at 1.
  destruct (list_find _ L) as [[n old]|]; reflexivity.
Qed.

Lemma getTaskById_world (i : option string) (w : World) (L : list Task) :
  holdsTasks w L →
  StorageService.getTaskById i w
  = (Ok (List.find (λ t, sameId (id t) i) L), w).
Proof.
  intros H. unfold StorageService.getTaskById, bind at 1.
  rewrite (getTasks_holds w L H). reflexivity.
Qed.

Lemma holdsTasks_same_storage (w w' : World) (L : list Task) :
  storage w' = storage w → holdsTasks w L → holdsTasks w' L.
Proof. unfold holdsTasks. intros ->. done. Qed.

Lemma holdsChanges_same_storage (w w' : World) (Q : list OfflineChange) :
  storage w' = storage w → holdsChanges w Q → holdsChanges w' Q.
Proof. unfold holdsChanges. intros ->. done. Qed.

Lemma generateUniqueId_world (w : World) :
  generateUniqueId w
  = (Ok ("local-" +:+ pretty (clock w) +:+ "-"
           +:+ pretty (entropy w (draws w) `mod` 1000)), nextDraw w).
Proof. reflexivity. Qed.

Lemma addTask_removes_cache_entry (taskData : Task) (w : World) (L : list Task) :
  holdsTasks w L →
  ∃ r w', ApiService.addTask taskData w = (Ok r, w') ∧
          Reply.success r = true ∧
          storage w' !! tasksCacheKey = None.
Proof.
  intros H. unfold ApiService.addTask, bind at 1.
  rewrite generateUniqueId_world. unfold bind at 1, dateNow at 1.
  unfold bind at 1.
  erewrite saveTask_world
    by (eapply holdsTasks_same_storage; [|exact H]; reflexivity).
  run. eexists _, _. split; [reflexivity|]. split; [reflexivity|].
  cbn. apply lookup_delete_eq.
Qed.

Lemma rewritten_saved (L' : list Task) (w : World) :
  rewritten (setStorage (savedStorage L' w) w) L' (clock w).
Proof.
  split; [|split; [|split]].
  - rewrite storage_setStorage. unfold savedStorage.
    rewrite lookup_insert_ne by apply tasksCacheKey_not_TASKS.
    apply lookup_insert_eq.
  - rewrite storage_setStorage. apply lookup_insert_eq.
  - reflexivity.
  - apply getCached_saved.
Qed.

(** C8, as the code has it.  A Task Repository call that writes the list
    ([saveTask], [deleteTask], and [updateTask] when the id is found) writes
    the new permanent list under TASKS and also overwrites the cache entry of
    the tasks collection with that list, stamped with the time of the call
    and the SHORT window: right after the call a validity-checked read is a
    hit and returns the permanent list.  The list is, for [saveTask], the
    upserted list (sorted newest first when all its tasks have a creation
    date); for [deleteTask], the stored list without the tasks under the id;
    for [updateTask], the stored list with the updates spread into the first
    task under the id.  [updateTask] with an unknown id changes nothing.
    The entry is removed by the orchestrator: after [ApiService.addTask] the
    cache key is absent. *)
Theorem repository_calls_rewrite_tasks_cache (w : World) (L : list Task) :
  holdsTasks w L →
  (∀ t, ∃ L', rewritten (StorageService.saveTask t w).2 L' (clock w) ∧
              isSaveOf L' t L) ∧
  (∀ i, rewritten (StorageService.deleteTask i w).2 (afterDelete i L) (clock w)) ∧
  (∀ i u, match list_find (λ x, sameId (id x) i = true) L with
          | Some (n, old) =>
              rewritten (StorageService.updateTask i u w).2
                        (<[n := spread old u]> L) (clock w)
          | None => StorageService.updateTask i u w = (Ok None, w)
          end) ∧
  (∀ taskData, storage (ApiService.addTask taskData w).2 !! tasksCacheKey = None).
Proof.
  intros H. split; [|split; [|split]].
  - intros t. exists (afterSave t L). rewrite (saveTask_world t w L H).
    split; [apply rewritten_saved|apply afterSave_isSaveOf].
  - intros i. rewrite (deleteTask_world i w L H). apply rewritten_saved.
  - intros i u. rewrite (updateTask_world i u w L H).
    destruct (list_find _ L) as [[n old]|]; [|reflexivity].
    apply rewritten_saved.
  - intros taskData.
    destruct (addTask_removes_cache_entry taskData w L H) as (r & w' & -> & _ & Hc).
    exact Hc.
Qed.

Lemma repository_calls_rewrite_tasks_cache_witness :
  let w := cachedWorld [remoteOne] [localOne; doneTask] in
  let u := toggled doneTask (clock w) in
  holdsTasks w [localOne; doneTask] ∧
  rewritten (StorageService.updateTask (id doneTask) u w).2
            [localOne; spread doneTask u] (clock w) ∧
  completed (spread doneTask u) = Some false ∧
  completedAt (spread doneTask u) = Some Null ∧
  rewritten (StorageService.deleteTask (Some "1") w).2 [doneTask] (clock w).
Proof.
  cbv zeta. set (w := cachedWorld [remoteOne] [localOne; doneTask]).
  assert (H : holdsTasks w [localOne; doneTask]) by (left; vm_compute; reflexivity).
  destruct (repository_calls_rewrite_tasks_cache w [localOne; doneTask] H)
    as (_ & Hdel & Hupd & _).
  specialize (Hupd (id doneTask) (toggled doneTask (clock w))).
  assert (Hfind : list_find (λ x, sameId (id x) (id doneTask) = true)
                    [localOne; doneTask] = Some (1%nat, doneTask))
    by (vm_compute; reflexivity).
  rewrite Hfind in Hupd.
  split; [exact H|]. split; [exact Hupd|].
  split; [reflexivity|]. split; [reflexivity|].
  exact (Hdel (Some "1")).
Defined.

(** C8, as stated, fails: right after [saveTask], [deleteTask] and
    [updateTask] a validity-checked read of the tasks collection is a hit. *)
Lemma repository_calls_leave_valid_cache_entry :
  let t := sampleTask "1" 5 in
  let w1 := (StorageService.saveTask t sampleWorld).2 in
  let w2 := (StorageService.deleteTask (Some "2") w1).2 in
  let w3 := (StorageService.updateTask (Some "1") (withSynced true) w2).2 in
  (StorageService.getCached "tasks_list" CACHE_EXPIRATION.SHORT w1).1
    = Ok (JTasks [t]) ∧
  (StorageService.getCached "tasks_list" CACHE_EXPIRATION.SHORT w2).1
    = Ok (JTasks [t]) ∧
  (StorageService.getCached "tasks_list" CACHE_EXPIRATION.SHORT w3).1
    = Ok (JTasks [spread t (withSynced true)]).
Proof. vm_compute. repeat split. Qed.

(** ** The insertion-ordered map *)

Lemma mapHas_elem_of {V : Type} (k : option string) (m : list (option string * V)) :
  mapHas k m = true ↔ k ∈ m.*1.
Proof.
  unfold mapHas. induction m as [|[k' v'] m IH]; cbn.
  - split; [done|]. intros H. by apply elem_of_nil in H.
  - rewrite orb_true_iff, IH, elem_of_cons. unfold sameId.
    rewrite bool_decide_eq_true. split; (intros [->|?]; [by left|by right]).
Qed.

Lemma mapSet_absent {V : Type} (k : option string) (v : V)
    (m : list (option string * V)) :
  k ∉ m.*1 → mapSet k v m = (m ++ [(k, v)])%list.
Proof.
  induction m as [|[k' v'] m IH]; cbn; [done|]. intros Hk.
  apply not_elem_of_cons in Hk as [Hne Hk].
  unfold sameId. rewrite bool_decide_eq_false_2 by congruence.
  by rewrite IH.
Qed.

Lemma mapSet_keys_present {V : Type} (k : option string) (v : V)
    (m : list (option string * V)) :
  k ∈ m.*1 → (mapSet k v m).*1 = m.*1.
Proof.
  induction m as [|[k' v'] m IH]; cbn.
  - intros H. by apply elem_of_nil in H.
  - intros H. unfold sameId. destruct (bool_decide_reflect (k' = k)) as [->|Hne].
    + reflexivity.
    + cbn. f_equal. apply IH. apply elem_of_cons in H as [->|H]; [done|exact H].
Qed.

Lemma mapSet_elem_of {V : Type} (k : option string) (v : V)
    (m : list (option string * V)) (kv : option string * V) :
  kv ∈ mapSet k v m → kv = (k, v) ∨ kv ∈ m.
Proof.
  induction m as [|[k' v'] m IH]; cbn.
  - intros H. apply list_elem_of_singleton in H. by left.
  - unfold sameId. destruct (bool_decide (k' = k)).
    + intros H. apply elem_of_cons in H as [->|H]; [by left|].
      right. by apply elem_of_cons; right.
    + intros H. apply elem_of_cons in H as [->|H].
      * right. by apply elem_of_cons; left.
      * destruct (IH H) as [->|H']; [by left|]. right. by apply elem_of_cons; right.
Qed.

(** ** The deduplication loop *)

Lemma wellKeyed_nil : wellKeyed [].
Proof. split; [constructor|]. intros kv H. by apply elem_of_nil in H. Qed.

Lemma uniqueStep_cases (m : list (option string * Task)) (t : Task) :
  ((id t ∉ m.*1) ∧ uniqueStep m t = (m ++ [(id t, t)])%list) ∨
  (id t ∈ m.*1 ∧ isApiOrCache (source t) = true ∧
   uniqueStep m t = mapSet (id t) t m) ∨
  (id t ∈ m.*1 ∧ isApiOrCache (source t) = false ∧ uniqueStep m t = m).
Proof.
  unfold uniqueStep. destruct (mapHas (id t) m) eqn:Hhas.
  - apply mapHas_elem_of in Hhas. right. cbn.
    destruct (isApiOrCache (source t)); [left|right]; done.
  - assert (id t ∉ m.*1) as Hno.
    { intros Hin. apply mapHas_elem_of in Hin. congruence. }
    left. cbn. split; [done|]. by apply mapSet_absent.
Qed.

Lemma uniqueStep_wellKeyed (m : list (option string * Task)) (t : Task) :
  wellKeyed m → wellKeyed (uniqueStep m t).
Proof.
  intros [Hnd Hk].
  destruct (uniqueStep_cases m t) as [[Hno ->]|[(Hin & _ & ->)|(_ & _ & ->)]].
  - split.
    + rewrite fmap_app. cbn. apply NoDup_app. split; [done|].
      split; [|apply NoDup_singleton].
      intros k Hkm Hks. apply list_elem_of_singleton in Hks. by subst.
    + intros kv H. apply elem_of_app in H as [H|H]; [by apply Hk|].
      apply list_elem_of_singleton in H. by subst.
  - split.
    + by rewrite mapSet_keys_present.
    + intros kv H. apply mapSet_elem_of in H as [->|H]; [done|by apply Hk].
  - done.
Qed.

Lemma uniqueStep_keys (m : list (option string * Task)) (t : Task) (k : option string) :
  k ∈ (uniqueStep m t).*1 ↔ k ∈ m.*1 ∨ k = id t.
Proof.
  destruct (uniqueStep_cases m t) as [[Hno ->]|[(Hin & _ & ->)|(Hin & _ & ->)]].
  - rewrite fmap_app, elem_of_app. cbn. by rewrite list_elem_of_singleton.
  - rewrite mapSet_keys_present by done.
    split; [by left|]. by intros [?| ->].
  - split; [by left|]. by intros [?| ->].
Qed.

Lemma uniqueStep_values (m : list (option string * Task)) (t : Task)
    (kv : option string * Task) :
  kv ∈ uniqueStep m t → kv ∈ m ∨ kv.2 = t.
Proof.
  destruct (uniqueStep_cases m t) as [[Hno ->]|[(Hin & _ & ->)|(Hin & _ & ->)]].
  - intros H. apply elem_of_app in H as [H|H]; [by left|].
    apply list_elem_of_singleton in H. right. by subst.
  - intros H. apply mapSet_elem_of in H as [->|H]; [by right|by left].
  - by left.
Qed.

(** After the loop over a list of tasks, starting from a well-keyed map. *)
Lemma fold_uniqueStep_spec (ts : list Task) (m : list (option string * Task)) :
  wellKeyed m →
  let m' := fold_left uniqueStep ts m in
  wellKeyed m' ∧
  (∀ k, k ∈ m'.*1 ↔ k ∈ m.*1 ∨ k ∈ id <$> ts) ∧
  (∀ kv, kv ∈ m' → kv ∈ m ∨ kv.2 ∈ ts).
Proof.
  revert m. induction ts as [|t ts IH]; intros m Hm; cbn.
  - split; [done|]. split.
    + intros k. split; [by left|]. intros [?|H]; [done|by apply elem_of_nil in H].
    + intros kv H. by left.
  - destruct (IH (uniqueStep m t) (uniqueStep_wellKeyed m t Hm)) as (Hwk & Hkeys & Hvals).
    split; [done|]. split.
    + intros k. rewrite Hkeys, uniqueStep_keys, elem_of_cons. tauto.
    + intros kv H. destruct (Hvals kv H) as [H'|H'].
      * destruct (uniqueStep_values m t kv H') as [?| ->]; [by left|].
        right. by apply elem_of_cons; left.
      * right. by apply elem_of_cons; right.
Qed.

Lemma wellKeyed_ids (m : list (option string * Task)) :
  wellKeyed m → id <$> mapValues m = m.*1.
Proof.
  intros [_ Hk]. unfold mapValues. induction m as [|kv m IH]; cbn; [done|].
  rewrite IH.
  - f_equal. symmetry. apply Hk. by apply elem_of_cons; left.
  - intros kv' H. apply Hk. by apply elem_of_cons; right.
Qed.

(** Tasks that are tagged neither 'api' nor 'cache' never replace an entry:
    the loop over them only appends entries under ids that are new. *)
Lemma fold_uniqueStep_local (ls : list Task) (m : list (option string * Task)) :
  (∀ t, t ∈ ls → isApiOrCache (source t) = false) →
  ∃ extra, fold_left uniqueStep ls m = (m ++ extra)%list ∧
           (∀ kv, kv ∈ extra → kv.1 ∉ m.*1) ∧
           (∀ t, List.find (λ x, sameId (id x) (id t)) ls = Some t →
                 id t ∉ m.*1 → (id t, t) ∈ extra).
Proof.
  revert m. induction ls as [|t0 ls IH]; intros m Hloc; cbn.
  - exists []. rewrite app_nil_r. split; [done|]. split.
    + intros kv H. by apply elem_of_nil in H.
    + intros t H. discriminate H.
  - assert (Hloc' : ∀ t, t ∈ ls → isApiOrCache (source t) = false).
    { intros t H. apply Hloc. by apply elem_of_cons; right. }
    assert (Hsrc : isApiOrCache (source t0) = false).
    { apply Hloc. by apply elem_of_cons; left. }
    destruct (IH (uniqueStep m t0) Hloc') as (extra & Heq & Hnew & Hfirst).
    destruct (uniqueStep_cases m t0) as [[Hno Hstep]|[(_ & Htrue & _)|(Hin & _ & Hstep)]].
    + (* a new id: appended *)
      exists ((id t0, t0) :: extra). rewrite Heq, Hstep, <- app_assoc. cbn.
      split; [done|]. split.
      * intros kv H. apply elem_of_cons in H as [->|H]; [done|].
        specialize (Hnew kv H). rewrite Hstep, fmap_app in Hnew.
        intros Hin. apply Hnew. apply elem_of_app. by left.
      * intros t Hfind Hfresh. unfold sameId in Hfind.
        destruct (bool_decide_reflect (id t0 = id t)) as [Heq0|Hne].
        -- injection Hfind as ->. by apply elem_of_cons; left.
        -- apply elem_of_cons; right. apply Hfirst; [done|].
           rewrite Hstep, fmap_app. cbn. intros Hin.
           apply elem_of_app in Hin as [Hin|Hin]; [done|].
           apply list_elem_of_singleton in Hin. congruence.
    + congruence.
    + (* a known id: skipped *)
      exists extra. rewrite Heq, Hstep. split; [done|]. split.
      * intros kv H. specialize (Hnew kv H). by rewrite Hstep in Hnew.
      * intros t Hfind Hfresh. unfold sameId in Hfind.
        destruct (bool_decide_reflect (id t0 = id t)) as [Heq0|Hne].
        -- injection Hfind as ->. done.
        -- apply Hfirst; [done|]. by rewrite Hstep.
Qed.

Lemma markLocal_id (t : Task) : id (markLocal t) = id t.
Proof. destruct t as [[i|]]; reflexivity. Qed.

Lemma markLocal_not_api_or_cache (t : Task) :
  isApiOrCache (source (markLocal t)) = false.
Proof. reflexivity. Qed.

Lemma find_markLocal (i : option string) (L : list Task) :
  List.find (λ x, sameId (id x) i) (markLocal <$> L)
  = markLocal <$> List.find (λ x, sameId (id x) i) L.
Proof.
  induction L as [|t L IH]; [done|].
  rewrite fmap_cons. cbn [List.find]. rewrite markLocal_id.
  destruct (sameId (id t) i); [done|exact IH].
Qed.

(** ** The merge *)

Lemma mergeTasks_spec (R L : list Task) :
  let data := mergeTasks R L in
  NoDup (id <$> data) ∧
  (∀ t, t ∈ data → id t ∈ id <$> R → t ∈ R) ∧
  (∀ i, i ∈ id <$> R → ∃ t, t ∈ data ∧ id t = i) ∧
  (∀ t, t ∈ data → t ∈ R ∨ t ∈ markLocal <$> L) ∧
  (∀ t, t ∈ L → ∃ t', t' ∈ data ∧ id t' = id t) ∧
  (∀ t, List.find (λ x, sameId (id x) (id t)) L = Some t →
        id t ∉ id <$> R → markLocal t ∈ data).
Proof.
  intros data. subst data. unfold mergeTasks, uniqueTasksMap.
  set (m := fold_left uniqueStep (R ++ (markLocal <$> L))%list []).
  assert (Hperm : sortWith newestFirst (mapValues m) ≡ₚ mapValues m)
    by apply sortWith_Permutation.
  destruct (fold_uniqueStep_spec (R ++ (markLocal <$> L))%list [] wellKeyed_nil)
    as (Hwk & Hkeys & Hvals). fold m in Hwk, Hkeys, Hvals.
  destruct (fold_uniqueStep_spec R [] wellKeyed_nil) as (HwkR & HkeysR & HvalsR).
  set (mR := fold_left uniqueStep R []) in *.
  destruct (fold_uniqueStep_local (markLocal <$> L) mR) as (extra & Hm & Hnew & Hfirst).
  { intros t Ht. apply list_elem_of_fmap in Ht as (t0 & -> & _).
    apply markLocal_not_api_or_cache. }
  assert (Hsplit : m = (mR ++ extra)%list).
  { subst m mR. by rewrite fold_left_app. }
  assert (HidsR : ∀ k, k ∈ mR.*1 ↔ k ∈ id <$> R).
  { intros k. rewrite HkeysR. split; [|by right].
    intros [H|H]; [by apply elem_of_nil in H|done]. }
  assert (Hval_in : ∀ t, t ∈ mapValues m → ∃ kv, kv ∈ m ∧ kv.2 = t).
  { intros t Ht. unfold mapValues in Ht.
    apply list_elem_of_fmap in Ht as (kv & -> & Hkv). by exists kv. }
  repeat split.
  - rewrite Hperm, wellKeyed_ids by done. apply Hwk.
  - intros t Ht HtR. rewrite Hperm in Ht.
    destruct (Hval_in t Ht) as (kv & Hkv & <-).
    assert (Hkey : kv.1 = id kv.2) by (by apply Hwk).
    rewrite Hsplit in Hkv. apply elem_of_app in Hkv as [Hkv|Hkv].
    + destruct (HvalsR kv Hkv) as [H|H]; [by apply elem_of_nil in H|done].
    + exfalso. apply (Hnew kv Hkv). apply HidsR. by rewrite Hkey.
  - intros i Hi.
    assert (Hik : i ∈ m.*1) by (rewrite Hsplit, fmap_app, elem_of_app; left; by apply HidsR).
    apply list_elem_of_fmap in Hik as (kv & -> & Hkv).
    exists kv.2. split.
    + rewrite Hperm. unfold mapValues. apply list_elem_of_fmap. by exists kv.
    + symmetry. by apply Hwk.
  - intros t Ht. rewrite Hperm in Ht.
    destruct (Hval_in t Ht) as (kv & Hkv & <-).
    destruct (Hvals kv Hkv) as [H|H]; [by apply elem_of_nil in H|].
    by apply elem_of_app in H.
  - intros t Ht.
    assert (Hik : id t ∈ m.*1).
    { apply Hkeys. right. rewrite fmap_app, elem_of_app. right.
      apply list_elem_of_fmap. exists (markLocal t). split.
      - by rewrite markLocal_id.
      - apply list_elem_of_fmap. by exists t. }
    apply list_elem_of_fmap in Hik as (kv & Hid & Hkv).
    exists kv.2. split.
    + rewrite Hperm. unfold mapValues. apply list_elem_of_fmap. by exists kv.
    + rewrite Hid. symmetry. by apply Hwk.
  - intros t Hfind Hfresh. rewrite Hperm.
    unfold mapValues. apply list_elem_of_fmap. exists (id t, markLocal t).
    split; [done|]. rewrite Hsplit. apply elem_of_app. right.
    rewrite <- (markLocal_id t) at 1. apply Hfirst.
    + rewrite markLocal_id, find_markLocal, Hfind. reflexivity.
    + rewrite markLocal_id. by rewrite HidsR.
Qed.

(** ** Reading the cache of the tasks collection *)

Lemma getCached_outcome (k : string) (win : Z) (w : World) :
  ∃ c w', StorageService.getCached k win w = (Ok c, w') ∧
    (w' = w ∨
     w' = setStorage (delete (STORAGE_KEYS.CACHE_PREFIX +:+ k) (storage w)) w) ∧
    (truthy c = true →
       w' = w ∧
       ∃ ts e, storage w !! (STORAGE_KEYS.CACHE_PREFIX +:+ k)
               = Some (Doc (JEnvelope c ts e)) ∧ clock w - ts < win).
Proof.
  unfold StorageService.getCached. run.
  destruct (storage w !! (STORAGE_KEYS.CACHE_PREFIX +:+ k)) as [[v|s]|] eqn:Hk.
  - destruct v as [ | | | | | |d ts e];
      try (eexists _, _; split; [reflexivity|]; split; [by right|]; discriminate).
    run. destruct (clock w - ts <? win) eqn:Hlt.
    + eexists _, _. split; [reflexivity|]. split; [by left|].
      intros _. split; [done|]. exists ts, e. split; [done|]. by apply Z.ltb_lt.
    + eexists _, _. split; [reflexivity|]. split; [by right|]. discriminate.
  - destruct s.
    + eexists _, _. split; [reflexivity|]. split; [by left|]. discriminate.
    + eexists _, _. split; [reflexivity|]. split; [by right|]. discriminate.
  - eexists _, _. split; [reflexivity|]. split; [by left|]. discriminate.
Qed.

Lemma get_world (key : string) (w : World) :
  ∃ v, StorageService.get key w = (Ok v, w) ∧
       (truthy (ApiService.staleData v) = true →
        ∃ ts e, storage w !! key = Some (Doc (JEnvelope (ApiService.dataOf v) ts e))).
Proof.
  unfold StorageService.get. run.
  destruct (storage w !! key) as [[v|s]|] eqn:Hk.
  - exists v. split; [reflexivity|].
    destruct v as [|b|n|s|ts0|cs0|d ts e]; unfold ApiService.staleData; cbn.
    + intros [=].
    + destruct b; cbn; intros [=].
    + destruct (n =? 0) eqn:E; cbn; rewrite ?E; intros [=].
    + destruct (String.eqb s EmptyString) eqn:E; cbn; rewrite ?E; intros [=].
    + intros [=].
    + intros [=].
    + intros _. by eexists _, _.
  - destruct s as [|c s].
    + exists JNull. split; [reflexivity|]. discriminate.
    + eexists. split; [reflexivity|]. cbn. discriminate.
  - exists JNull. split; [reflexivity|]. discriminate.
Qed.

(** ** Sequencing equations *)

Lemma bind_ok {A B : Type} (m : M A) (k : A → M B) (w w' : World) (a : A) :
  m w = (Ok a, w') → bind m k w = k a w'.
Proof. intros H. unfold bind. by rewrite H. Qed.

Lemma bind_throw {A B : Type} (m : M A) (k : A → M B) (w w' : World) (e : string) :
  m w = (Throw e, w') → bind m k w = (Throw e, w').
Proof. intros H. unfold bind. by rewrite H. Qed.

Lemma try_catch_ok {A : Type} (m : M A) (h : string → M A) (w w' : World) (a : A) :
  m w = (Ok a, w') → try_catch m h w = (Ok a, w').
Proof. intros H. unfold try_catch. by rewrite H. Qed.

Lemma try_catch_throw {A : Type} (m : M A) (h : string → M A) (w w' : World)
    (e : string) :
  m w = (Throw e, w') → try_catch m h w = h e w'.
Proof. intros H. unfold try_catch. by rewrite H. Qed.

Lemma sameButDraws_refl (w : World) : sameButDraws w w.
Proof. by repeat split. Qed.

Lemma sameButDraws_trans (w1 w2 w3 : World) :
  sameButDraws w1 w2 → sameButDraws w2 w3 → sameButDraws w1 w3.
Proof.
  intros (?&?&?&?&?&?) (?&?&?&?&?&?). repeat split; congruence.
Qed.

Lemma sameButDraws_nextDraw (w : World) : sameButDraws w (nextDraw w).
Proof. by repeat split. Qed.

(** ** Mapping the remote items never throws *)

Lemma mapItem_ok (item : RemoteItem) (w : World) :
  ∃ t w', ApiService.mapItem item w = (Ok t, w') ∧ sameButDraws w w'.
Proof.
  unfold ApiService.mapItem.
  destruct (itemId item) as [n|]; [destruct (negb (n =? 0))|].
  - eexists _, _. split; [reflexivity|apply sameButDraws_refl].
  - eexists _, _. split; [reflexivity|apply sameButDraws_nextDraw].
  - eexists _, _. split; [reflexivity|apply sameButDraws_nextDraw].
Qed.

Lemma mapM_mapItem_ok (items : list RemoteItem) (w : World) :
  ∃ ts w', mapM ApiService.mapItem items w = (Ok ts, w') ∧ sameButDraws w w'.
Proof.
  revert w. induction items as [|item items IH]; intros w; cbn [mapM].
  - eexists _, _. split; [reflexivity|apply sameButDraws_refl].
  - destruct (mapItem_ok item w) as (t & w1 & Ht & H1).
    destruct (IH w1) as (ts & w2 & Hts & H2).
    exists (t :: ts), w2. split.
    + rewrite (bind_ok _ _ _ _ _ Ht), (bind_ok _ _ _ _ _ Hts). reflexivity.
    + by eapply sameButDraws_trans.
Qed.

(** ** The fetch step of [getTasks] *)

Lemma apiCall_answer (endpoint : string) (m : Method) (b : option Task)
    (w : World) (r : Response) :
  server w (requests w) (mkRequest m endpoint b) = Some r →
  ApiService.apiCall endpoint m b w = (Ok r, logRequest (mkRequest m endpoint b) w).
Proof. intros H. unfold ApiService.apiCall. by rewrite H. Qed.

Lemma apiCall_failure (endpoint : string) (m : Method) (b : option Task)
    (w : World) :
  server w (requests w) (mkRequest m endpoint b) = None →
  ApiService.apiCall endpoint m b w
  = (Throw "API Error", logRequest (mkRequest m endpoint b) w).
Proof. intros H. unfold ApiService.apiCall. by rewrite H. Qed.

(** The fallback to the expired cache, shared by the offline branch and by
    the catch branch of [fetchTasksFromApi]. *)
Lemma stale_fallback_outcome (failure : Reply.t json) (w : World) :
  cacheShape w → Reply.success failure = false →
  ∃ a R,
    (expiredCacheData <- StorageService.get ("CACHE_" +:+ "tasks_list") ;;
     if truthy (ApiService.staleData expiredCacheData)
     then ret (Reply.mk true (Some (ApiService.dataOf expiredCacheData))
                        (Some cache) (Some true) None)
     else ret failure) w = (Ok a, w) ∧
    ApiService.finalDataOf a = JTasks R.
Proof.
  intros Hshape Hfail.
  destruct (get_world ("CACHE_" +:+ "tasks_list") w) as (v & Hget & Hstale).
  rewrite (bind_ok _ _ _ _ _ Hget).
  destruct (truthy (ApiService.staleData v)) eqn:Htruthy.
  - destruct (Hstale eq_refl) as (ts & e & Hentry).
    assert (Hd : truthy (ApiService.dataOf v) = true).
    { revert Htruthy. unfold ApiService.staleData.
      destruct (truthy v) eqn:Hv; [done|]. by rewrite Hv. }
    destruct (Hshape _ _ _ Hentry Hd) as [R HR].
    eexists _, R. split; [reflexivity|]. unfold ApiService.finalDataOf. cbn.
    exact HR.
  - exists failure, []. split; [reflexivity|].
    unfold ApiService.finalDataOf. by rewrite Hfail.
Qed.

Lemma cacheShape_delete (w : World) :
  cacheShape (setStorage (delete tasksCacheKey (storage w)) w).
Proof.
  intros d ts e H. rewrite storage_setStorage, lookup_delete_eq in H. discriminate H.
Qed.

Lemma cacheShape_setCached (tasks : list Task) (win : Z) (w : World) :
  cacheShape (StorageService.setCached "tasks_list" (JTasks tasks) win w).2.
Proof.
  intros d ts e H _. rewrite setCached_world in H. cbn in H.
  rewrite lookup_insert_eq in H. injection H as <- _ _. by exists tasks.
Qed.

(** The fetch step never throws; under [cacheShape] what it hands to the
    merge is an array of tasks; it touches no storage key other than the
    cache entry of the tasks collection. *)
Lemma fetch_outcome (forceRefresh : bool) (w : World) :
  cacheShape w →
  ∃ a w1 R,
    ApiService.fetchTasksFromApi forceRefresh w = (Ok a, w1) ∧
    ApiService.finalDataOf a = JTasks R ∧
    (∀ k, k ≠ tasksCacheKey → storage w1 !! k = storage w !! k) ∧
    cacheShape w1.
Proof.
  intros Hshape. unfold ApiService.fetchTasksFromApi.
  (* step 1 *)
  assert (Hstep1 : ∃ hit wc,
    (if negb forceRefresh
     then cachedData <- StorageService.getCached "tasks_list" CACHE_EXPIRATION.SHORT ;;
          ret (if truthy cachedData then Some cachedData else None)
     else ret None) w = (Ok hit, wc) ∧
    cacheShape wc ∧ isOnline wc = isOnline w ∧
    (∀ k, k ≠ tasksCacheKey → storage wc !! k = storage w !! k) ∧
    (∀ c, hit = Some c → ∃ R, c = JTasks R) ∧
    server wc = server w ∧ requests wc = requests w).
  { destruct forceRefresh; cbn [negb].
    - exists None, w. by repeat split.
    - destruct (getCached_outcome "tasks_list" CACHE_EXPIRATION.SHORT w)
        as (c & wc & Hget & Hwc & Hhit).
      rewrite (bind_ok _ _ _ _ _ Hget).
      exists (if truthy c then Some c else None), wc.
      split; [reflexivity|].
      assert (Hsame : cacheShape wc ∧ isOnline wc = isOnline w ∧
                (∀ k, k ≠ tasksCacheKey → storage wc !! k = storage w !! k) ∧
                server wc = server w ∧ requests wc = requests w).
      { destruct Hwc as [->| ->]; [done|].
        split; [apply cacheShape_delete|]. split; [done|]. split; [|done].
        intros k Hk. rewrite storage_setStorage. by apply lookup_delete_ne. }
      destruct Hsame as (? & ? & ? & ? & ?). repeat split; try done.
      intros c' Hc'. destruct (truthy c) eqn:Htruthy; [|discriminate Hc'].
      injection Hc' as <-.
      destruct (Hhit eq_refl) as (_ & ts & e & Hentry & _).
      by eapply Hshape. }
  destruct Hstep1 as (hit & wc & Hrun & Hshape' & Honl & Hkeys & Hhit & Hsrv & Hreq).
  rewrite (bind_ok _ _ _ _ _ Hrun).
  destruct hit as [c|].
  { destruct (Hhit c eq_refl) as [R ->].
    eexists _, wc, R. split; [reflexivity|]. by repeat split. }
  rewrite (bind_ok _ _ wc wc (isOnline wc)) by reflexivity.
  destruct (isOnline wc) eqn:Hon; cbn [negb].
  - (* step 3: online *)
    set (req := mkRequest GET API_CONFIG.TASKS None).
    assert (Hlog : cacheShape (logRequest req wc)) by exact Hshape'.
    destruct (server wc (requests wc) req) as [[items|o]|] eqn:Hanswer.
    + destruct (mapM_mapItem_ok items (logRequest req wc))
        as (tasks & wm & Hmap & Hsame).
      erewrite try_catch_ok; cycle 1.
      { rewrite (bind_ok _ _ _ _ _ (apiCall_answer _ _ _ _ _ Hanswer)).
        rewrite (bind_ok _ _ _ (logRequest req wc) items) by reflexivity.
        rewrite (bind_ok _ _ _ _ _ Hmap). reflexivity. }
      eexists _, _, tasks. split; [reflexivity|]. split; [reflexivity|].
      split; [|apply cacheShape_setCached].
      intros k Hk. cbn. rewrite lookup_insert_ne by done.
      destruct Hsame as (-> & _). by apply Hkeys.
    + erewrite try_catch_throw; cycle 1.
      { rewrite (bind_ok _ _ _ _ _ (apiCall_answer _ _ _ _ _ Hanswer)).
        reflexivity. }
      destruct (stale_fallback_outcome
                  (Reply.mk false None None None (Some "TypeError"))
                  (logRequest req wc) Hlog eq_refl) as (a & R & Ha & HR).
      exists a, (logRequest req wc), R. split; [exact Ha|]. by repeat split.
    + erewrite try_catch_throw; cycle 1.
      { rewrite (bind_throw _ _ _ _ _ (apiCall_failure _ _ _ _ Hanswer)).
        reflexivity. }
      destruct (stale_fallback_outcome
                  (Reply.mk false None None None (Some "API Error"))
                  (logRequest req wc) Hlog eq_refl) as (a & R & Ha & HR).
      exists a, (logRequest req wc), R. split; [exact Ha|]. by repeat split.
  - (* step 2: offline *)
    destruct (stale_fallback_outcome
                (Reply.mk false None None (Some true)
                          (Some "Offline and no cached data available."))
                wc Hshape' eq_refl) as (a & R & Ha & HR).
    exists a, wc, R. split; [exact Ha|]. by repeat split.
Qed.

(** ** [getTasks] *)

Lemma getTasks_run (forceRefresh : bool) (w w1 : World) (a : Reply.t json)
    (R L : list Task) :
  ApiService.fetchTasksFromApi forceRefresh w = (Ok a, w1) →
  ApiService.finalDataOf a = JTasks R →
  holdsTasks w1 L →
  ApiService.getTasks forceRefresh w
  = (Ok (Reply.mk true (Some (mergeTasks R L)) (ApiService.finalSourceOf a)
                  (ApiService.offlineModeOf a) None), w1).
Proof.
  intros Hfetch HR HL. unfold ApiService.getTasks.
  rewrite (bind_ok _ _ _ _ _ Hfetch).
  rewrite (bind_ok _ _ _ _ _ (getTasks_holds w1 L HL)).
  rewrite HR. reflexivity.
Qed.

(** C1. Let [R] be the remote or cached task array that the fetch step of
    [getTasks] yields and [L] the permanent local tasks.  The list returned
    by [getTasks] has no two tasks with the same id; for every id present in
    both [R] and [L] it has a record with that id, and every returned record
    whose id occurs in [R] is a record of [R]. *)
Theorem getTasks_keeps_remote_record_and_unique_ids
    (forceRefresh : bool) (w w1 : World) (a : Reply.t json) (R L : list Task) :
  ApiService.fetchTasksFromApi forceRefresh w = (Ok a, w1) →
  ApiService.finalDataOf a = JTasks R →
  holdsTasks w1 L →
  ∃ reply data,
    ApiService.getTasks forceRefresh w = (Ok reply, w1) ∧
    Reply.data reply = Some data ∧
    NoDup (id <$> data) ∧
    (∀ i, i ∈ id <$> R → i ∈ id <$> L → ∃ t, t ∈ data ∧ id t = i ∧ t ∈ R) ∧
    (∀ t, t ∈ data → id t ∈ id <$> R → t ∈ R).
Proof.
  intros Hfetch HR HL.
  destruct (mergeTasks_spec R L) as (Hnd & Hkeep & Hhas & _).
  eexists _, _. split; [by eapply getTasks_run|]. split; [reflexivity|].
  split; [exact Hnd|]. split; [|exact Hkeep].
  intros i HiR _. destruct (Hhas i HiR) as (t & Ht & Hid).
  exists t. split; [done|]. split; [done|]. apply Hkeep; [done|]. by rewrite Hid.
Qed.

Lemma getTasks_keeps_remote_record_and_unique_ids_witness :
  ∃ reply data,
    ApiService.getTasks false (cachedWorld [remoteOne] [localOne; localTwo])
    = (Ok reply, cachedWorld [remoteOne] [localOne; localTwo]) ∧
    Reply.data reply = Some data ∧
    NoDup (id <$> data) ∧
    (∀ i, i ∈ id <$> [remoteOne] → i ∈ id <$> [localOne; localTwo] →
          ∃ t, t ∈ data ∧ id t = i ∧ t ∈ [remoteOne]) ∧
    (∀ t, t ∈ data → id t ∈ id <$> [remoteOne] → t ∈ [remoteOne]).
Proof.
  apply (getTasks_keeps_remote_record_and_unique_ids false
           (cachedWorld [remoteOne] [localOne; localTwo])
           (cachedWorld [remoteOne] [localOne; localTwo])
           (Reply.mk true (Some (JTasks [remoteOne])) (Some cache) (Some false) None)
           [remoteOne] [localOne; localTwo]).
  - vm_compute. reflexivity.
  - reflexivity.
  - left. vm_compute. reflexivity.
Defined.

(** ** Clearing the cache *)

Lemma clearCache_world (w : World) :
  StorageService.clearCache w
  = (Ok true,
     setStorage (filter (λ kv, String.prefix STORAGE_KEYS.CACHE_PREFIX kv.1 = false)
                        (storage w)) w).
Proof. reflexivity. Qed.

Lemma clearCache_lookup (w : World) (k : string) :
  storage (StorageService.clearCache w).2 !! k
  = if String.prefix STORAGE_KEYS.CACHE_PREFIX k then None else storage w !! k.
Proof.
  rewrite clearCache_world. cbn [snd]. rewrite storage_setStorage.
  destruct (String.prefix STORAGE_KEYS.CACHE_PREFIX k) eqn:Hp.
  - apply map_lookup_filter_None. right. intros x _. cbn. by rewrite Hp.
  - destruct (storage w !! k) as [x|] eqn:Hk.
    + apply map_lookup_filter_Some. by split.
    + apply map_lookup_filter_None. by left.
Qed.

Lemma clearCache_keeps_TASKS (w : World) :
  storage (StorageService.clearCache w).2 !! STORAGE_KEYS.TASKS
  = storage w !! STORAGE_KEYS.TASKS.
Proof. by rewrite clearCache_lookup. Qed.

Lemma clearCache_removes_tasks_cache (w : World) :
  storage (StorageService.clearCache w).2 !! tasksCacheKey = None.
Proof. by rewrite clearCache_lookup. Qed.

Lemma clearAllCaches_world (w : World) :
  ApiService.clearAllCaches w
  = (Ok (Reply.mk true None None None None), (StorageService.clearCache w).2).
Proof. reflexivity. Qed.

(** ** Durability of the permanent tasks *)

Lemma holdsTasks_same_TASKS (w w' : World) (L : list Task) :
  storage w' !! STORAGE_KEYS.TASKS = storage w !! STORAGE_KEYS.TASKS →
  holdsTasks w L → holdsTasks w' L.
Proof. unfold holdsTasks. intros ->. done. Qed.

Lemma durableIn_holds (forceRefresh : bool) (w : World) (L : list Task) (t : Task) :
  holdsTasks w L → cacheShape w → t ∈ L → durableIn forceRefresh w L t.
Proof.
  intros HL Hshape Ht.
  destruct (fetch_outcome forceRefresh w Hshape) as (a & w1 & R & Hfetch & HR & Hkeys & Hshape1).
  assert (HL1 : holdsTasks w1 L).
  { eapply holdsTasks_same_TASKS; [|exact HL].
    apply Hkeys. intros E. symmetry in E. by apply tasksCacheKey_not_TASKS. }
  destruct (mergeTasks_spec R L) as (_ & _ & _ & _ & Hin & Hexact).
  exists a, w1, R. eexists _, _.
  split; [exact Hfetch|]. split; [exact HR|].
  split; [by eapply getTasks_run|]. split; [reflexivity|]. split; [reflexivity|].
  split; [by apply Hin|]. split; [apply Hexact|]. by split.
Qed.

Lemma afterSave_member (t : Task) (L : list Task) : t ∈ afterSave t L.
Proof.
  unfold afterSave. rewrite sortWith_Permutation.
  destruct (list_find _ L) as [[n old]|] eqn:Hfind.
  - apply list_find_Some in Hfind as (Hn & _).
    apply list_elem_of_lookup. exists n.
    apply list_lookup_insert_eq. by eapply lookup_lt_Some.
  - apply elem_of_app. right. by apply list_elem_of_singleton.
Qed.


(** When the ids of the repository are distinct, every task of it is the
    record that [getTaskById] finds under its id. *)
Lemma find_by_id_NoDup (L : list Task) (t : Task) :
  NoDup (id <$> L) → t ∈ L →
  List.find (λ x, sameId (id x) (id t)) L = Some t.
Proof.
  induction L as [|x L IH]; intros Hnd Ht; [by apply elem_of_nil in Ht|].
  rewrite fmap_cons in Hnd. apply NoDup_cons in Hnd as [Hx Hnd].
  cbn [List.find]. unfold sameId.
  destruct (bool_decide_reflect (id x = id t)) as [Heq|Hne].
  - apply elem_of_cons in Ht as [->|Ht]; [done|].
    exfalso. apply Hx. rewrite Heq. apply list_elem_of_fmap. by exists t.
  - apply elem_of_cons in Ht as [->|Ht]; [done|]. by apply IH.
Qed.




(** On the world of the witness: the server rejects the request, the cache
    entry does not parse, and both permanent tasks are returned. *)
Example getTasks_corruptWorld :
  (ApiService.getTasks true corruptWorld).1
  = Ok (Reply.mk true (Some [markLocal localTwo; markLocal localOne])
                 (Some api) (Some false) None).
Proof. vm_compute. reflexivity. Qed.

(** ** A valid cache entry *)

Lemma sortWith_alreadySorted {A : Type} (cmp : A → A → Z) (l : list A) :
  alreadySorted cmp l = true → sortWith cmp l = l.
Proof.
  induction l as [|a l IH]; [done|]. intros H. cbn [sortWith foldr].
  fold (sortWith cmp l). destruct l as [|b l]; [done|].
  cbn [alreadySorted] in H. apply andb_true_iff in H as [Hab Hl].
  rewrite (IH Hl). cbn [insertSorted].
  apply negb_true_iff in Hab. by rewrite Hab.
Qed.

Lemma fold_uniqueStep_distinct (C : list Task) (m : list (option string * Task)) :
  NoDup (id <$> C) → (∀ t, t ∈ C → id t ∉ m.*1) →
  fold_left uniqueStep C m = (m ++ ((λ t, (id t, t)) <$> C))%list.
Proof.
  revert m. induction C as [|t C IH]; intros m Hnd Hfresh; cbn.
  - by rewrite app_nil_r.
  - apply NoDup_cons in Hnd as [Ht Hnd].
    destruct (uniqueStep_cases m t) as [[Hno ->]|[(Hin & _)|(Hin & _)]].
    + rewrite IH; [by rewrite <- app_assoc|done|].
      intros t' Ht'. rewrite fmap_app, elem_of_app. cbn.
      intros [H|H].
      * eapply Hfresh; [|exact H]. by apply elem_of_cons; right.
      * apply list_elem_of_singleton in H. apply Ht. rewrite <- H.
        apply list_elem_of_fmap. by exists t'.
    + exfalso. eapply Hfresh; [|exact Hin]. by apply elem_of_cons; left.
    + exfalso. eapply Hfresh; [|exact Hin]. by apply elem_of_cons; left.
Qed.

Lemma uniqueTasksMap_distinct (C : list Task) :
  NoDup (id <$> C) → uniqueTasksMap C = (λ t, (id t, t)) <$> C.
Proof.
  intros Hnd. unfold uniqueTasksMap.
  rewrite fold_uniqueStep_distinct; [done|done|].
  intros t _ H. by apply elem_of_nil in H.
Qed.

(** When every permanent task's id already occurs in [C], whose ids are
    distinct, the deduplicated tasks are [C], and the merge is [C], sorted. *)
Lemma uniqueTasks_no_new_ids (C L : list Task) :
  NoDup (id <$> C) → (∀ t, t ∈ L → id t ∈ id <$> C) →
  uniqueTasks C L = C.
Proof.
  intros Hnd Hsub. unfold uniqueTasks, uniqueTasksMap. rewrite fold_left_app.
  fold (uniqueTasksMap C). rewrite (uniqueTasksMap_distinct C Hnd).
  assert (Hskip : ∀ (ls : list Task) (m : list (option string * Task)),
            (∀ t, t ∈ ls → isApiOrCache (source t) = false ∧ id t ∈ m.*1) →
            fold_left uniqueStep ls m = m).
  { induction ls as [|t ls IH]; intros m H; cbn; [done|].
    destruct (H t) as [Hsrc Hin]; [by apply elem_of_cons; left|].
    destruct (uniqueStep_cases m t) as [[Hno _]|[(_ & Htrue & _)|(_ & _ & ->)]];
      [done|congruence|].
    apply IH. intros t' Ht'. apply H. by apply elem_of_cons; right. }
  rewrite Hskip.
  - unfold mapValues. rewrite <- list_fmap_compose. by rewrite list_fmap_id.
  - intros t Ht. apply list_elem_of_fmap in Ht as (t0 & -> & Ht0).
    split; [apply markLocal_not_api_or_cache|].
    rewrite markLocal_id, <- list_fmap_compose. cbn. by apply Hsub.
Qed.

Lemma mergeTasks_no_new_ids (C L : list Task) :
  NoDup (id <$> C) → (∀ t, t ∈ L → id t ∈ id <$> C) →
  mergeTasks C L = sortWith newestFirst C.
Proof.
  intros Hnd Hsub. change (mergeTasks C L) with (sortWith newestFirst (uniqueTasks C L)).
  by rewrite uniqueTasks_no_new_ids.
Qed.

Lemma fetch_valid_cache (w : World) (C : list Task) (ts e : Z) :
  storage w !! tasksCacheKey = Some (Doc (JEnvelope (JTasks C) ts e)) →
  clock w - ts < CACHE_EXPIRATION.SHORT →
  ApiService.fetchTasksFromApi false w
  = (Ok (Reply.mk true (Some (JTasks C)) (Some cache) (Some false) None), w).
Proof.
  intros Hentry Hvalid. unfold ApiService.fetchTasksFromApi. cbn [negb].
  rewrite (bind_ok _ _ w w (Some (JTasks C))); [reflexivity|].
  rewrite (bind_ok _ _ w w (JTasks C)); [reflexivity|].
  rewrite (getCached_envelope _ _ _ _ _ _ Hentry).
  by replace (clock w - ts <? CACHE_EXPIRATION.SHORT) with true
    by (symmetry; by apply Z.ltb_lt).
Qed.

(** C9, as the code has it.  With a valid cache entry of the tasks
    collection holding the array [C], [getTasks(false)] sends no request and
    leaves the world as it is; it answers with source 'cache', offline false,
    and as data the merge of [C] with the permanent local tasks: the
    deduplicated tasks of both, in the order newest first when all of them
    have a creation date.  The data is [C] itself when the ids of [C] are
    distinct, every permanent task's id already occurs in [C] (in particular
    when the repository is empty), and the tasks of [C] all have a creation
    date and are already ordered newest first. *)
Theorem getTasks_valid_cache_merges
    (w : World) (C L : list Task) (ts e : Z) :
  storage w !! tasksCacheKey = Some (Doc (JEnvelope (JTasks C) ts e)) →
  clock w - ts < CACHE_EXPIRATION.SHORT →
  holdsTasks w L →
  ∃ data,
    ApiService.getTasks false w
    = (Ok (Reply.mk true (Some data) (Some cache) (Some false) None), w) ∧
    requests (ApiService.getTasks false w).2 = requests w ∧
    isMergeOf data C L ∧
    (NoDup (id <$> C) → (∀ t, t ∈ L → id t ∈ id <$> C) →
     Forall dated C → alreadySorted newestFirst C = true → data = C).
Proof.
  intros Hentry Hvalid HL.
  assert (Hrun : ApiService.getTasks false w
    = (Ok (Reply.mk true (Some (mergeTasks C L)) (Some cache) (Some false) None), w)).
  { by rewrite (getTasks_run false w w _ C L (fetch_valid_cache w C ts e Hentry Hvalid)). }
  exists (mergeTasks C L).
  split; [exact Hrun|]. split; [by rewrite Hrun|].
  split; [apply mergeTasks_isMergeOf|].
  intros Hnd Hsub _ Hsorted.
  rewrite mergeTasks_no_new_ids by done. by apply sortWith_alreadySorted.
Qed.

Lemma getTasks_valid_cache_merges_witness :
  ∃ data,
    ApiService.getTasks false (cachedWorld [remoteOne] [localOne; localTwo])
    = (Ok (Reply.mk true (Some data) (Some cache) (Some false) None),
       cachedWorld [remoteOne] [localOne; localTwo]) ∧
    data = [remoteOne; markLocal localTwo] ∧
    ∃ data',
      ApiService.getTasks false (cachedWorld [remoteOne] [localOne])
      = (Ok (Reply.mk true (Some data') (Some cache) (Some false) None),
         cachedWorld [remoteOne] [localOne]) ∧
      data' = [remoteOne].
Proof.
  destruct (getTasks_valid_cache_merges (cachedWorld [remoteOne] [localOne; localTwo])
              [remoteOne] [localOne; localTwo] (clock sampleWorld - 1000)
              CACHE_EXPIRATION.SHORT) as (data & Hrun & _ & [_ Hexact] & _).
  { vm_compute. reflexivity. }
  { vm_compute. reflexivity. }
  { left. vm_compute. reflexivity. }
  exists data. split; [exact Hrun|]. split.
  { rewrite Hexact; [vm_compute; reflexivity| |];
      repeat (constructor; [by eexists|]); constructor. }
  destruct (getTasks_valid_cache_merges (cachedWorld [remoteOne] [localOne])
              [remoteOne] [localOne] (clock sampleWorld - 1000)
              CACHE_EXPIRATION.SHORT) as (data' & Hrun' & _ & _ & Hsame).
  { vm_compute. reflexivity. }
  { vm_compute. reflexivity. }
  { left. vm_compute. reflexivity. }
  exists data'. split; [exact Hrun'|]. apply Hsame.
  - apply NoDup_singleton.
  - intros t Ht. apply list_elem_of_singleton in Ht. subst t.
    apply list_elem_of_singleton. reflexivity.
  - apply Forall_singleton. by eexists.
  - reflexivity.
Defined.

(** C9, as stated, fails: with a valid cache entry holding one record and a
    repository holding another, the data of [getTasks(false)] is not the
    cached array. *)
Lemma getTasks_valid_cache_not_the_cached_array :
  let w := cachedWorld [remoteOne] [localTwo] in
  (StorageService.getCached "tasks_list" CACHE_EXPIRATION.SHORT w).1
    = Ok (JTasks [remoteOne]) ∧
  ∃ reply, (ApiService.getTasks false w).1 = Ok reply ∧
           Reply.data reply = Some [remoteOne; markLocal localTwo] ∧
           Reply.data reply ≠ Some [remoteOne].
Proof.
  split; [vm_compute; reflexivity|].
  eexists. split; [vm_compute; reflexivity|]. split; [reflexivity|].
  cbn. intros H. discriminate H.
Qed.

(** ** Offline without a cache entry *)

(** C2, as the code has it.  Offline and with no cache entry of the tasks
    collection, the fetch step yields the failure
    [{ success: false, offline: true }] without sending a request, and
    [getTasks] absorbs it: it leaves the world as it is and returns success,
    with source 'api' and offline false (the initial values), and as data the
    permanent local tasks alone: deduplicated by id, each tagged
    'local_permanent', in the order newest first when all of them have a
    creation date. *)
Theorem getTasks_offline_without_cache
    (forceRefresh : bool) (w : World) (L : list Task) :
  isOnline w = false →
  storage w !! tasksCacheKey = None →
  holdsTasks w L →
  ApiService.fetchTasksFromApi forceRefresh w
  = (Ok (Reply.mk false None None (Some true)
                  (Some "Offline and no cached data available.")), w) ∧
  ∃ data,
    ApiService.getTasks forceRefresh w
    = (Ok (Reply.mk true (Some data) (Some api) (Some false) None), w) ∧
    isMergeOf data [] L ∧
    (NoDup (id <$> L) → data ≡ₚ markLocal <$> L).
Proof.
  intros Hoff Hnone HL.
  assert (Hfetch : ApiService.fetchTasksFromApi forceRefresh w
    = (Ok (Reply.mk false None None (Some true)
                    (Some "Offline and no cached data available.")), w)).
  { unfold ApiService.fetchTasksFromApi.
    rewrite (bind_ok _ _ w w None); cycle 1.
    { destruct forceRefresh; cbn [negb]; [reflexivity|].
      rewrite (bind_ok _ _ w w JNull); [reflexivity|].
      unfold StorageService.getCached. run.
      fold tasksCacheKey. by rewrite Hnone. }
    rewrite (bind_ok _ _ w w false) by (unfold ApiService.getOnline; by rewrite Hoff).
    cbn [negb]. rewrite (bind_ok _ _ w w JNull); [reflexivity|].
    by apply get_absent. }
  split; [exact Hfetch|].
  exists (mergeTasks [] L).
  split; [by rewrite (getTasks_run forceRefresh w w _ [] L Hfetch eq_refl HL)|].
  split; [apply mergeTasks_isMergeOf|].
  intros Hnd. destruct (mergeTasks_isMergeOf [] L) as [Hperm _].
  etrans; [exact Hperm|].
  assert (Hids : id <$> (markLocal <$> L) = id <$> L).
  { rewrite <- list_fmap_compose. apply list_fmap_ext.
    intros _ x _. apply markLocal_id. }
  unfold uniqueTasks. cbn [app].
  rewrite uniqueTasksMap_distinct by (by rewrite Hids).
  unfold mapValues. rewrite <- list_fmap_compose. by rewrite list_fmap_id.
Qed.

Lemma getTasks_offline_without_cache_witness :
  let w := setOnline false
             (setStorage (<[STORAGE_KEYS.TASKS := Doc (JTasks [localOne; localTwo])]> ∅)
                         sampleWorld) in
  isOnline w = false ∧ storage w !! tasksCacheKey = None ∧
  holdsTasks w [localOne; localTwo] ∧
  ApiService.fetchTasksFromApi true w
  = (Ok (Reply.mk false None None (Some true)
                  (Some "Offline and no cached data available.")), w) ∧
  ∃ data,
    ApiService.getTasks true w
    = (Ok (Reply.mk true (Some data) (Some api) (Some false) None), w) ∧
    data = [markLocal localTwo; markLocal localOne].
Proof.
  cbv zeta.
  set (w := setOnline false
              (setStorage (<[STORAGE_KEYS.TASKS := Doc (JTasks [localOne; localTwo])]> ∅)
                          sampleWorld)).
  assert (Hoff : isOnline w = false) by reflexivity.
  assert (Hnone : storage w !! tasksCacheKey = None) by (vm_compute; reflexivity).
  assert (HL : holdsTasks w [localOne; localTwo]) by (left; vm_compute; reflexivity).
  split; [exact Hoff|]. split; [exact Hnone|]. split; [exact HL|].
  destruct (getTasks_offline_without_cache true w [localOne; localTwo] Hoff Hnone HL)
    as (Hfetch & data & Hrun & [_ Hexact] & _).
  split; [exact Hfetch|]. exists data. split; [exact Hrun|].
  rewrite Hexact; [vm_compute; reflexivity|constructor|].
  repeat (constructor; [by eexists|]). constructor.
Defined.

(** C2, as stated, fails: offline and with empty storage, [getTasks] answers
    with success, whether or not a refresh is forced. *)
Lemma getTasks_offline_without_cache_succeeds :
  let w := setOnline false sampleWorld in
  storage w !! tasksCacheKey = None ∧
  (ApiService.getTasks false w).1
    = Ok (Reply.mk true (Some []) (Some api) (Some false) None) ∧
  (ApiService.getTasks true w).1
    = Ok (Reply.mk true (Some []) (Some api) (Some false) None).
Proof. vm_compute. repeat split. Qed.

(** ** The offline queue *)

Lemma getOfflineChanges_holds (w : World) (Q : list OfflineChange) :
  holdsChanges w Q →
  (v <- StorageService.getOfflineChanges ;; asChanges v) w = (Ok Q, w).
Proof.
  intros [H | [H ->]];
    unfold StorageService.getOfflineChanges, StorageService.get; run;
    rewrite H; reflexivity.
Qed.

Lemma addToOfflineChangesQueue_world
    (act : Action) (taskData : Task) (w : World) (Q : list OfflineChange) :
  holdsChanges w Q →
  ApiService.addToOfflineChangesQueue act taskData w
  = (Ok tt, enqueued act taskData Q w).
Proof.
  intros HQ. unfold ApiService.addToOfflineChangesQueue, enqueued, queuedChange,
    needsId.
  assert (Htail : ∀ (w0 : World) (c : OfflineChange),
    storage w0 = storage w →
    (v <- StorageService.getOfflineChanges ;;
     changes <- asChanges v ;;
     StorageService.saveOfflineChanges (changes ++ [c])%list ;;; ret tt) w0
    = (Ok tt, setStorage (<[STORAGE_KEYS.OFFLINE_CHANGES :=
                              Doc (JChanges (Q ++ [c]))]> (storage w)) w0)).
  { intros w0 c Hst.
    assert (HQ0 : holdsChanges w0 Q) by (by eapply holdsChanges_same_storage).
    pose proof (getOfflineChanges_holds w0 Q HQ0) as Hget.
    unfold bind at 1 in Hget. unfold bind at 1.
    destruct (StorageService.getOfflineChanges w0) as [[v|err] w1]; [|discriminate Hget].
    unfold bind at 1. rewrite Hget. run.
    unfold StorageService.saveOfflineChanges. run. by rewrite Hst. }
  destruct (id taskData) as [s|].
  - destruct (String.eqb s EmptyString) eqn:Hs; cbn [negb].
    + rewrite (bind_ok _ _ _ _ _ (generateUniqueId_world w)).
      rewrite (bind_ok _ _ (nextDraw w) (nextDraw w) (clock w)) by reflexivity.
      by rewrite Htail.
    + rewrite (bind_ok _ _ w w s) by reflexivity.
      rewrite (bind_ok _ _ w w (clock w)) by reflexivity.
      by rewrite Htail.
  - rewrite (bind_ok _ _ _ _ _ (generateUniqueId_world w)).
    rewrite (bind_ok _ _ (nextDraw w) (nextDraw w) (clock w)) by reflexivity.
    by rewrite Htail.
Qed.

Lemma holdsChanges_enqueued (act : Action) (taskData : Task)
    (Q : list OfflineChange) (w : World) :
  holdsChanges (enqueued act taskData Q w) (Q ++ [queuedChange act taskData w]).
Proof. left. unfold enqueued. cbn. apply lookup_insert_eq. Qed.

Lemma holdsTasks_enqueued (act : Action) (taskData : Task)
    (Q : list OfflineChange) (w : World) (L : list Task) :
  holdsTasks w L → holdsTasks (enqueued act taskData Q w) L.
Proof.
  apply holdsTasks_same_TASKS. unfold enqueued. cbn.
  rewrite lookup_insert_ne; [by destruct (needsId taskData)|].
  intros E. symmetry in E. by apply TASKS_not_OFFLINE_CHANGES.
Qed.

(** ** [updateTask] and [deleteTask] of the orchestrator *)

(** The shape hypotheses are not idle: over a queue key whose text is not
    JSON, [get] hands back the text itself, [push] is not a function of it,
    and the call throws. *)
Example enqueue_over_garbled_queue_throws :
  (ApiService.updateTask (Some "7") (titled "A")
     (setOnline false
        (setStorage (<[STORAGE_KEYS.OFFLINE_CHANGES := Garbled "oops"]> ∅)
                    sampleWorld))).1
  = Throw "TypeError".
Proof. vm_compute. reflexivity. Qed.

Lemma updateTask_run (i : option string) (u : Task) (w : World)
    (Q : list OfflineChange) :
  holdsChanges w Q →
  ApiService.updateTask i u w =
    let req := mkRequest PUT (API_CONFIG.TASKS +:+ "/" +:+ showString i) (Some u) in
    let queued := spread (onlyId i) u in
    if isOnline w then
      match server w (requests w) req with
      | Some r => (Ok (Reply.mk true (Some r) None (Some false) None),
                   logRequest req w)
      | None => (Ok (Reply.mk true None None (Some true) None),
                 enqueued Update queued Q (logRequest req w))
      end
    else (Ok (Reply.mk true None None (Some true) None),
          enqueued Update queued Q w).
Proof.
  intros HQ. cbv zeta. unfold ApiService.updateTask.
  rewrite (bind_ok _ _ w w (isOnline w)) by reflexivity.
  destruct (isOnline w).
  - destruct (server w (requests w) _) as [r|] eqn:Hanswer.
    + erewrite try_catch_ok; [reflexivity|].
      by rewrite (bind_ok _ _ _ _ _ (apiCall_answer _ _ _ _ _ Hanswer)).
    + erewrite try_catch_throw; cycle 1.
      { by rewrite (bind_throw _ _ _ _ _ (apiCall_failure _ _ _ _ Hanswer)). }
      erewrite bind_ok; [reflexivity|].
      apply addToOfflineChangesQueue_world.
      by eapply holdsChanges_same_storage.
  - erewrite bind_ok; [reflexivity|]. by apply addToOfflineChangesQueue_world.
Qed.

Lemma deleteTask_run (i : option string) (w : World) (L : list Task)
    (Q : list OfflineChange) :
  holdsTasks w L → holdsChanges w Q →
  ApiService.deleteTask i w =
    match List.find (λ t, sameId (id t) i) L with
    | Some _ =>
        (Ok (Reply.mk true None (Some local_permanent) (Some true) None),
         withoutTasksCache (setStorage (savedStorage (afterDelete i L) w) w))
    | None =>
        let req :=
          mkRequest DELETE (API_CONFIG.TASKS +:+ "/" +:+ showString i) None in
        if isOnline w then
          match server w (requests w) req with
          | Some _ => (Ok (Reply.mk true None None (Some false) None),
                       withoutTasksCache (logRequest req w))
          | None => (Ok (Reply.mk true None None (Some true) None),
                     withoutTasksCache
                       (enqueued Delete (onlyId i) Q (logRequest req w)))
          end
        else (Ok (Reply.mk true None None (Some true) None),
              withoutTasksCache (enqueued Delete (onlyId i) Q w))
    end.
Proof.
  intros HL HQ. unfold ApiService.deleteTask.
  rewrite (bind_ok _ _ _ _ _ (getTaskById_world i w L HL)).
  destruct (List.find _ L) as [t|].
  - rewrite (bind_ok _ _ _ _ _ (deleteTask_world i w L HL)). reflexivity.
  - cbv zeta. rewrite (bind_ok _ _ w w (isOnline w)) by reflexivity.
    destruct (isOnline w) eqn:Hon.
    + destruct (server w (requests w) _) as [r|] eqn:Hanswer.
      * erewrite bind_ok; cycle 1.
        { erewrite try_catch_ok; [reflexivity|].
          by rewrite (bind_ok _ _ _ _ _ (apiCall_answer _ _ _ _ _ Hanswer)). }
        cbn beta iota. run. cbn. by rewrite Hon.
      * erewrite bind_ok; cycle 1.
        { erewrite try_catch_throw; cycle 1.
          { by rewrite (bind_throw _ _ _ _ _ (apiCall_failure _ _ _ _ Hanswer)). }
          erewrite bind_ok; [reflexivity|].
          apply addToOfflineChangesQueue_world.
          by eapply holdsChanges_same_storage. }
        reflexivity.
    + erewrite bind_ok; cycle 1.
      { erewrite bind_ok; [reflexivity|]. by apply addToOfflineChangesQueue_world. }
      cbn beta iota. run. cbn.
      replace (isOnline (if needsId (onlyId i) then nextDraw w else w)) with false
        by (by destruct (needsId (onlyId i))).
      reflexivity.
Qed.

(** C5. [updateTask] and [deleteTask] return a reply with success on every
    path and never throw: when the remote call succeeds; when it fails while
    online, in which case the change is appended to the offline queue; and
    offline, where the change is appended to the queue and no request is
    sent.  This includes deleting an id that is neither in the Task
    Repository nor known to the server. *)
Theorem updateTask_deleteTask_always_succeed
    (w : World) (L : list Task) (Q : list OfflineChange) :
  holdsTasks w L → holdsChanges w Q →
  (∀ i u, ∃ r w',
     ApiService.updateTask i u w = (Ok r, w') ∧ Reply.success r = true ∧
     (isOnline w = false → requests w' = requests w) ∧
     (isOnline w = false ∨
      server w (requests w)
        (mkRequest PUT (API_CONFIG.TASKS +:+ "/" +:+ showString i) (Some u)) = None →
      Reply.offline r = Some true ∧
      holdsChanges w' (Q ++ [queuedChange Update (spread (onlyId i) u) w]))) ∧
  (∀ i, ∃ r w',
     ApiService.deleteTask i w = (Ok r, w') ∧ Reply.success r = true ∧
     (isOnline w = false → requests w' = requests w) ∧
     (List.find (λ t, sameId (id t) i) L = None →
      isOnline w = false ∨
      server w (requests w)
        (mkRequest DELETE (API_CONFIG.TASKS +:+ "/" +:+ showString i) None) = None →
      Reply.offline r = Some true ∧
      holdsChanges w' (Q ++ [queuedChange Delete (onlyId i) w]))).
Proof.
  intros HL HQ. split.
  - intros i u. rewrite (updateTask_run i u w Q HQ). cbv zeta.
    destruct (isOnline w) eqn:Hon.
    + destruct (server w (requests w) _) as [r|] eqn:Hanswer.
      * eexists _, _. split; [reflexivity|]. split; [reflexivity|].
        split; [intros [=]|]. intros [[=]|[=]].
      * eexists _, _. split; [reflexivity|]. split; [reflexivity|].
        split; [intros [=]|]. intros _. split; [reflexivity|].
        exact (holdsChanges_enqueued Update _ Q (logRequest _ w)).
    + eexists _, _. split; [reflexivity|]. split; [reflexivity|]. split.
      * intros _. unfold enqueued. cbn. by destruct (needsId _).
      * intros _. split; [reflexivity|]. apply holdsChanges_enqueued.
  - intros i. rewrite (deleteTask_run i w L Q HL HQ).
    destruct (List.find _ L) as [t|].
    + eexists _, _. split; [reflexivity|]. split; [reflexivity|].
      split; [done|]. intros [=].
    + cbv zeta. destruct (isOnline w) eqn:Hon.
      * destruct (server w (requests w) _) as [r|] eqn:Hanswer.
        -- eexists _, _. split; [reflexivity|]. split; [reflexivity|].
           split; [intros [=]|]. intros _ [[=]|[=]].
        -- eexists _, _. split; [reflexivity|]. split; [reflexivity|].
           split; [intros [=]|]. intros _ _. split; [reflexivity|].
           left. cbn. rewrite lookup_delete_ne by apply tasksCacheKey_not_OFFLINE_CHANGES.
           apply lookup_insert_eq.
      * eexists _, _. split; [reflexivity|]. split; [reflexivity|]. split.
        -- intros _. unfold enqueued. cbn. by destruct (needsId _).
        -- intros _ _. split; [reflexivity|].
           left. cbn. rewrite lookup_delete_ne by apply tasksCacheKey_not_OFFLINE_CHANGES.
           apply lookup_insert_eq.
Qed.

Lemma updateTask_deleteTask_always_succeed_witness :
  holdsTasks sampleWorld [] ∧ holdsChanges sampleWorld [] ∧
  ∃ r w',
    ApiService.deleteTask (Some "99") sampleWorld = (Ok r, w') ∧
    Reply.success r = true ∧
    Reply.offline r = Some true ∧
    holdsChanges w' [queuedChange Delete (onlyId (Some "99")) sampleWorld].
Proof.
  assert (HL : holdsTasks sampleWorld []) by (right; split; reflexivity).
  assert (HQ : holdsChanges sampleWorld []) by (right; split; reflexivity).
  split; [exact HL|]. split; [exact HQ|].
  destruct (proj2 (updateTask_deleteTask_always_succeed sampleWorld [] [] HL HQ)
              (Some "99")) as (r & w' & Hrun & Hok & _ & Hqueued).
  exists r, w'. split; [exact Hrun|]. split; [exact Hok|].
  apply Hqueued; [reflexivity|]. right. reflexivity.
Defined.

(** ** Shapes are kept by the orchestrator *)

Lemma holdsTasks_withoutTasksCache (w : World) (L : list Task) :
  holdsTasks w L → holdsTasks (withoutTasksCache w) L.
Proof.
  apply holdsTasks_same_TASKS. cbn.
  apply lookup_delete_ne, tasksCacheKey_not_TASKS.
Qed.

Lemma holdsChanges_same_key (w w' : World) (Q : list OfflineChange) :
  storage w' !! STORAGE_KEYS.OFFLINE_CHANGES
    = storage w !! STORAGE_KEYS.OFFLINE_CHANGES →
  holdsChanges w Q → holdsChanges w' Q.
Proof. unfold holdsChanges. intros ->. done. Qed.

Lemma holdsChanges_withoutTasksCache (w : World) (Q : list OfflineChange) :
  holdsChanges w Q → holdsChanges (withoutTasksCache w) Q.
Proof.
  apply holdsChanges_same_key. cbn.
  apply lookup_delete_ne, tasksCacheKey_not_OFFLINE_CHANGES.
Qed.

Lemma holdsChanges_saved (w : World) (L : list Task) (Q : list OfflineChange) :
  holdsChanges w Q → holdsChanges (setStorage (savedStorage L w) w) Q.
Proof.
  apply holdsChanges_same_key. cbn. unfold savedStorage.
  rewrite lookup_insert_ne by apply tasksCacheKey_not_OFFLINE_CHANGES.
  apply lookup_insert_ne, TASKS_not_OFFLINE_CHANGES.
Qed.

(** ** One turn of the replay loop *)

Lemma replay_run (acc : list SyncResult) (c : OfflineChange) (w : World)
    (L : list Task) (Q : list OfflineChange) :
  holdsTasks w L → holdsChanges w Q →
  ∃ r w' L' Q',
    ApiService.replay acc c w
    = (Ok (acc ++ [mkSyncResult (id (task c)) r (action c)])%list, w') ∧
    holdsTasks w' L' ∧ holdsChanges w' Q' ∧
    isOnline w' = isOnline w ∧
    (isOnline w = true →
     (action c = Delete →
      List.find (λ t, sameId (id t) (id (task c))) L = None) →
     requests w' = (requests w ++ [requestOf c])%list ∧ L' = L).
Proof.
  intros HL HQ. unfold ApiService.replay.
  assert (Hupd : ∃ r w' Q',
    ApiService.updateTask (id (task c)) (task c) w = (Ok r, w') ∧
    holdsTasks w' L ∧ holdsChanges w' Q' ∧ isOnline w' = isOnline w ∧
    (isOnline w = true →
     requests w' = (requests w ++
       [mkRequest PUT (API_CONFIG.TASKS +:+ "/" +:+ showString (id (task c)))
                  (Some (task c))])%list)).
  { rewrite (updateTask_run _ _ w Q HQ). cbv zeta.
    destruct (isOnline w) eqn:Hon.
    - destruct (server w (requests w) _) as [r|].
      + eexists _, _, Q. split; [reflexivity|]. by repeat split.
      + eexists _, _, _. split; [reflexivity|].
        split; [by apply holdsTasks_enqueued|].
        split; [apply holdsChanges_enqueued|].
        split; [unfold enqueued; cbn; by destruct (needsId _)|].
        intros _. unfold enqueued. cbn. by destruct (needsId _).
    - eexists _, _, _. split; [reflexivity|].
      split; [by apply holdsTasks_enqueued|].
      split; [apply holdsChanges_enqueued|].
      split; [unfold enqueued; cbn; destruct (needsId _); by rewrite ?Hon|].
      intros [=]. }
  destruct (action c) eqn:Hact.
  - (* 'create' *)
    destruct Hupd as (r & w' & Q' & Hrun & HL' & HQ' & Hon' & Hreq).
    exists r, w', L, Q'. split.
    { erewrite try_catch_ok; [reflexivity|]. by rewrite (bind_ok _ _ _ _ _ Hrun). }
    repeat split; try done.
    unfold requestOf. rewrite Hact. by apply Hreq.
  - (* anything else: 'update' *)
    destruct Hupd as (r & w' & Q' & Hrun & HL' & HQ' & Hon' & Hreq).
    exists r, w', L, Q'. split.
    { erewrite try_catch_ok; [reflexivity|]. by rewrite (bind_ok _ _ _ _ _ Hrun). }
    repeat split; try done.
    unfold requestOf. rewrite Hact. by apply Hreq.
  - (* 'delete' *)
    pose proof (deleteTask_run (id (task c)) w L Q HL HQ) as Hrun.
    destruct (List.find _ L) as [t|] eqn:Hfind.
    + eexists _, _, (afterDelete (id (task c)) L), Q. split.
      { erewrite try_catch_ok; [reflexivity|]. by rewrite (bind_ok _ _ _ _ _ Hrun). }
      split; [apply holdsTasks_withoutTasksCache, holdsTasks_saved|].
      split; [by apply holdsChanges_withoutTasksCache, holdsChanges_saved|].
      split; [done|]. intros _ Hnone. by specialize (Hnone eq_refl).
    + cbv zeta in Hrun. destruct (isOnline w) eqn:Hon.
      * destruct (server w (requests w) _) as [r|].
        -- eexists _, _, L, Q. split.
           { erewrite try_catch_ok; [reflexivity|]. by rewrite (bind_ok _ _ _ _ _ Hrun). }
           split; [by apply holdsTasks_withoutTasksCache|].
           split; [by apply holdsChanges_withoutTasksCache|].
           split; [done|]. intros _ _. unfold requestOf. by rewrite Hact.
        -- eexists _, _, L, _. split.
           { erewrite try_catch_ok; [reflexivity|]. by rewrite (bind_ok _ _ _ _ _ Hrun). }
           split; [by apply holdsTasks_withoutTasksCache, holdsTasks_enqueued|].
           split; [apply holdsChanges_withoutTasksCache, holdsChanges_enqueued|].
           split; [unfold enqueued; cbn; by destruct (needsId _)|].
           intros _ _. unfold requestOf. rewrite Hact. split; [|done].
           unfold enqueued. cbn. by destruct (needsId _).
      * eexists _, _, L, _. split.
        { erewrite try_catch_ok; [reflexivity|]. by rewrite (bind_ok _ _ _ _ _ Hrun). }
        split; [by apply holdsTasks_withoutTasksCache, holdsTasks_enqueued|].
        split; [apply holdsChanges_withoutTasksCache, holdsChanges_enqueued|].
        split; [unfold enqueued; cbn; destruct (needsId _); by rewrite ?Hon|].
        intros [=].
Qed.

(** ** The replay loop *)

Lemma forOf_replay_run (cs : list OfflineChange) :
  ∀ (acc : list SyncResult) (w : World) (L : list Task) (Q : list OfflineChange),
  holdsTasks w L → holdsChanges w Q →
  ∃ results w',
    forOf ApiService.replay cs acc w = (Ok (acc ++ results)%list, w') ∧
    taskId <$> results = (λ c, id (task c)) <$> cs ∧
    resultAction <$> results = action <$> cs ∧
    wellShaped w' ∧
    isOnline w' = isOnline w ∧
    (isOnline w = true →
     (∀ c, c ∈ cs → action c = Delete →
           List.find (λ t, sameId (id t) (id (task c))) L = None) →
     requests w' = (requests w ++ (requestOf <$> cs))%list).
Proof.
  induction cs as [|c cs IH]; intros acc w L Q HL HQ; cbn [forOf].
  - exists [], w. rewrite !app_nil_r. split; [reflexivity|].
    split; [done|]. split; [done|]. split; [split; eauto|]. by split.
  - destruct (replay_run acc c w L Q HL HQ)
      as (r & w1 & L1 & Q1 & Hstep & HL1 & HQ1 & Hon1 & Hreq1).
    destruct (IH (acc ++ [mkSyncResult (id (task c)) r (action c)])%list
                 w1 L1 Q1 HL1 HQ1)
      as (results & w' & Hrest & Hids & Hacts & Hshape & Hon & Hreq).
    exists (mkSyncResult (id (task c)) r (action c) :: results), w'.
    split.
    { rewrite (bind_ok _ _ _ _ _ Hstep), Hrest. by rewrite <- app_assoc. }
    split; [cbn; by rewrite Hids|]. split; [cbn; by rewrite Hacts|].
    split; [done|]. split; [congruence|].
    intros Honline Hremote.
    destruct (Hreq1 Honline) as [Hr1 ->].
    { apply Hremote. by apply elem_of_cons; left. }
    rewrite Hreq.
    + rewrite Hr1, <- app_assoc. reflexivity.
    + congruence.
    + intros c' Hc'. apply Hremote. by apply elem_of_cons; right.
Qed.

(** ** [syncOfflineChanges] *)

Lemma sync_offline (w : World) :
  isOnline w = false →
  ApiService.syncOfflineChanges w
  = (Ok (SyncReply.mk false None (Some "Cannot sync: Device is offline.")), w).
Proof.
  intros Hoff. unfold ApiService.syncOfflineChanges.
  rewrite (bind_ok _ _ w w false) by (unfold ApiService.getOnline; by rewrite Hoff).
  reflexivity.
Qed.

Lemma sync_online_empty (w : World) :
  isOnline w = true → holdsChanges w [] →
  ApiService.syncOfflineChanges w = (Ok (SyncReply.mk true (Some []) None), w).
Proof.
  intros Hon HQ. unfold ApiService.syncOfflineChanges.
  rewrite (bind_ok _ _ w w true) by (unfold ApiService.getOnline; by rewrite Hon).
  cbn [negb].
  pose proof (getOfflineChanges_holds w [] HQ) as Hget.
  unfold bind at 1 in Hget. unfold bind at 1.
  destruct (StorageService.getOfflineChanges w) as [[v|err] w1]; [|discriminate Hget].
  unfold bind at 1. rewrite Hget. reflexivity.
Qed.

Lemma sync_online_run (w : World) (L : list Task) (Q : list OfflineChange) :
  isOnline w = true → holdsTasks w L → holdsChanges w Q → Q ≠ [] →
  ∃ results w',
    ApiService.syncOfflineChanges w
    = (Ok (SyncReply.mk true (Some results) None), w') ∧
    taskId <$> results = (λ c, id (task c)) <$> Q ∧
    resultAction <$> results = action <$> Q ∧
    storage w' !! STORAGE_KEYS.OFFLINE_CHANGES = None ∧
    storage w' !! tasksCacheKey = None ∧
    ((∀ c, c ∈ Q → action c = Delete →
           List.find (λ t, sameId (id t) (id (task c))) L = None) →
     requests w' = (requests w ++ (requestOf <$> Q))%list).
Proof.
  intros Hon HL HQ Hne. unfold ApiService.syncOfflineChanges.
  rewrite (bind_ok _ _ w w true) by (unfold ApiService.getOnline; by rewrite Hon).
  cbn [negb].
  pose proof (getOfflineChanges_holds w Q HQ) as Hget.
  unfold bind at 1 in Hget. unfold bind at 1.
  destruct (StorageService.getOfflineChanges w) as [[v|err] w1]; [|discriminate Hget].
  unfold bind at 1. rewrite Hget.
  rewrite bool_decide_eq_false_2 by (destruct Q; [done|discriminate]).
  destruct (forOf_replay_run Q [] w L Q HL HQ)
    as (results & w' & Hloop & Hids & Hacts & _ & _ & Hreq).
  rewrite (bind_ok _ _ _ _ _ Hloop). cbn [app].
  eexists results, _. split; [reflexivity|].
  split; [done|]. split; [done|]. cbn.
  split; [rewrite lookup_delete_ne by (intros E; symmetry in E;
            by apply tasksCacheKey_not_OFFLINE_CHANGES); apply lookup_delete_eq|].
  split; [apply lookup_delete_eq|].
  intros Hremote. by apply Hreq.
Qed.

(** One turn of the loop leaves the world that the orchestrator call of the
    change leaves, whether the call returned or threw, and never throws
    itself. *)
Lemma replay_world (acc : list SyncResult) (c : OfflineChange) (w : World) :
  ∃ res, ApiService.replay acc c w = (Ok res, (replayCall c w).2).
Proof.
  unfold ApiService.replay, replayCall, try_catch, bind, ret.
  destruct (action c).
  - destruct (ApiService.updateTask _ _ w) as [[r|e] w1]; by eexists.
  - destruct (ApiService.updateTask _ _ w) as [[r|e] w1]; by eexists.
  - destruct (ApiService.deleteTask _ w) as [[r|e] w1]; by eexists.
Qed.

Lemma forOf_replay_world (cs : list OfflineChange) :
  ∀ (acc : list SyncResult) (w : World),
  ∃ res, forOf ApiService.replay cs acc w = (Ok res, replayedWorld cs w).
Proof.
  induction cs as [|c cs IH]; intros acc w; cbn [forOf].
  - by exists acc.
  - destruct (replay_world acc c w) as [res Hstep].
    rewrite (bind_ok _ _ _ _ _ Hstep). apply IH.
Qed.

Lemma sync_online_world (w : World) (Q : list OfflineChange) :
  isOnline w = true → holdsChanges w Q → Q ≠ [] →
  (ApiService.syncOfflineChanges w).2 = drained (replayedWorld Q w).
Proof.
  intros Hon HQ Hne. unfold ApiService.syncOfflineChanges.
  rewrite (bind_ok _ _ w w true) by (unfold ApiService.getOnline; by rewrite Hon).
  cbn [negb].
  pose proof (getOfflineChanges_holds w Q HQ) as Hget.
  unfold bind at 1 in Hget. unfold bind at 1.
  destruct (StorageService.getOfflineChanges w) as [[v|err] w1]; [|discriminate Hget].
  unfold bind at 1. rewrite Hget.
  rewrite bool_decide_eq_false_2 by (destruct Q; [done|discriminate]).
  destruct (forOf_replay_world Q [] w) as [res Hloop].
  rewrite (bind_ok _ _ _ _ _ Hloop). reflexivity.
Qed.

(** C6, as the code has it.  Offline, [syncOfflineChanges] returns a failure
    at once and leaves the world, and so the queue, as it is, whatever the
    storage holds.  Online with a queue that is not empty, it replays every
    queued change: it makes the orchestrator call of each change
    ([deleteTask] for a delete, [updateTask] otherwise), one after the other
    in the order of the queue, and yields one result per change in that
    order; when no queued delete names a permanent local task, the requests
    it sends are those of the queued changes.  Then it removes the
    OFFLINE_CHANGES key and the cache entry of the tasks collection, whatever
    the server answered to the replays.  Online with an empty queue, it
    returns success with no results and leaves the world as it is. *)
Theorem syncOfflineChanges_drain (w : World) :
  (isOnline w = false →
   ApiService.syncOfflineChanges w
   = (Ok (SyncReply.mk false None (Some "Cannot sync: Device is offline.")), w)) ∧
  (∀ L Q, isOnline w = true → holdsTasks w L → holdsChanges w Q → Q ≠ [] →
     ∃ results w',
       ApiService.syncOfflineChanges w
       = (Ok (SyncReply.mk true (Some results) None), w') ∧
       w' = drained (replayedWorld Q w) ∧
       taskId <$> results = (λ c, id (task c)) <$> Q ∧
       resultAction <$> results = action <$> Q ∧
       storage w' !! STORAGE_KEYS.OFFLINE_CHANGES = None ∧
       storage w' !! tasksCacheKey = None ∧
       ((∀ c, c ∈ Q → action c = Delete →
              List.find (λ t, sameId (id t) (id (task c))) L = None) →
        requests w' = (requests w ++ (requestOf <$> Q))%list)) ∧
  (isOnline w = true → holdsChanges w [] →
   ApiService.syncOfflineChanges w = (Ok (SyncReply.mk true (Some []) None), w)).
Proof.
  split; [apply sync_offline|]. split; [|apply sync_online_empty].
  intros L Q Hon HL HQ Hne.
  destruct (sync_online_run w L Q Hon HL HQ Hne)
    as (results & w' & Hrun & Hids & Hacts & Hqueue & Hcache & Hreq).
  exists results, w'. split; [exact Hrun|]. split; [|done].
  rewrite <- (sync_online_world w Q Hon HQ Hne). by rewrite Hrun.
Qed.

Lemma syncOfflineChanges_drain_witness :
  (isOnline (setOnline false afterABC) = false ∧
   ApiService.syncOfflineChanges (setOnline false afterABC)
   = (Ok (SyncReply.mk false None (Some "Cannot sync: Device is offline.")),
      setOnline false afterABC)) ∧
  (isOnline afterABC = true ∧ holdsTasks afterABC [] ∧
   holdsChanges afterABC changesABC ∧ changesABC ≠ [] ∧
   ∃ results w',
     ApiService.syncOfflineChanges afterABC
     = (Ok (SyncReply.mk true (Some results) None), w') ∧
     resultAction <$> results = [Update; Delete; Update] ∧
     storage w' !! STORAGE_KEYS.OFFLINE_CHANGES = None ∧
     storage w' !! tasksCacheKey = None ∧
     endpoint <$> requests w' = ["/todos/7"; "/todos/8"; "/todos/9"]) ∧
  (isOnline sampleWorld = true ∧ holdsChanges sampleWorld [] ∧
   ApiService.syncOfflineChanges sampleWorld
   = (Ok (SyncReply.mk true (Some []) None), sampleWorld)).
Proof.
  split; [|split].
  - split; [reflexivity|].
    apply (proj1 (syncOfflineChanges_drain (setOnline false afterABC))).
    reflexivity.
  - assert (Hon : isOnline afterABC = true) by reflexivity.
    assert (HL : holdsTasks afterABC []) by (right; split; vm_compute; reflexivity).
    assert (HQ : holdsChanges afterABC changesABC) by (left; vm_compute; reflexivity).
    assert (Hne : changesABC ≠ []) by discriminate.
    split; [exact Hon|]. split; [exact HL|]. split; [exact HQ|]. split; [exact Hne|].
    destruct (proj1 (proj2 (syncOfflineChanges_drain afterABC))
                [] changesABC Hon HL HQ Hne)
      as (results & w' & Hrun & _ & _ & Hacts & Hqueue & Hcache & Hreq).
    exists results, w'. split; [exact Hrun|]. split; [exact Hacts|].
    split; [exact Hqueue|]. split; [exact Hcache|].
    rewrite Hreq; [vm_compute; reflexivity|]. intros c _ _. reflexivity.
  - assert (HQ : holdsChanges sampleWorld []) by (right; split; reflexivity).
    split; [reflexivity|]. split; [exact HQ|].
    apply (proj2 (proj2 (syncOfflineChanges_drain sampleWorld))); [reflexivity|exact HQ].
Defined.

(** C6, as stated, fails: online with an empty queue, [syncOfflineChanges]
    returns before the cache entry of the tasks collection is removed. *)
Lemma sync_with_empty_queue_keeps_cache_entry :
  let w := cachedWorld [remoteOne] [] in
  isOnline w = true ∧
  (ApiService.syncOfflineChanges w).1 = Ok (SyncReply.mk true (Some []) None) ∧
  storage (ApiService.syncOfflineChanges w).2 !! tasksCacheKey
  = Some (Doc (JEnvelope (JTasks [remoteOne]) (clock sampleWorld - 1000)
                         CACHE_EXPIRATION.SHORT)).
Proof. vm_compute. repeat split. Qed.

(** C7. The offline queue is replayed first in, first out.
    [addToOfflineChangesQueue] appends the new change at the end of the
    stored list.  [syncOfflineChanges], online, goes through the stored list
    in its order: it yields one result per change, in the order of the
    queue, and when no queued delete names a permanent local task the
    requests it sends are those of the queued changes, in the order of the
    queue. *)
Theorem offline_queue_is_fifo (w : World) (L : list Task) (Q : list OfflineChange) :
  holdsTasks w L → holdsChanges w Q →
  (∀ act taskData, ∃ w',
     ApiService.addToOfflineChangesQueue act taskData w = (Ok tt, w') ∧
     holdsChanges w' (Q ++ [queuedChange act taskData w]) ∧
     holdsTasks w' L) ∧
  (isOnline w = true →
   ∃ results w',
     ApiService.syncOfflineChanges w
     = (Ok (SyncReply.mk true (Some results) None), w') ∧
     taskId <$> results = (λ c, id (task c)) <$> Q ∧
     resultAction <$> results = action <$> Q ∧
     ((∀ c, c ∈ Q → action c = Delete →
            List.find (λ t, sameId (id t) (id (task c))) L = None) →
      requests w' = (requests w ++ (requestOf <$> Q))%list)).
Proof.
  intros HL HQ. split.
  - intros act taskData. exists (enqueued act taskData Q w).
    split; [by apply addToOfflineChangesQueue_world|].
    split; [apply holdsChanges_enqueued|by apply holdsTasks_enqueued].
  - intros Hon. destruct Q as [|c Q].
    + exists [], w. split; [by apply sync_online_empty|].
      split; [done|]. split; [done|]. intros _. by rewrite app_nil_r.
    + destruct (sync_online_run w L (c :: Q) Hon HL HQ)
        as (results & w' & Hrun & Hids & Hacts & _ & _ & Hreq); [discriminate|].
      by exists results, w'.
Qed.

Lemma offline_queue_is_fifo_witness :
  holdsTasks afterABC [] ∧ holdsChanges afterABC changesABC ∧
  isOnline afterABC = true ∧
  ∃ results w',
    ApiService.syncOfflineChanges afterABC
    = (Ok (SyncReply.mk true (Some results) None), w') ∧
    taskId <$> results = [Some "7"; Some "8"; Some "9"] ∧
    resultAction <$> results = [Update; Delete; Update] ∧
    requests w'
    = [ mkRequest PUT "/todos/7"
          (Some (task (queuedChange Update (spread (onlyId (Some "7")) (titled "A"))
                                    sampleWorld)));
        mkRequest DELETE "/todos/8" None;
        mkRequest PUT "/todos/9"
          (Some (task (queuedChange Update (spread (onlyId (Some "9")) (titled "C"))
                                    sampleWorld))) ].
Proof.
  assert (HL : holdsTasks afterABC []) by (right; split; vm_compute; reflexivity).
  assert (HQ : holdsChanges afterABC changesABC) by (left; vm_compute; reflexivity).
  split; [exact HL|]. split; [exact HQ|]. split; [reflexivity|].
  destruct (proj2 (offline_queue_is_fifo afterABC [] changesABC HL HQ) eq_refl)
    as (results & w' & Hrun & Hids & Hacts & Hreq).
  exists results, w'. split; [exact Hrun|]. split; [exact Hids|].
  split; [exact Hacts|]. apply Hreq. intros c _ _. reflexivity.
Defined.

(** The three changes of the witness, drained: the server sees A, B, C. *)
Example drain_ABC :
  endpoint <$> requests (ApiService.syncOfflineChanges afterABC).2
  = ["/todos/7"; "/todos/8"; "/todos/9"].
Proof. vm_compute. reflexivity. Qed.

(** * Further properties of the storage layer *)

(** ** Cache entries that cannot be read *)

(** X1. A cache entry that is there but cannot be used (its text does not
    parse, or it parses to something that is not an envelope) makes
    [getCached] return null and is removed by that read, whatever the window;
    the next read finds no entry and changes nothing.  An empty text is
    skipped and stays. *)
Theorem getCached_removes_unreadable_entry
    (k : string) (win : Z) (w : World) (item : stored) :
  storage w !! (STORAGE_KEYS.CACHE_PREFIX +:+ k) = Some item →
  (unreadable item = true →
   let w1 := setStorage (delete (STORAGE_KEYS.CACHE_PREFIX +:+ k) (storage w)) w in
   StorageService.getCached k win w = (Ok JNull, w1) ∧
   StorageService.getCached k win w1 = (Ok JNull, w1)) ∧
  (item = Garbled EmptyString →
   StorageService.getCached k win w = (Ok JNull, w)).
Proof.
  intros Hitem. split.
  - intros Hbad. cbv zeta. split.
    + unfold StorageService.getCached. run. rewrite Hitem.
      destruct item as [v|s].
      * destruct v; try reflexivity. discriminate Hbad.
      * destruct s; [discriminate Hbad|reflexivity].
    + unfold StorageService.getCached. run.
      by rewrite storage_setStorage, lookup_delete_eq.
  - intros ->. unfold StorageService.getCached. run. by rewrite Hitem.
Qed.

Lemma getCached_removes_unreadable_entry_witness :
  storage corruptWorld !! (STORAGE_KEYS.CACHE_PREFIX +:+ "tasks_list")
    = Some (Garbled "{not json") ∧
  StorageService.getCached "tasks_list" CACHE_EXPIRATION.SHORT corruptWorld
  = (Ok JNull,
     setStorage (delete (STORAGE_KEYS.CACHE_PREFIX +:+ "tasks_list")
                        (storage corruptWorld)) corruptWorld).
Proof.
  assert (H : storage corruptWorld !! (STORAGE_KEYS.CACHE_PREFIX +:+ "tasks_list")
              = Some (Garbled "{not json")) by (vm_compute; reflexivity).
  split; [exact H|].
  exact (proj1 (proj1 (getCached_removes_unreadable_entry "tasks_list"
                         CACHE_EXPIRATION.SHORT corruptWorld _ H) eq_refl)).
Defined.

(** ** The Task Repository: saving *)

Lemma upsert_ids (t : Task) (L : list Task) :
  NoDup (id <$> L) →
  NoDup (id <$> match list_find (λ x, sameId (id x) (id t) = true) L with
                | Some (existingIndex, _) => <[existingIndex := t]> L
                | None => (L ++ [t])%list
                end).
Proof.
  intros Hnd. destruct (list_find _ L) as [[n old]|] eqn:Hfind.
  - apply list_find_Some in Hfind as (Hn & Hid & _).
    unfold sameId in Hid. apply bool_decide_eq_true in Hid.
    rewrite list_fmap_insert, <- Hid, list_insert_id; [done|].
    by rewrite list_lookup_fmap, Hn.
  - apply list_find_None in Hfind.
    rewrite fmap_app. apply NoDup_app. split; [done|].
    split; [|apply NoDup_singleton].
    intros i Hi Hi'. apply list_elem_of_singleton in Hi'. subst i.
    apply list_elem_of_fmap in Hi as (x & Hx & Hin).
    rewrite Forall_forall in Hfind. apply (Hfind x Hin).
    unfold sameId. by apply bool_decide_eq_true.
Qed.

Lemma afterSave_ids (t : Task) (L : list Task) :
  NoDup (id <$> L) → NoDup (id <$> afterSave t L).
Proof.
  intros Hnd. unfold afterSave. rewrite sortWith_Permutation. by apply upsert_ids.
Qed.

Lemma afterSave_keeps_others (t x : Task) (L : list Task) :
  x ∈ L → id x ≠ id t → x ∈ afterSave t L.
Proof.
  intros Hx Hne. unfold afterSave. rewrite sortWith_Permutation.
  destruct (list_find _ L) as [[n old]|] eqn:Hfind.
  - apply list_find_Some in Hfind as (Hn & Hid & _).
    unfold sameId in Hid. apply bool_decide_eq_true in Hid.
    apply list_elem_of_lookup in Hx as [m Hm].
    apply list_elem_of_lookup. exists m.
    rewrite list_lookup_insert_ne; [done|].
    intros ->. rewrite Hn in Hm. injection Hm as ->. congruence.
  - apply elem_of_app. by left.
Qed.

(** X2. [saveTask] is an upsert by id.  Over a repository whose ids are
    distinct, the list it writes is the stored list with the task put in
    place of the one stored under its id, or appended (in the order newest
    first when all tasks have a creation date): the ids stay distinct, every
    task under another id is kept, nothing else is added, and [getTaskById]
    with the id of the saved task returns the saved task. *)
Theorem saveTask_then_getTaskById (t : Task) (w : World) (L : list Task) :
  holdsTasks w L → NoDup (id <$> L) →
  let w1 := (StorageService.saveTask t w).2 in
  ∃ L',
    holdsTasks w1 L' ∧ isSaveOf L' t L ∧
    NoDup (id <$> L') ∧
    StorageService.getTaskById (id t) w1 = (Ok (Some t), w1) ∧
    (∀ x, x ∈ L → id x ≠ id t → x ∈ L') ∧
    (∀ x, x ∈ L' → x = t ∨ x ∈ L).
Proof.
  intros HL Hnd. cbv zeta. rewrite (saveTask_world t w L HL). cbn [snd].
  exists (afterSave t L).
  split; [apply holdsTasks_saved|]. split; [apply afterSave_isSaveOf|].
  split; [by apply afterSave_ids|].
  split; [|split].
  - rewrite (getTaskById_world _ _ _ (holdsTasks_saved (afterSave t L) w)).
    rewrite find_by_id_NoDup; [done|by apply afterSave_ids|apply afterSave_member].
  - intros x. apply afterSave_keeps_others.
  - intros x. unfold afterSave. rewrite sortWith_Permutation.
    destruct (list_find _ L) as [[n old]|].
    + intros Hx. apply list_elem_of_lookup in Hx as [m Hm].
      destruct (decide (n = m)) as [->|Hne].
      * destruct (decide (m < length L)%nat) as [Hlt|Hge].
        -- rewrite list_lookup_insert_eq in Hm by done. left. congruence.
        -- rewrite list_insert_ge in Hm by lia. right.
           apply list_elem_of_lookup. by exists m.
      * rewrite list_lookup_insert_ne in Hm by done. right.
        apply list_elem_of_lookup. by exists m.
    + intros Hx. apply elem_of_app in Hx as [Hx|Hx]; [by right|].
      apply list_elem_of_singleton in Hx. by left.
Qed.

Lemma saveTask_then_getTaskById_witness :
  let w := cachedWorld [] [localOne; localTwo] in
  holdsTasks w [localOne; localTwo] ∧
  NoDup (id <$> [localOne; localTwo]) ∧
  ∃ L',
    holdsTasks (StorageService.saveTask (sampleTask "1" 5) w).2 L' ∧
    L' = [localTwo; sampleTask "1" 5] ∧
    StorageService.getTaskById (Some "1")
      (StorageService.saveTask (sampleTask "1" 5) w).2
    = (Ok (Some (sampleTask "1" 5)),
       (StorageService.saveTask (sampleTask "1" 5) w).2).
Proof.
  cbv zeta. set (w := cachedWorld [] [localOne; localTwo]).
  assert (HL : holdsTasks w [localOne; localTwo])
    by (left; vm_compute; reflexivity).
  assert (Hnd : NoDup (id <$> [localOne; localTwo])).
  { cbn. apply NoDup_cons. split; [|apply NoDup_singleton].
    intros H. apply list_elem_of_singleton in H. discriminate H. }
  split; [exact HL|]. split; [exact Hnd|].
  destruct (saveTask_then_getTaskById (sampleTask "1" 5) w [localOne; localTwo]
              HL Hnd) as (L' & HL' & [_ Hexact] & _ & Hget & _).
  exists L'. split; [exact HL'|]. split; [|exact Hget].
  rewrite Hexact; [vm_compute; reflexivity|by eexists|].
  repeat (constructor; [by eexists|]). constructor.
Defined.

(** ** Sorting dated tasks *)

Lemma notOlder_trans (a b c : Task) : notOlder a b → notOlder b c → notOlder a c.
Proof.
  intros (ta & tb & Ha & Hb & Hab) (tb' & tc & Hb' & Hc & Hbc).
  exists ta, tc. split; [done|]. split; [done|].
  rewrite Hb in Hb'. injection Hb' as <-. lia.
Qed.

Lemma insertSorted_dated (a : Task) (l : list Task) :
  dated a → Forall dated l →
  StronglySorted notOlder l →
  StronglySorted notOlder (insertSorted newestFirst a l).
Proof.
  intros [ta Ha] Hl Hs. induction l as [|b l IH]; cbn [insertSorted].
  - by repeat constructor.
  - apply Forall_cons in Hl as [[tb Hb] Hl].
    apply StronglySorted_cons in Hs as [Hbl Hs].
    unfold newestFirst at 1. rewrite Hb, Ha.
    destruct (0 <? tb - ta) eqn:Hcmp.
    + apply Z.ltb_lt in Hcmp. apply StronglySorted_cons. split; [|by apply IH].
      rewrite insertSorted_Permutation. apply Forall_cons. split; [|done].
      exists tb, ta. split; [done|]. split; [done|]. lia.
    + apply Z.ltb_ge in Hcmp.
      assert (Hab : notOlder a b).
      { exists ta, tb. split; [done|]. split; [done|]. lia. }
      apply StronglySorted_cons. split.
      * apply Forall_cons. split; [done|].
        eapply Forall_impl; [exact Hbl|]. intros c Hc. by eapply notOlder_trans.
      * by apply StronglySorted_cons.
Qed.

Lemma sortWith_dated (l : list Task) :
  Forall dated l → StronglySorted notOlder (sortWith newestFirst l).
Proof.
  induction l as [|a l IH]; intros Hl; cbn [sortWith foldr]; [constructor|].
  apply Forall_cons in Hl as [Ha Hl]. fold (sortWith newestFirst l).
  apply insertSorted_dated; [done| |by apply IH].
  by rewrite sortWith_Permutation.
Qed.

(** X3. [saveTask] stores the list newest first: when the saved task and the
    stored tasks all have a creation date, every task of the list that
    [saveTask] writes was created no earlier than the tasks after it. *)
Theorem saveTask_stores_newest_first (t : Task) (w : World) (L : list Task) :
  holdsTasks w L → dated t → Forall dated L →
  holdsTasks (StorageService.saveTask t w).2 (afterSave t L) ∧
  StronglySorted notOlder (afterSave t L).
Proof.
  intros HL Ht Hd. rewrite (saveTask_world t w L HL). cbn [snd].
  split; [apply holdsTasks_saved|]. unfold afterSave. apply sortWith_dated.
  destruct (list_find _ L) as [[n old]|].
  - apply Forall_forall. intros x Hx. apply list_elem_of_lookup in Hx as [m Hm].
    destruct (decide (n = m)) as [->|Hne].
    + destruct (decide (m < length L)%nat) as [Hlt|Hge].
      * rewrite list_lookup_insert_eq in Hm by done. congruence.
      * rewrite list_insert_ge in Hm by lia.
        rewrite Forall_forall in Hd. apply Hd, list_elem_of_lookup. by exists m.
    + rewrite list_lookup_insert_ne in Hm by done.
      rewrite Forall_forall in Hd. apply Hd, list_elem_of_lookup. by exists m.
  - apply Forall_app. split; [done|]. by apply Forall_singleton.
Qed.

Lemma saveTask_stores_newest_first_witness :
  holdsTasks (cachedWorld [] [localOne]) [localOne] ∧
  dated localTwo ∧ Forall dated [localOne] ∧
  StronglySorted notOlder (afterSave localTwo [localOne]) ∧
  afterSave localTwo [localOne] = [localTwo; localOne].
Proof.
  assert (HL : holdsTasks (cachedWorld [] [localOne]) [localOne])
    by (left; vm_compute; reflexivity).
  assert (Ht : dated localTwo) by (by eexists).
  assert (Hd : Forall dated [localOne]) by (apply Forall_singleton; by eexists).
  split; [exact HL|]. split; [exact Ht|]. split; [exact Hd|].
  split; [|vm_compute; reflexivity].
  exact (proj2 (saveTask_stores_newest_first localTwo
                  (cachedWorld [] [localOne]) [localOne] HL Ht Hd)).
Defined.

(** ** The Task Repository: deleting and updating *)

Lemma afterDelete_elem_of (i : option string) (L : list Task) (x : Task) :
  x ∈ afterDelete i L ↔ x ∈ L ∧ id x ≠ i.
Proof.
  unfold afterDelete. rewrite !list_elem_of_In, filter_In.
  unfold sameId. rewrite negb_true_iff, bool_decide_eq_false. tauto.
Qed.

Lemma find_afterDelete (i : option string) (L : list Task) :
  List.find (λ t, sameId (id t) i) (afterDelete i L) = None.
Proof.
  destruct (List.find _ (afterDelete i L)) as [x|] eqn:Hfind; [|done].
  apply find_some in Hfind as [Hin Hid].
  apply list_elem_of_In, afterDelete_elem_of in Hin as [_ Hne].
  unfold sameId in Hid. apply bool_decide_eq_true in Hid. done.
Qed.

Lemma afterDelete_absent (i : option string) (L : list Task) :
  List.find (λ t, sameId (id t) i) L = None → afterDelete i L = L.
Proof.
  intros Hnone. unfold afterDelete. induction L as [|x L IH]; [done|].
  cbn [List.find] in Hnone. cbn [List.filter].
  destruct (sameId (id x) i); [discriminate Hnone|]. cbn. f_equal. by apply IH.
Qed.

Lemma afterDelete_sublist (i : option string) (L : list Task) :
  afterDelete i L `sublist_of` L.
Proof.
  unfold afterDelete. induction L as [|x L IH]; cbn [List.filter]; [done|].
  destruct (negb _); by constructor.
Qed.

(** X4. The repository's [deleteTask] removes every task stored under the
    id and nothing else: the remaining tasks keep their order, a following
    [getTaskById] with the id finds nothing, and deleting an id that is not
    stored leaves the list as it was (the call still returns true). *)
Theorem repository_deleteTask_removes_exactly_the_id
    (i : option string) (w : World) (L : list Task) :
  holdsTasks w L →
  StorageService.deleteTask i w
  = (Ok true, setStorage (savedStorage (afterDelete i L) w) w) ∧
  let w1 := (StorageService.deleteTask i w).2 in
  holdsTasks w1 (afterDelete i L) ∧
  StorageService.getTaskById i w1 = (Ok None, w1) ∧
  (∀ x, x ∈ afterDelete i L ↔ x ∈ L ∧ id x ≠ i) ∧
  afterDelete i L `sublist_of` L ∧
  (StorageService.getTaskById i w = (Ok None, w) → afterDelete i L = L).
Proof.
  intros HL. split; [by apply deleteTask_world|]. cbv zeta.
  rewrite (deleteTask_world i w L HL). cbn [snd].
  split; [apply holdsTasks_saved|]. split; [|split; [|split]].
  - rewrite (getTaskById_world _ _ _ (holdsTasks_saved (afterDelete i L) w)).
    by rewrite find_afterDelete.
  - apply afterDelete_elem_of.
  - apply afterDelete_sublist.
  - rewrite (getTaskById_world i w L HL). intros [= Hnone].
    by apply afterDelete_absent.
Qed.

Lemma repository_deleteTask_removes_exactly_the_id_witness :
  holdsTasks (cachedWorld [] [localOne; localTwo]) [localOne; localTwo] ∧
  StorageService.getTaskById (Some "1")
    (StorageService.deleteTask (Some "1")
       (cachedWorld [] [localOne; localTwo])).2
  = (Ok None,
     (StorageService.deleteTask (Some "1")
        (cachedWorld [] [localOne; localTwo])).2) ∧
  afterDelete (Some "1") [localOne; localTwo] = [localTwo].
Proof.
  assert (HL : holdsTasks (cachedWorld [] [localOne; localTwo]) [localOne; localTwo])
    by (left; vm_compute; reflexivity).
  split; [exact HL|]. split; [|vm_compute; reflexivity].
  exact (proj1 (proj2 (proj2 (repository_deleteTask_removes_exactly_the_id
                                 (Some "1") (cachedWorld [] [localOne; localTwo])
                                 [localOne; localTwo] HL)))).
Defined.

Lemma find_after_insert (i : option string) (new : Task) (L : list Task) :
  ∀ (n : nat) (old : Task),
  list_find (λ x, sameId (id x) i = true) L = Some (n, old) →
  sameId (id new) i = true →
  List.find (λ x, sameId (id x) i) (<[n := new]> L) = Some new.
Proof.
  induction L as [|x L IH]; intros n old Hfind Hnew.
  - discriminate Hfind.
  - apply list_find_Some in Hfind as (Hn & Hold & Hfirst).
    destruct n as [|n]; cbn.
    + by rewrite Hnew.
    + destruct (sameId (id x) i) eqn:Hx.
      * exfalso. apply (Hfirst 0%nat x); [done|lia|done].
      * apply (IH n old); [|done]. apply list_find_Some.
        split; [done|]. split; [done|].
        intros j y Hj Hlt. apply (Hfirst (S j) y); [done|lia].
Qed.

(** X5. The repository's [updateTask] merges the updates into the first
    task stored under the id, where it stands: the list keeps its length and
    every other position, it is not sorted again, and the merged record is
    returned.  Every property that the updates carry wins, a [completedAt]
    that is null included, and every property that they lack is kept.  When
    the updates carry no id, or the same one, a following [getTaskById]
    returns the merged record. *)
Theorem repository_updateTask_merges_in_place
    (i : option string) (u : Task) (w : World) (L : list Task)
    (n : nat) (old : Task) :
  holdsTasks w L →
  list_find (λ x, sameId (id x) i = true) L = Some (n, old) →
  let w1 := (StorageService.updateTask i u w).2 in
  (StorageService.updateTask i u w).1 = Ok (Some (spread old u)) ∧
  holdsTasks w1 (<[n := spread old u]> L) ∧
  length (<[n := spread old u]> L) = length L ∧
  (∀ m, m ≠ n → <[n := spread old u]> L !! m = L !! m) ∧
  (∀ c, completedAt u = Some c → completedAt (spread old u) = Some c) ∧
  (completedAt u = None → completedAt (spread old u) = completedAt old) ∧
  (id u = None ∨ id u = i →
   StorageService.getTaskById i w1 = (Ok (Some (spread old u)), w1)).
Proof.
  intros HL Hfind. cbv zeta. rewrite (updateTask_world i u w L HL), Hfind.
  cbn [fst snd]. split; [done|]. split; [apply holdsTasks_saved|].
  split; [apply length_insert|]. split; [|split; [|split]].
  - intros m Hm. by apply list_lookup_insert_ne.
  - intros c Hc. cbn. by rewrite Hc.
  - intros Hc. cbn. by rewrite Hc.
  - intros Hid.
    rewrite (getTaskById_world _ _ _ (holdsTasks_saved _ w)).
    rewrite (find_after_insert i (spread old u) L n old Hfind); [done|].
    apply list_find_Some in Hfind as (_ & Hold & _).
    unfold sameId in *. apply bool_decide_eq_true in Hold.
    apply bool_decide_eq_true. cbn.
    destruct Hid as [-> | ->]; [exact Hold|]. by destruct i.
Qed.

(** The witness is the call of the details screen that reopens a completed
    task: [completed] becomes false and [completedAt] becomes null. *)
Lemma repository_updateTask_merges_in_place_witness :
  let w := cachedWorld [] [localOne; doneTask] in
  let u := toggled doneTask (clock w) in
  holdsTasks w [localOne; doneTask] ∧
  list_find (λ x, sameId (id x) (id doneTask) = true) [localOne; doneTask]
    = Some (1%nat, doneTask) ∧
  StorageService.getTaskById (id doneTask)
    (StorageService.updateTask (id doneTask) u w).2
  = (Ok (Some (spread doneTask u)),
     (StorageService.updateTask (id doneTask) u w).2) ∧
  completed (spread doneTask u) = Some false ∧
  completedAt (spread doneTask u) = Some Null ∧
  title (spread doneTask u) = title doneTask.
Proof.
  cbv zeta. set (w := cachedWorld [] [localOne; doneTask]).
  assert (HL : holdsTasks w [localOne; doneTask])
    by (left; vm_compute; reflexivity).
  assert (Hfind : list_find (λ x, sameId (id x) (id doneTask) = true)
                    [localOne; doneTask] = Some (1%nat, doneTask))
    by (vm_compute; reflexivity).
  split; [exact HL|]. split; [exact Hfind|].
  destruct (repository_updateTask_merges_in_place (id doneTask)
              (toggled doneTask (clock w)) w [localOne; doneTask]
              1%nat doneTask HL Hfind) as (_ & _ & _ & _ & Hnull & _ & Hget).
  split; [apply Hget; right; reflexivity|].
  split; [reflexivity|]. split; [by apply Hnull|reflexivity].
Defined.

(** ** Clearing *)

Lemma prefix_cache_key (k : string) :
  String.prefix STORAGE_KEYS.CACHE_PREFIX (STORAGE_KEYS.CACHE_PREFIX +:+ k) = true.
Proof. cbn. repeat (destruct (ascii_dec _ _); [|done]). by destruct k. Qed.

(** X6. [clearCache] removes exactly the keys that start with CACHE_: every
    other key keeps its value, and after it a validity-checked read of any
    logical key, with any window, is a miss that changes nothing. *)
Theorem clearCache_empties_the_cache_only (w : World) :
  StorageService.clearCache w = (Ok true, (StorageService.clearCache w).2) ∧
  (∀ key, storage (StorageService.clearCache w).2 !! key
          = if String.prefix STORAGE_KEYS.CACHE_PREFIX key then None
            else storage w !! key) ∧
  (∀ k win, StorageService.getCached k win (StorageService.clearCache w).2
            = (Ok JNull, (StorageService.clearCache w).2)).
Proof.
  split; [reflexivity|]. split; [apply clearCache_lookup|].
  intros k win. unfold StorageService.getCached. run.
  by rewrite clearCache_lookup, prefix_cache_key.
Qed.

Lemma elem_of_keys (m : gmap string stored) (key : string) :
  key ∈ (map_to_list m).*1 ↔ is_Some (m !! key).
Proof.
  rewrite list_elem_of_fmap. split.
  - intros ([k x] & -> & H). apply elem_of_map_to_list in H. by eexists.
  - intros [x H]. exists (key, x). split; [done|]. by apply elem_of_map_to_list.
Qed.

(** X7. [clearAllData] removes the USER key, the OFFLINE_CHANGES key and
    every key that starts with CACHE_, and nothing else: the permanent
    tasks, the theme and the settings keep their values.  After it the
    offline queue reads as empty and the repository reads as before. *)
Theorem clearAllData_keeps_tasks_theme_settings (w : World) :
  let w1 := (StorageService.clearAllData w).2 in
  StorageService.clearAllData w = (Ok true, w1) ∧
  (∀ key, storage w1 !! key
          = if clearedByClearAllData key then None else storage w !! key) ∧
  storage w1 !! STORAGE_KEYS.TASKS = storage w !! STORAGE_KEYS.TASKS ∧
  storage w1 !! STORAGE_KEYS.THEME = storage w !! STORAGE_KEYS.THEME ∧
  storage w1 !! STORAGE_KEYS.SETTINGS = storage w !! STORAGE_KEYS.SETTINGS ∧
  holdsChanges w1 [] ∧
  (StorageService.getTasks w1).1 = (StorageService.getTasks w).1.
Proof.
  cbv zeta. split; [reflexivity|].
  assert (Hlookup : ∀ key, storage (StorageService.clearAllData w).2 !! key
            = if clearedByClearAllData key then None else storage w !! key).
  { intros key. unfold StorageService.clearAllData. run.
    unfold AsyncStorage.getAllKeys, AsyncStorage.multiRemove. cbn [fst snd].
    rewrite storage_setStorage.
    set (cacheKeys := List.filter _ _).
    destruct (decide (key ∈ ([STORAGE_KEYS.USER; STORAGE_KEYS.OFFLINE_CHANGES]
                              ++ cacheKeys)%list)) as [Hin|Hout].
    - rewrite lookup_foldr_delete by done.
      replace (clearedByClearAllData key) with true; [done|].
      symmetry. unfold clearedByClearAllData.
      apply elem_of_app in Hin as [Hin|Hin].
      + apply elem_of_cons in Hin as [->|Hin]; [done|].
        apply list_elem_of_singleton in Hin as ->. done.
      + subst cacheKeys. apply list_elem_of_In, filter_In in Hin as [_ ->].
        by rewrite orb_true_r.
    - rewrite lookup_foldr_delete_not_elem_of by done.
      destruct (clearedByClearAllData key) eqn:Hc; [|done].
      destruct (storage w !! key) as [x|] eqn:Hkey; [|done].
      exfalso. apply Hout. unfold clearedByClearAllData in Hc.
      apply orb_true_iff in Hc as [Hc|Hc].
      + apply elem_of_app. left. apply orb_true_iff in Hc as [Hc|Hc];
          apply bool_decide_eq_true in Hc as ->.
        * by apply elem_of_cons; left.
        * apply elem_of_cons; right. by apply list_elem_of_singleton.
      + apply elem_of_app. right. subst cacheKeys.
        apply list_elem_of_In, filter_In. split; [|done].
        apply list_elem_of_In, elem_of_keys. by eexists. }
  assert (HT : storage (StorageService.clearAllData w).2 !! STORAGE_KEYS.TASKS
               = storage w !! STORAGE_KEYS.TASKS) by (by rewrite Hlookup).
  split; [exact Hlookup|]. split; [exact HT|].
  split; [by rewrite Hlookup|]. split; [by rewrite Hlookup|].
  split; [right; split; [by rewrite Hlookup|done]|].
  unfold StorageService.getTasks, StorageService.get. run. rewrite HT.
  by destruct (storage w !! STORAGE_KEYS.TASKS) as [[v|[|c s]]|].
Qed.

(** ** Migration of legacy data *)

Ltac keys_differ := let E := fresh in intros E; vm_compute in E; discriminate E.

Lemma removeIfCorrupted_world (k : string) (w : World) :
  StorageService.removeIfCorrupted k w
  = (Ok tt, if corrupted (storage w !! k)
            then setStorage (delete k (storage w)) w else w).
Proof.
  unfold StorageService.removeIfCorrupted. run.
  destruct (storage w !! k) as [[v|[|c s]]|]; reflexivity.
Qed.

Lemma removeIfCorrupted_lookup (k key : string) (w : World) :
  storage (StorageService.removeIfCorrupted k w).2 !! key
  = if bool_decide (key = k) && corrupted (storage w !! key) then None
    else storage w !! key.
Proof.
  rewrite removeIfCorrupted_world. cbn [snd].
  destruct (bool_decide_reflect (key = k)) as [->|Hne]; cbn [andb].
  - destruct (corrupted (storage w !! k)); [|done].
    by rewrite storage_setStorage, lookup_delete_eq.
  - destruct (corrupted (storage w !! k)); [|done].
    by rewrite storage_setStorage, lookup_delete_ne.
Qed.

Lemma migrateLegacyData_lookup (w : World) (key : string) :
  storage (StorageService.migrateLegacyData w).2 !! key
  = if fixedByMigration key && corrupted (storage w !! key) then None
    else storage w !! key.
Proof.
  unfold StorageService.migrateLegacyData.
  rewrite (bind_ok _ _ w w (storage w !! STORAGE_KEYS.THEME)) by reflexivity.
  pose proof (removeIfCorrupted_world STORAGE_KEYS.USER w) as H1.
  rewrite (bind_ok _ _ _ _ _ H1).
  set (w1 := if corrupted _ then _ else w) in *.
  pose proof (removeIfCorrupted_world STORAGE_KEYS.TASKS w1) as H2.
  rewrite (bind_ok _ _ _ _ _ H2).
  set (w2 := if corrupted _ then _ else w1) in *.
  pose proof (removeIfCorrupted_world STORAGE_KEYS.SETTINGS w2) as H3.
  rewrite (bind_ok _ _ _ _ _ H3).
  set (w3 := if corrupted _ then _ else w2) in *.
  cbn [ret snd].
  assert (E3 : storage w3 !! key
    = if bool_decide (key = STORAGE_KEYS.SETTINGS) && corrupted (storage w2 !! key)
      then None else storage w2 !! key).
  { pose proof (removeIfCorrupted_lookup STORAGE_KEYS.SETTINGS key w2) as E.
    by rewrite H3 in E. }
  assert (E2 : storage w2 !! key
    = if bool_decide (key = STORAGE_KEYS.TASKS) && corrupted (storage w1 !! key)
      then None else storage w1 !! key).
  { pose proof (removeIfCorrupted_lookup STORAGE_KEYS.TASKS key w1) as E.
    by rewrite H2 in E. }
  assert (E1 : storage w1 !! key
    = if bool_decide (key = STORAGE_KEYS.USER) && corrupted (storage w !! key)
      then None else storage w !! key).
  { pose proof (removeIfCorrupted_lookup STORAGE_KEYS.USER key w) as E.
    by rewrite H1 in E. }
  rewrite E3, E2, E1. unfold fixedByMigration. clear.
  destruct (decide (key = STORAGE_KEYS.USER)) as [->|N1].
  { rewrite (bool_decide_eq_true_2 (STORAGE_KEYS.USER = STORAGE_KEYS.USER)) by done.
    rewrite !bool_decide_eq_false_2 by keys_differ. cbn [andb orb].
    by destruct (corrupted (storage w !! STORAGE_KEYS.USER)). }
  rewrite (bool_decide_eq_false_2 (key = STORAGE_KEYS.USER)) by done.
  destruct (decide (key = STORAGE_KEYS.TASKS)) as [->|N2].
  { rewrite (bool_decide_eq_true_2 (STORAGE_KEYS.TASKS = STORAGE_KEYS.TASKS)) by done.
    rewrite !bool_decide_eq_false_2 by keys_differ. cbn [andb orb].
    by destruct (corrupted (storage w !! STORAGE_KEYS.TASKS)). }
  rewrite (bool_decide_eq_false_2 (key = STORAGE_KEYS.TASKS)) by done.
  cbn [andb orb].
  destruct (bool_decide (key = STORAGE_KEYS.SETTINGS)); cbn [andb]; [|done].
  by destruct (corrupted (storage w !! key)) eqn:Hc; rewrite ?Hc.
Qed.

Lemma migrateLegacyData_ok (w : World) :
  StorageService.migrateLegacyData w
  = (Ok true, (StorageService.migrateLegacyData w).2).
Proof.
  unfold StorageService.migrateLegacyData.
  rewrite (bind_ok _ _ w w (storage w !! STORAGE_KEYS.THEME)) by reflexivity.
  rewrite (bind_ok _ _ _ _ _ (removeIfCorrupted_world STORAGE_KEYS.USER w)).
  rewrite (bind_ok _ _ _ _ _ (removeIfCorrupted_world STORAGE_KEYS.TASKS _)).
  rewrite (bind_ok _ _ _ _ _ (removeIfCorrupted_world STORAGE_KEYS.SETTINGS _)).
  reflexivity.
Qed.

(** X8. [migrateLegacyData] removes, under the keys USER, TASKS and
    APP_SETTINGS, a text that is there and does not parse, and nothing else:
    a document that parses is never dropped, the theme and every other key
    keep their values, and running it a second time changes nothing. *)
Theorem migrateLegacyData_drops_only_corrupted_texts (w : World) :
  let w1 := (StorageService.migrateLegacyData w).2 in
  StorageService.migrateLegacyData w = (Ok true, w1) ∧
  (∀ key, storage w1 !! key
          = if fixedByMigration key && corrupted (storage w !! key) then None
            else storage w !! key) ∧
  (∀ key v, storage w !! key = Some (Doc v) → storage w1 !! key = Some (Doc v)) ∧
  storage w1 !! STORAGE_KEYS.THEME = storage w !! STORAGE_KEYS.THEME ∧
  (∀ key, fixedByMigration key = true → corrupted (storage w1 !! key) = false) ∧
  storage (StorageService.migrateLegacyData w1).2 = storage w1.
Proof.
  cbv zeta. split; [apply migrateLegacyData_ok|].
  split; [apply migrateLegacyData_lookup|].
  assert (Hfixed : ∀ key, fixedByMigration key = true →
            corrupted (storage (StorageService.migrateLegacyData w).2 !! key) = false).
  { intros key Hk. rewrite migrateLegacyData_lookup, Hk. cbn [andb].
    by destruct (corrupted (storage w !! key)) eqn:Hc. }
  split; [|split; [|split]].
  - intros key v Hdoc. rewrite migrateLegacyData_lookup, Hdoc. cbn.
    by rewrite andb_false_r.
  - by rewrite migrateLegacyData_lookup.
  - exact Hfixed.
  - apply map_eq. intros key. rewrite migrateLegacyData_lookup.
    destruct (fixedByMigration key) eqn:Hk; [|done].
    by rewrite (Hfixed key Hk).
Qed.

(** X9. Migration repairs a repository that does not parse.  While the text
    under TASKS is not JSON, [getTasks] of the orchestrator throws (the text
    itself is handed to [map]); after [migrateLegacyData] the key is gone,
    the repository reads as empty and [getTasks] returns success. *)
Theorem migration_repairs_corrupted_repository
    (forceRefresh : bool) (w : World) :
  cacheShape w →
  corrupted (storage w !! STORAGE_KEYS.TASKS) = true →
  (ApiService.getTasks forceRefresh w).1 = Throw "TypeError" ∧
  let w1 := (StorageService.migrateLegacyData w).2 in
  holdsTasks w1 [] ∧
  ∃ reply w2, ApiService.getTasks forceRefresh w1 = (Ok reply, w2) ∧
              Reply.success reply = true.
Proof.
  intros Hshape Hbad. split.
  - destruct (fetch_outcome forceRefresh w Hshape)
      as (a & w1 & R & Hfetch & HR & Hkeys & _).
    unfold ApiService.getTasks. rewrite (bind_ok _ _ _ _ _ Hfetch).
    assert (HT : storage w1 !! STORAGE_KEYS.TASKS = storage w !! STORAGE_KEYS.TASKS).
    { apply Hkeys. intros E. symmetry in E. by apply tasksCacheKey_not_TASKS. }
    unfold StorageService.getTasks, StorageService.get. run. rewrite HT.
    destruct (storage w !! STORAGE_KEYS.TASKS) as [[v|[|c s]]|]; try discriminate Hbad.
    reflexivity.
  - cbv zeta.
    assert (HL : holdsTasks (StorageService.migrateLegacyData w).2 []).
    { right. split; [|done]. by rewrite migrateLegacyData_lookup, Hbad. }
    assert (Hshape1 : cacheShape (StorageService.migrateLegacyData w).2).
    { intros d ts e H. rewrite migrateLegacyData_lookup in H.
      replace (fixedByMigration tasksCacheKey) with false in H by reflexivity.
      by apply (Hshape d ts e). }
    split; [exact HL|].
    destruct (fetch_outcome forceRefresh _ Hshape1)
      as (a & w2 & R & Hfetch & HR & Hkeys & _).
    assert (HL2 : holdsTasks w2 []).
    { eapply holdsTasks_same_TASKS; [|exact HL].
      apply Hkeys. intros E. symmetry in E. by apply tasksCacheKey_not_TASKS. }
    eexists _, w2. split; [by eapply getTasks_run|]. reflexivity.
Qed.

Lemma migration_repairs_corrupted_repository_witness :
  let w := setStorage (<[STORAGE_KEYS.TASKS := Garbled "[{oops"]> ∅) sampleWorld in
  cacheShape w ∧
  corrupted (storage w !! STORAGE_KEYS.TASKS) = true ∧
  (ApiService.getTasks false w).1 = Throw "TypeError" ∧
  holdsTasks (StorageService.migrateLegacyData w).2 [].
Proof.
  cbv zeta.
  set (w := setStorage (<[STORAGE_KEYS.TASKS := Garbled "[{oops"]> ∅) sampleWorld).
  assert (Hshape : cacheShape w)
    by (intros d ts e H; vm_compute in H; discriminate H).
  assert (Hbad : corrupted (storage w !! STORAGE_KEYS.TASKS) = true)
    by (vm_compute; reflexivity).
  split; [exact Hshape|]. split; [exact Hbad|].
  destruct (migration_repairs_corrupted_repository false w Hshape Hbad)
    as (Hthrows & Hempty & _).
  by split.
Defined.

Lemma migrateLegacyData_drops_only_corrupted_texts_witness :
  let w := setStorage (<[STORAGE_KEYS.USER := Garbled "{bad"]>
                         (<[STORAGE_KEYS.TASKS := Doc (JTasks [localOne])]> ∅))
                      sampleWorld in
  storage w !! STORAGE_KEYS.TASKS = Some (Doc (JTasks [localOne])) ∧
  storage (StorageService.migrateLegacyData w).2 !! STORAGE_KEYS.TASKS
    = Some (Doc (JTasks [localOne])) ∧
  fixedByMigration STORAGE_KEYS.USER = true ∧
  corrupted (storage (StorageService.migrateLegacyData w).2 !! STORAGE_KEYS.USER)
    = false.
Proof.
  cbv zeta.
  set (w := setStorage _ sampleWorld).
  assert (HT : storage w !! STORAGE_KEYS.TASKS = Some (Doc (JTasks [localOne])))
    by (vm_compute; reflexivity).
  destruct (migrateLegacyData_drops_only_corrupted_texts w)
    as (_ & _ & Hdocs & _ & Hfixed & _).
  split; [exact HT|]. split; [exact (Hdocs _ _ HT)|].
  split; [reflexivity|]. apply Hfixed. reflexivity.
Defined.

(** ** Batch operations *)

(** X10. [batchGet] reads each key as [get] does: it returns one pair per
    requested key, in the order of the request, whose value is what [get]
    returns for that key (null for a missing key, the text itself for a text
    that does not parse), and it changes nothing. *)
Theorem batchGet_agrees_with_get (keys : list string) (w : World) :
  ∃ items,
    StorageService.batchGet keys w = (Ok items, w) ∧
    items.*1 = keys ∧
    Forall (λ kv, StorageService.get kv.1 w = (Ok kv.2, w)) items.
Proof.
  unfold StorageService.batchGet. run. unfold AsyncStorage.multiGet. cbn [fst snd].
  eexists. split; [reflexivity|]. split.
  - rewrite <- !list_fmap_compose. rewrite <- (list_fmap_id keys) at 2.
    apply list_fmap_ext. intros _ key _. cbn.
    by destruct (storage w !! key) as [[v|[|c s]]|].
  - apply Forall_forall. intros kv Hkv.
    apply list_elem_of_fmap in Hkv as (x & -> & Hx).
    apply list_elem_of_fmap in Hx as (key & -> & _). cbn.
    unfold StorageService.get. run.
    by destruct (storage w !! key) as [[v|[|c s]]|] eqn:E; cbn; rewrite E.
Qed.

Lemma multiSet_lookup (pairs : list (string * stored)) :
  ∀ (m : gmap string stored),
  NoDup pairs.*1 →
  (∀ key x, (key, x) ∈ pairs →
     fold_left (λ m kv, <[kv.1 := kv.2]> m) pairs m !! key = Some x) ∧
  (∀ key, key ∉ pairs.*1 →
     fold_left (λ m kv, <[kv.1 := kv.2]> m) pairs m !! key = m !! key).
Proof.
  induction pairs as [|[k x] pairs IH]; intros m Hnd; cbn [fold_left].
  - split; [|done]. intros key y H. by apply elem_of_nil in H.
  - rewrite fmap_cons in Hnd. apply NoDup_cons in Hnd as [Hk Hnd].
    destruct (IH (<[k := x]> m) Hnd) as [Hin Hout]. split.
    + intros key y H. apply elem_of_cons in H as [[= -> ->]|H].
      * cbn. rewrite Hout by done. apply lookup_insert_eq.
      * by apply Hin.
    + intros key Hkey. rewrite fmap_cons in Hkey.
      apply not_elem_of_cons in Hkey as [Hne Hkey].
      rewrite Hout by done. cbn. by apply lookup_insert_ne.
Qed.

(** X11. [batchSave] followed by a read.  When the keys of the batch are
    distinct, every value of the batch that is not a string is what [get]
    (and so [batchGet]) returns for its key afterwards, and a key outside
    the batch keeps its value. *)
Theorem batchSave_then_get (items : list (string * json)) (w : World) :
  NoDup items.*1 →
  let w1 := (StorageService.batchSave items w).2 in
  StorageService.batchSave items w = (Ok true, w1) ∧
  (∀ key v, (key, v) ∈ items → isText v = false →
            StorageService.get key w1 = (Ok v, w1)) ∧
  (∀ key, key ∉ items.*1 → storage w1 !! key = storage w !! key).
Proof.
  intros Hnd. cbv zeta. split; [reflexivity|].
  unfold StorageService.batchSave. run. unfold AsyncStorage.multiSet.
  cbn [fst snd]. rewrite storage_setStorage.
  set (pairs := (λ kv : string * json, (kv.1, StorageService.valueToStore kv.2)) <$> items).
  assert (Hkeys : pairs.*1 = items.*1).
  { subst pairs. rewrite <- list_fmap_compose. by apply list_fmap_ext. }
  destruct (multiSet_lookup pairs (storage w)) as [Hin Hout];
    [by rewrite Hkeys|].
  split.
  - intros key v Hitem Htext.
    unfold StorageService.get. run. rewrite storage_setStorage.
    rewrite (Hin key (StorageService.valueToStore v)).
    + by destruct v.
    + subst pairs. apply list_elem_of_fmap. by exists (key, v).
  - intros key Hkey. apply Hout. by rewrite Hkeys.
Qed.

Lemma batchSave_then_get_witness :
  NoDup [("a", JNum 1); ("b", JTasks [localOne])].*1 ∧
  StorageService.get "b"
    (StorageService.batchSave [("a", JNum 1); ("b", JTasks [localOne])]
       sampleWorld).2
  = (Ok (JTasks [localOne]),
     (StorageService.batchSave [("a", JNum 1); ("b", JTasks [localOne])]
        sampleWorld).2).
Proof.
  assert (Hnd : NoDup [("a", JNum 1); ("b", JTasks [localOne])].*1).
  { cbn. apply NoDup_cons. split; [|apply NoDup_singleton].
    intros H. apply list_elem_of_singleton in H. discriminate H. }
  split; [exact Hnd|].
  apply (proj1 (proj2 (batchSave_then_get _ sampleWorld Hnd))); [|reflexivity].
  apply elem_of_cons. right. by apply list_elem_of_singleton.
Defined.

(** * Further properties of the orchestrator *)

(** ** [addTask] *)

Lemma addTask_run (taskData : Task) (w : World) (L : list Task) :
  holdsTasks w L →
  ApiService.addTask taskData w
  = (Ok (Reply.mk true (Some (newTaskOf taskData w)) (Some local_permanent)
                  (Some true) None),
     withoutTasksCache
       (setStorage (savedStorage (afterSave (newTaskOf taskData w) L) (nextDraw w))
                   (nextDraw w))).
Proof.
  intros H. unfold ApiService.addTask.
  rewrite (bind_ok _ _ _ _ _ (generateUniqueId_world w)).
  rewrite (bind_ok _ _ (nextDraw w) (nextDraw w) (clock w)) by reflexivity.
  erewrite bind_ok; cycle 1.
  { apply (saveTask_world _ (nextDraw w) L).
    eapply holdsTasks_same_storage; [|exact H]. reflexivity. }
  reflexivity.
Qed.

Lemma markLocal_of_local (t : Task) :
  source t = Some local_permanent → markLocal t = t.
Proof. destruct t. cbn. intros ->. reflexivity. Qed.

(** X12. [addTask] only writes locally.  It sends no request, online or
    not, and leaves the offline queue alone; the task it stores and returns
    carries a freshly generated id, the current time as creation date,
    source 'local_permanent', offline true and synced false, whatever the
    caller passed for these, and every other property as the caller passed
    it; afterwards the repository holds the list that [saveTask] makes of
    the stored one and the task, and the cache entry of the tasks collection
    is gone. *)
Theorem addTask_saves_locally_without_network
    (taskData : Task) (w : World) (L : list Task) :
  holdsTasks w L →
  let t := newTaskOf taskData w in
  ∃ w1 L',
    ApiService.addTask taskData w
    = (Ok (Reply.mk true (Some t) (Some local_permanent) (Some true) None), w1) ∧
    requests w1 = requests w ∧
    storage w1 !! STORAGE_KEYS.OFFLINE_CHANGES
      = storage w !! STORAGE_KEYS.OFFLINE_CHANGES ∧
    holdsTasks w1 L' ∧ isSaveOf L' t L ∧ t ∈ L' ∧
    storage w1 !! tasksCacheKey = None ∧
    id t = Some (localId w) ∧ createdAt t = Some (clock w) ∧
    source t = Some local_permanent ∧ offline t = Some true ∧
    synced t = Some false ∧
    title t = title taskData ∧ description t = description taskData ∧
    priority t = priority taskData ∧ image t = image taskData ∧
    dueDate t = dueDate taskData ∧
    completed t = completed taskData ∧ completedAt t = completedAt taskData.
Proof.
  intros H. cbv zeta. eexists _, (afterSave (newTaskOf taskData w) L).
  split; [by apply addTask_run|].
  split; [reflexivity|]. split.
  { cbn. rewrite lookup_delete_ne by apply tasksCacheKey_not_OFFLINE_CHANGES.
    unfold savedStorage.
    rewrite lookup_insert_ne by apply tasksCacheKey_not_OFFLINE_CHANGES.
    apply lookup_insert_ne, TASKS_not_OFFLINE_CHANGES. }
  split; [apply holdsTasks_withoutTasksCache, holdsTasks_saved|].
  split; [apply afterSave_isSaveOf|].
  split; [apply afterSave_member|].
  split; [cbn; apply lookup_delete_eq|].
  destruct taskData. by repeat split.
Qed.

Lemma addTask_saves_locally_without_network_witness :
  let w := cachedWorld [remoteOne] [localTwo] in
  holdsTasks w [localTwo] ∧
  ∃ w1 L',
    ApiService.addTask (titled "Buy milk") w
    = (Ok (Reply.mk true (Some (newTaskOf (titled "Buy milk") w))
                    (Some local_permanent) (Some true) None), w1) ∧
    requests w1 = requests w ∧
    holdsTasks w1 L' ∧
    L' = [newTaskOf (titled "Buy milk") w; localTwo] ∧
    id (newTaskOf (titled "Buy milk") w) = Some "local-1700000000000-7".
Proof.
  cbv zeta. set (w := cachedWorld [remoteOne] [localTwo]).
  assert (H : holdsTasks w [localTwo]) by (left; vm_compute; reflexivity).
  split; [exact H|].
  destruct (addTask_saves_locally_without_network (titled "Buy milk") w [localTwo] H)
    as (w1 & L' & Hrun & Hreq & _ & HL' & [_ Hexact] & _).
  exists w1, L'. split; [exact Hrun|]. split; [exact Hreq|]. split; [exact HL'|].
  split; [|vm_compute; reflexivity].
  rewrite Hexact; [vm_compute; reflexivity|by eexists|].
  repeat (constructor; [by eexists|]). constructor.
Defined.

(** X13. A task added with [addTask] is listed by the next [getTasks],
    forced or not, online or not, whatever the server answers: the data has
    a record with the id of the new task, and when the ids of the repository
    were distinct and the fetched array has no record under the new id, the
    data contains the new task exactly as [addTask] returned it. *)
Theorem addTask_then_getTasks_lists_the_task
    (taskData : Task) (w : World) (L : list Task) (forceRefresh : bool) :
  holdsTasks w L →
  let t := newTaskOf taskData w in
  let w1 := (ApiService.addTask taskData w).2 in
  ∃ a w2 R reply data,
    ApiService.fetchTasksFromApi forceRefresh w1 = (Ok a, w2) ∧
    ApiService.finalDataOf a = JTasks R ∧
    ApiService.getTasks forceRefresh w1 = (Ok reply, w2) ∧
    Reply.success reply = true ∧ Reply.data reply = Some data ∧
    (∃ t', t' ∈ data ∧ id t' = id t) ∧
    (NoDup (id <$> L) → id t ∉ id <$> R → t ∈ data).
Proof.
  intros H. cbv zeta. rewrite (addTask_run taskData w L H). cbn [snd].
  set (t := newTaskOf taskData w).
  set (w1 := withoutTasksCache _).
  assert (HL1 : holdsTasks w1 (afterSave t L))
    by apply holdsTasks_withoutTasksCache, holdsTasks_saved.
  assert (Hshape : cacheShape w1) by apply cacheShape_delete.
  destruct (durableIn_holds forceRefresh w1 (afterSave t L) t HL1 Hshape
              (afterSave_member t L))
    as (a & w2 & R & reply & data & Hfetch & HR & Hrun & Hok & Hdata & Hid & Hexact & _).
  exists a, w2, R, reply, data. repeat (split; [done|]).
  intros Hnd Hfresh.
  rewrite <- (markLocal_of_local t) by (subst t; by destruct taskData).
  apply Hexact; [|done].
  apply find_by_id_NoDup; [by apply afterSave_ids|apply afterSave_member].
Qed.

Lemma addTask_then_getTasks_lists_the_task_witness :
  holdsTasks (setOnline false sampleWorld) [] ∧
  ∃ reply data,
    (ApiService.getTasks false
       (ApiService.addTask (titled "Buy milk") (setOnline false sampleWorld)).2).1
    = Ok reply ∧
    Reply.data reply = Some data ∧
    newTaskOf (titled "Buy milk") (setOnline false sampleWorld) ∈ data.
Proof.
  assert (H : holdsTasks (setOnline false sampleWorld) [])
    by (right; split; reflexivity).
  split; [exact H|].
  destruct (addTask_then_getTasks_lists_the_task (titled "Buy milk")
              (setOnline false sampleWorld) [] false H)
    as (a & w2 & R & reply & data & Hfetch & HR & Hrun & _ & Hdata & _ & Hexact).
  exists reply, data. split; [by rewrite Hrun|]. split; [exact Hdata|].
  apply Hexact; [constructor|].
  vm_compute in Hfetch. injection Hfetch as <- _.
  vm_compute in HR. injection HR as <-.
  intros Hin. by apply elem_of_nil in Hin.
Defined.

(** ** [deleteTask] and [updateTask] of the orchestrator: what they touch *)

(** X14. Deleting a permanent local task stays local.  When the id is in
    the Task Repository, [deleteTask] sends no request, online or not, and
    does not touch the offline queue: it removes the task from the
    repository, removes the cache entry of the tasks collection and answers
    with source 'local_permanent' and offline true.  The id is then unknown
    to the repository, so a second [deleteTask] of the same id, online,
    does send a DELETE request for it. *)
Theorem deleteTask_of_permanent_task_stays_local
    (i : option string) (w : World) (L : list Task) (Q : list OfflineChange)
    (t : Task) :
  holdsTasks w L → holdsChanges w Q →
  List.find (λ x, sameId (id x) i) L = Some t →
  ∃ w1,
    ApiService.deleteTask i w
    = (Ok (Reply.mk true None (Some local_permanent) (Some true) None), w1) ∧
    requests w1 = requests w ∧
    holdsChanges w1 Q ∧
    holdsTasks w1 (afterDelete i L) ∧
    StorageService.getTaskById i w1 = (Ok None, w1) ∧
    storage w1 !! tasksCacheKey = None ∧
    (isOnline w = true →
     requests (ApiService.deleteTask i w1).2
     = (requests w ++
          [mkRequest DELETE (API_CONFIG.TASKS +:+ "/" +:+ showString i) None])%list).
Proof.
  intros HL HQ Hfind. rewrite (deleteTask_run i w L Q HL HQ), Hfind.
  set (w1 := withoutTasksCache _).
  assert (HL1 : holdsTasks w1 (afterDelete i L))
    by apply holdsTasks_withoutTasksCache, holdsTasks_saved.
  assert (HQ1 : holdsChanges w1 Q)
    by (by apply holdsChanges_withoutTasksCache, holdsChanges_saved).
  exists w1. split; [reflexivity|]. split; [reflexivity|].
  split; [exact HQ1|]. split; [exact HL1|]. split; [|split].
  - by rewrite (getTaskById_world i w1 _ HL1), find_afterDelete.
  - cbn. apply lookup_delete_eq.
  - intros Hon. rewrite (deleteTask_run i w1 _ Q HL1 HQ1), find_afterDelete.
    cbv zeta. replace (isOnline w1) with true by (by rewrite <- Hon).
    destruct (server w1 (requests w1) _); cbn; [reflexivity|].
    by destruct (needsId (onlyId i)).
Qed.

Lemma deleteTask_of_permanent_task_stays_local_witness :
  let w := cachedWorld [] [localOne; localTwo] in
  holdsTasks w [localOne; localTwo] ∧ holdsChanges w [] ∧
  List.find (λ x, sameId (id x) (Some "1")) [localOne; localTwo] = Some localOne ∧
  ∃ w1,
    ApiService.deleteTask (Some "1") w
    = (Ok (Reply.mk true None (Some local_permanent) (Some true) None), w1) ∧
    requests w1 = requests w ∧
    holdsTasks w1 [localTwo].
Proof.
  cbv zeta.
  assert (HL : holdsTasks (cachedWorld [] [localOne; localTwo]) [localOne; localTwo])
    by (left; vm_compute; reflexivity).
  assert (HQ : holdsChanges (cachedWorld [] [localOne; localTwo]) [])
    by (right; split; vm_compute; reflexivity).
  assert (Hfind : List.find (λ x, sameId (id x) (Some "1")) [localOne; localTwo]
                  = Some localOne) by (vm_compute; reflexivity).
  split; [exact HL|]. split; [exact HQ|]. split; [exact Hfind|].
  destruct (deleteTask_of_permanent_task_stays_local (Some "1")
              (cachedWorld [] [localOne; localTwo]) [localOne; localTwo] []
              localOne HL HQ Hfind) as (w1 & Hrun & Hreq & _ & HL1 & _).
  exists w1. split; [exact Hrun|]. split; [exact Hreq|]. exact HL1.
Defined.

(** X15. What the two mutations touch.  On every path [deleteTask] leaves
    the cache entry of the tasks collection removed.  [updateTask] of the
    orchestrator never writes the TASKS key and never touches that cache
    entry, also when the id is a permanent local task: the change goes to
    the server or to the offline queue only. *)
Theorem deleteTask_invalidates_updateTask_does_not
    (i : option string) (w : World) (L : list Task) (Q : list OfflineChange) :
  holdsTasks w L → holdsChanges w Q →
  storage (ApiService.deleteTask i w).2 !! tasksCacheKey = None ∧
  ∀ u, storage (ApiService.updateTask i u w).2 !! tasksCacheKey
       = storage w !! tasksCacheKey ∧
       storage (ApiService.updateTask i u w).2 !! STORAGE_KEYS.TASKS
       = storage w !! STORAGE_KEYS.TASKS.
Proof.
  intros HL HQ. split.
  - rewrite (deleteTask_run i w L Q HL HQ).
    destruct (List.find _ L); [cbn; apply lookup_delete_eq|].
    cbv zeta. destruct (isOnline w);
      [destruct (server w (requests w) _)|]; cbn; apply lookup_delete_eq.
  - intros u. rewrite (updateTask_run i u w Q HQ). cbv zeta.
    assert (Henq : ∀ td w0, storage w0 = storage w →
      storage (enqueued Update td Q w0) !! tasksCacheKey = storage w !! tasksCacheKey ∧
      storage (enqueued Update td Q w0) !! STORAGE_KEYS.TASKS
        = storage w !! STORAGE_KEYS.TASKS).
    { intros td w0 Hst. unfold enqueued. cbn. rewrite Hst.
      split; apply lookup_insert_ne.
      - intros E. symmetry in E. by apply tasksCacheKey_not_OFFLINE_CHANGES.
      - intros E. symmetry in E. by apply TASKS_not_OFFLINE_CHANGES. }
    destruct (isOnline w); [destruct (server w (requests w) _)|];
      [done|by apply Henq|by apply Henq].
Qed.

Lemma deleteTask_invalidates_updateTask_does_not_witness :
  let w := cachedWorld [remoteOne] [localOne] in
  holdsTasks w [localOne] ∧ holdsChanges w [] ∧
  storage (ApiService.deleteTask (Some "1") w).2 !! tasksCacheKey = None ∧
  storage (ApiService.updateTask (Some "1") (titled "Buy bread") w).2
    !! STORAGE_KEYS.TASKS = Some (Doc (JTasks [localOne])).
Proof.
  cbv zeta.
  assert (HL : holdsTasks (cachedWorld [remoteOne] [localOne]) [localOne])
    by (left; vm_compute; reflexivity).
  assert (HQ : holdsChanges (cachedWorld [remoteOne] [localOne]) [])
    by (right; split; vm_compute; reflexivity).
  split; [exact HL|]. split; [exact HQ|].
  destruct (deleteTask_invalidates_updateTask_does_not (Some "1")
              (cachedWorld [remoteOne] [localOne]) [localOne] [] HL HQ)
    as [Hdel Hupd].
  split; [exact Hdel|].
  rewrite (proj2 (Hupd (titled "Buy bread"))). vm_compute. reflexivity.
Defined.

(** ** What a queued change carries *)

Lemma localId_not_empty (w : World) : String.eqb (localId w) EmptyString = false.
Proof. reflexivity. Qed.



(** ** The fetch step, branch by branch *)

Lemma mapItem_spec (item : RemoteItem) (w : World) :
  ∃ t w', ApiService.mapItem item w = (Ok t, w') ∧ sameButDraws w w' ∧
          source t = Some api ∧ createdAt t = Some (clock w) ∧ is_Some (id t).
Proof.
  unfold ApiService.mapItem.
  destruct (itemId item) as [n|]; [destruct (negb (n =? 0))|].
  - eexists _, _. split; [reflexivity|].
    split; [apply sameButDraws_refl|]. by repeat split.
  - eexists _, _. split; [reflexivity|].
    split; [apply sameButDraws_nextDraw|]. by repeat split.
  - eexists _, _. split; [reflexivity|].
    split; [apply sameButDraws_nextDraw|]. by repeat split.
Qed.

Lemma mapM_mapItem_spec (items : list RemoteItem) (w : World) :
  ∃ ts w', mapM ApiService.mapItem items w = (Ok ts, w') ∧ sameButDraws w w' ∧
           length ts = length items ∧
           Forall (λ t, source t = Some api ∧ createdAt t = Some (clock w) ∧
                        is_Some (id t)) ts.
Proof.
  revert w. induction items as [|item items IH]; intros w; cbn [mapM].
  - exists [], w. split; [reflexivity|]. split; [apply sameButDraws_refl|].
    by split.
  - destruct (mapItem_spec item w) as (t & w1 & Ht & H1 & Hsrc & Hdate & Hid).
    destruct (IH w1) as (ts & w2 & Hts & H2 & Hlen & Hall).
    exists (t :: ts), w2. split.
    { rewrite (bind_ok _ _ _ _ _ Ht), (bind_ok _ _ _ _ _ Hts). reflexivity. }
    split; [by eapply sameButDraws_trans|]. split; [cbn; by rewrite Hlen|].
    apply Forall_cons. split; [done|].
    destruct H1 as (_ & _ & Hclock & _). by rewrite <- Hclock.
Qed.

Lemma stale_fallback_world (failure : Reply.t json) (w : World) :
  ∃ a,
    (expiredCacheData <- StorageService.get ("CACHE_" +:+ "tasks_list") ;;
     if truthy (ApiService.staleData expiredCacheData)
     then ret (Reply.mk true (Some (ApiService.dataOf expiredCacheData))
                        (Some cache) (Some true) None)
     else ret failure) w = (Ok a, w).
Proof.
  destruct (get_world ("CACHE_" +:+ "tasks_list") w) as (v & Hget & _).
  rewrite (bind_ok _ _ _ _ _ Hget).
  destruct (truthy (ApiService.staleData v)); by eexists.
Qed.

Lemma stale_fallback_hit (failure : Reply.t json) (w : World) (d : json) (ts e : Z) :
  storage w !! tasksCacheKey = Some (Doc (JEnvelope d ts e)) →
  truthy d = true →
  (expiredCacheData <- StorageService.get ("CACHE_" +:+ "tasks_list") ;;
   if truthy (ApiService.staleData expiredCacheData)
   then ret (Reply.mk true (Some (ApiService.dataOf expiredCacheData))
                      (Some cache) (Some true) None)
   else ret failure) w
  = (Ok (Reply.mk true (Some d) (Some cache) (Some true) None), w).
Proof.
  intros Hentry Hd.
  rewrite (bind_ok _ _ w w (JEnvelope d ts e)).
  - unfold ApiService.staleData. cbn. by rewrite Hd.
  - unfold StorageService.get. run.
    change ("CACHE_" +:+ "tasks_list") with tasksCacheKey. by rewrite Hentry.
Qed.

Lemma stale_fallback_miss (failure : Reply.t json) (w : World) :
  storage w !! tasksCacheKey = None →
  (expiredCacheData <- StorageService.get ("CACHE_" +:+ "tasks_list") ;;
   if truthy (ApiService.staleData expiredCacheData)
   then ret (Reply.mk true (Some (ApiService.dataOf expiredCacheData))
                      (Some cache) (Some true) None)
   else ret failure) w
  = (Ok failure, w).
Proof.
  intros Hnone. rewrite (bind_ok _ _ w w JNull); [reflexivity|].
  by apply get_absent.
Qed.

(** The first step of the fetch, spelled out. *)
Lemma fetch_step1 (forceRefresh : bool) (w : World) :
  ∃ hit wc,
    (if negb forceRefresh
     then cachedData <- StorageService.getCached "tasks_list" CACHE_EXPIRATION.SHORT ;;
          ret (if truthy cachedData then Some cachedData else None)
     else ret None) w = (Ok hit, wc) ∧
    (wc = w ∨ (forceRefresh = false ∧ wc = withoutTasksCache w)) ∧
    (forceRefresh = true → hit = None ∧ wc = w) ∧
    (∀ c, hit = Some c →
          wc = w ∧ ∃ ts e, storage w !! tasksCacheKey = Some (Doc (JEnvelope c ts e)) ∧
                           clock w - ts < CACHE_EXPIRATION.SHORT).
Proof.
  destruct forceRefresh; cbn [negb].
  - exists None, w. split; [reflexivity|]. split; [by left|]. split; [done|].
    intros c [=].
  - destruct (getCached_outcome "tasks_list" CACHE_EXPIRATION.SHORT w)
      as (c & wc & Hget & Hwc & Hhit).
    rewrite (bind_ok _ _ _ _ _ Hget).
    exists (if truthy c then Some c else None), wc.
    split; [reflexivity|]. split; [destruct Hwc; [by left|by right]|].
    split; [intros [=]|].
    intros c' Hc'. destruct (truthy c) eqn:Htruthy; [|discriminate Hc'].
    injection Hc' as <-. by apply Hhit.
Qed.

(** The fetch step never throws; it keeps the connectivity flag and the
    clock, writes no key other than the cache entry of the tasks collection,
    and sends at most one request, the GET of the collection, and none when
    offline. *)
Lemma fetch_effects (forceRefresh : bool) (w : World) :
  ∃ a w1,
    ApiService.fetchTasksFromApi forceRefresh w = (Ok a, w1) ∧
    isOnline w1 = isOnline w ∧ clock w1 = clock w ∧
    (requests w1 = requests w ∨
     (isOnline w = true ∧ requests w1 = (requests w ++ [fetchRequest])%list)) ∧
    (∀ k, k ≠ tasksCacheKey → storage w1 !! k = storage w !! k).
Proof.
  unfold ApiService.fetchTasksFromApi.
  destruct (fetch_step1 forceRefresh w) as (hit & wc & Hrun & Hwc & _ & _).
  rewrite (bind_ok _ _ _ _ _ Hrun).
  assert (Hsame : isOnline wc = isOnline w ∧ clock wc = clock w ∧
            requests wc = requests w ∧ server wc = server w ∧
            ∀ k, k ≠ tasksCacheKey → storage wc !! k = storage w !! k).
  { destruct Hwc as [->|[_ ->]]; [done|]. repeat split.
    intros k Hk. cbn. by apply lookup_delete_ne. }
  destruct Hsame as (Hon & Hclock & Hreq & Hsrv & Hkeys).
  destruct hit as [c|].
  { eexists _, wc. split; [reflexivity|]. repeat split; try done. by left. }
  rewrite (bind_ok _ _ wc wc (isOnline wc)) by reflexivity.
  destruct (isOnline wc) eqn:Honline; cbn [negb].
  - assert (Hsent : ∀ w', sameButDraws (logRequest fetchRequest wc) w' ∨
                          w' = logRequest fetchRequest wc →
              isOnline w' = isOnline w ∧ clock w' = clock w ∧
              (requests w' = requests w ∨
               (isOnline w = true ∧
                requests w' = (requests w ++ [fetchRequest])%list))).
    { intros w' Hw'. assert (Hfacts : isOnline w' = isOnline wc ∧
                               clock w' = clock wc ∧
                               requests w' = (requests wc ++ [fetchRequest])%list).
      { destruct Hw' as [(_ & ? & ? & _ & _ & ?)| ->]; by repeat split. }
      destruct Hfacts as (-> & -> & ->).
      split; [congruence|]. split; [congruence|].
      right. split; [congruence|]. by rewrite Hreq. }
    destruct (server wc (requests wc) fetchRequest) as [[items|o]|] eqn:Hanswer.
    + destruct (mapM_mapItem_ok items (logRequest fetchRequest wc))
        as (tasks & wm & Hmap & Hdraws).
      erewrite try_catch_ok; cycle 1.
      { rewrite (bind_ok _ _ _ _ _ (apiCall_answer _ _ _ _ _ Hanswer)).
        rewrite (bind_ok _ _ _ (logRequest fetchRequest wc) items) by reflexivity.
        rewrite (bind_ok _ _ _ _ _ Hmap). reflexivity. }
      eexists _, _. split; [reflexivity|].
      destruct (Hsent wm (or_introl Hdraws)) as (? & ? & ?).
      repeat split; try done.
      intros k Hk. cbn. rewrite lookup_insert_ne by done.
      destruct Hdraws as (-> & _). by apply Hkeys.
    + erewrite try_catch_throw; cycle 1.
      { rewrite (bind_ok _ _ _ _ _ (apiCall_answer _ _ _ _ _ Hanswer)).
        reflexivity. }
      destruct (stale_fallback_world
                  (Reply.mk false None None None (Some "TypeError"))
                  (logRequest fetchRequest wc)) as (a & Ha).
      exists a, (logRequest fetchRequest wc). split; [exact Ha|].
      destruct (Hsent _ (or_intror eq_refl)) as (? & ? & ?). by repeat split.
    + erewrite try_catch_throw; cycle 1.
      { rewrite (bind_throw _ _ _ _ _ (apiCall_failure _ _ _ _ Hanswer)).
        reflexivity. }
      destruct (stale_fallback_world
                  (Reply.mk false None None None (Some "API Error"))
                  (logRequest fetchRequest wc)) as (a & Ha).
      exists a, (logRequest fetchRequest wc). split; [exact Ha|].
      destruct (Hsent _ (or_intror eq_refl)) as (? & ? & ?). by repeat split.
  - destruct (stale_fallback_world
                (Reply.mk false None None (Some true)
                          (Some "Offline and no cached data available."))
                wc) as (a & Ha).
    exists a, wc. split; [exact Ha|].
    split; [congruence|]. split; [done|]. split; [by left|done].
Qed.

(** ** [getTasks] as a whole *)

(** X17. [getTasks] over a well-shaped store never throws and always answers
    with success.  Its data is ordered newest first whenever all its records
    have a creation date.  It writes no storage key other than the cache
    entry of the tasks collection (the repository and the offline queue are
    only read), keeps the connectivity flag, and sends at most one request,
    the GET of the collection, and none when the device is offline. *)
Theorem getTasks_succeeds_sorted_and_read_only
    (forceRefresh : bool) (w : World) (L : list Task) :
  holdsTasks w L → cacheShape w →
  ∃ reply w1 data,
    ApiService.getTasks forceRefresh w = (Ok reply, w1) ∧
    Reply.success reply = true ∧ Reply.data reply = Some data ∧
    (Forall dated data → StronglySorted notOlder data) ∧
    (∀ k, k ≠ tasksCacheKey → storage w1 !! k = storage w !! k) ∧
    isOnline w1 = isOnline w ∧
    (requests w1 = requests w ∨
     (isOnline w = true ∧ requests w1 = (requests w ++ [fetchRequest])%list)).
Proof.
  intros HL Hshape.
  destruct (fetch_outcome forceRefresh w Hshape)
    as (a & w1 & R & Hfetch & HR & Hkeys & _).
  destruct (fetch_effects forceRefresh w) as (a' & w1' & Hfetch' & Hon & _ & Hreq & _).
  rewrite Hfetch in Hfetch'. injection Hfetch' as <- <-.
  assert (HL1 : holdsTasks w1 L).
  { eapply holdsTasks_same_TASKS; [|exact HL].
    apply Hkeys. intros E. symmetry in E. by apply tasksCacheKey_not_TASKS. }
  eexists _, w1, _. split; [by eapply getTasks_run|].
  split; [reflexivity|]. split; [reflexivity|]. split; [|done].
  intros Hdated. unfold mergeTasks. apply sortWith_dated.
  unfold mergeTasks in Hdated. by rewrite sortWith_Permutation in Hdated.
Qed.

Lemma getTasks_succeeds_sorted_and_read_only_witness :
  holdsTasks corruptWorld [localOne; localTwo] ∧ cacheShape corruptWorld ∧
  ∃ reply w1 data,
    ApiService.getTasks false corruptWorld = (Ok reply, w1) ∧
    Reply.data reply = Some data ∧
    StronglySorted notOlder data ∧
    storage w1 !! STORAGE_KEYS.TASKS = storage corruptWorld !! STORAGE_KEYS.TASKS.
Proof.
  assert (HL : holdsTasks corruptWorld [localOne; localTwo])
    by (left; vm_compute; reflexivity).
  assert (Hshape : cacheShape corruptWorld)
    by (intros d ts e H; vm_compute in H; discriminate H).
  split; [exact HL|]. split; [exact Hshape|].
  destruct (getTasks_succeeds_sorted_and_read_only false corruptWorld
              [localOne; localTwo] HL Hshape)
    as (reply & w1 & data & Hrun & _ & Hdata & Hsorted & Hkeys & _).
  exists reply, w1, data. split; [exact Hrun|]. split; [exact Hdata|]. split.
  - apply Hsorted.
    vm_compute in Hrun. injection Hrun as <- _. cbn in Hdata.
    injection Hdata as <-. repeat (constructor; [by eexists|]). constructor.
  - apply Hkeys. intros E. vm_compute in E. discriminate E.
Defined.

(** ** A forced refresh that succeeds *)

Lemma fetch_forced_online_success (w : World) (items : list RemoteItem) :
  isOnline w = true →
  server w (requests w) fetchRequest = Some (RItems items) →
  ∃ tasks wm,
    sameButDraws (logRequest fetchRequest w) wm ∧
    length tasks = length items ∧
    Forall (λ t, source t = Some api ∧ createdAt t = Some (clock w) ∧
                 is_Some (id t)) tasks ∧
    ApiService.fetchTasksFromApi true w
    = (Ok (Reply.mk true (Some (JTasks tasks)) (Some api) (Some false) None),
       (StorageService.setCached "tasks_list" (JTasks tasks)
          CACHE_EXPIRATION.SHORT wm).2).
Proof.
  intros Hon Hanswer.
  destruct (mapM_mapItem_spec items (logRequest fetchRequest w))
    as (tasks & wm & Hmap & Hdraws & Hlen & Hall).
  exists tasks, wm. split; [done|]. split; [done|]. split; [done|].
  unfold ApiService.fetchTasksFromApi. cbn [negb].
  rewrite (bind_ok _ _ w w None) by reflexivity.
  rewrite (bind_ok _ _ w w true) by (unfold ApiService.getOnline; by rewrite Hon).
  cbn [negb]. erewrite try_catch_ok; [reflexivity|].
  rewrite (bind_ok _ _ _ _ _ (apiCall_answer _ _ _ _ _ Hanswer)).
  rewrite (bind_ok _ _ _ (logRequest fetchRequest w) items) by reflexivity.
  rewrite (bind_ok _ _ _ _ _ Hmap). reflexivity.
Qed.

(** X18. A forced refresh that reaches the server writes through to the
    cache.  Online, when the server answers the GET with a list of items,
    [getTasks(true)] sends exactly that one request, whatever the cache held,
    and answers with source 'api' and, as data, the merge of one task per
    item (tagged 'api' and created now) with the permanent tasks.  For the
    next five minutes [getTasks(false)] returns the same data with source
    'cache' and sends nothing. *)
Theorem forced_refresh_then_cached_reads
    (w : World) (L : list Task) (items : list RemoteItem) :
  holdsTasks w L →
  isOnline w = true →
  server w (requests w) fetchRequest = Some (RItems items) →
  ∃ tasks data w1,
    length tasks = length items ∧
    Forall (λ t, source t = Some api ∧ createdAt t = Some (clock w)) tasks ∧
    ApiService.getTasks true w
    = (Ok (Reply.mk true (Some data) (Some api) (Some false) None), w1) ∧
    isMergeOf data tasks L ∧
    requests w1 = (requests w ++ [fetchRequest])%list ∧
    ∀ d, 0 ≤ d < CACHE_EXPIRATION.SHORT →
      ApiService.getTasks false (advance d w1)
      = (Ok (Reply.mk true (Some data) (Some cache) (Some false) None),
         advance d w1).
Proof.
  intros HL Hon Hanswer.
  destruct (fetch_forced_online_success w items Hon Hanswer)
    as (tasks & wm & Hdraws & Hlen & Hall & Hfetch).
  destruct Hdraws as (Hst & _ & Hclock & _ & _ & Hreq).
  set (w1 := (StorageService.setCached "tasks_list" (JTasks tasks)
                CACHE_EXPIRATION.SHORT wm).2) in *.
  assert (HT : storage w1 !! STORAGE_KEYS.TASKS = storage w !! STORAGE_KEYS.TASKS).
  { subst w1. rewrite setCached_world. cbn.
    rewrite lookup_insert_ne by apply tasksCacheKey_not_TASKS. by rewrite Hst. }
  assert (HL1 : holdsTasks w1 L) by (by eapply holdsTasks_same_TASKS).
  exists tasks, (mergeTasks tasks L), w1. split; [done|]. split.
  { eapply Forall_impl; [exact Hall|]. by intros t (? & ? & _). }
  split.
  { by rewrite (getTasks_run true w w1 _ tasks L Hfetch eq_refl HL1). }
  split; [apply mergeTasks_isMergeOf|].
  split; [subst w1; rewrite setCached_world; cbn; by rewrite Hreq|].
  intros d Hd.
  assert (Hentry : storage (advance d w1) !! tasksCacheKey
            = Some (Doc (JEnvelope (JTasks tasks) (clock wm) CACHE_EXPIRATION.SHORT))).
  { subst w1. rewrite setCached_world. cbn. apply lookup_insert_eq. }
  assert (Hvalid : clock (advance d w1) - clock wm < CACHE_EXPIRATION.SHORT).
  { subst w1. rewrite setCached_world. cbn. lia. }
  by rewrite (getTasks_run false (advance d w1) (advance d w1) _ tasks L
                (fetch_valid_cache _ _ _ _ Hentry Hvalid) eq_refl HL1).
Qed.

Lemma forced_refresh_then_cached_reads_witness :
  let w := setStorage (<[STORAGE_KEYS.TASKS := Doc (JTasks [localTwo])]> ∅)
                      servedWorld in
  holdsTasks w [localTwo] ∧ isOnline w = true ∧
  server w (requests w) fetchRequest = Some (RItems twoItems) ∧
  ∃ tasks data w1,
    length tasks = 2%nat ∧
    ApiService.getTasks true w
    = (Ok (Reply.mk true (Some data) (Some api) (Some false) None), w1) ∧
    data ≡ₚ uniqueTasks tasks [localTwo] ∧
    ApiService.getTasks false (advance 1000 w1)
    = (Ok (Reply.mk true (Some data) (Some cache) (Some false) None),
       advance 1000 w1).
Proof.
  cbv zeta.
  set (w := setStorage (<[STORAGE_KEYS.TASKS := Doc (JTasks [localTwo])]> ∅)
                       servedWorld).
  assert (HL : holdsTasks w [localTwo]) by (left; vm_compute; reflexivity).
  split; [exact HL|]. split; [reflexivity|]. split; [reflexivity|].
  destruct (forced_refresh_then_cached_reads w [localTwo] twoItems HL
              eq_refl eq_refl)
    as (tasks & data & w1 & Hlen & _ & Hrun & [Hperm _] & _ & Hcached).
  exists tasks, data, w1. split; [exact Hlen|]. split; [exact Hrun|].
  split; [exact Hperm|].
  apply Hcached. vm_compute. split; [discriminate|reflexivity].
Defined.

(** ** Stale entries *)

Lemma fetch_offline_no_entry (forceRefresh : bool) (w : World) :
  isOnline w = false → storage w !! tasksCacheKey = None →
  ApiService.fetchTasksFromApi forceRefresh w
  = (Ok (Reply.mk false None None (Some true)
                  (Some "Offline and no cached data available.")), w).
Proof.
  intros Hoff Hnone. unfold ApiService.fetchTasksFromApi.
  rewrite (bind_ok _ _ w w None); cycle 1.
  { destruct forceRefresh; cbn [negb]; [reflexivity|].
    rewrite (bind_ok _ _ w w JNull); [reflexivity|].
    unfold StorageService.getCached. run.
    fold tasksCacheKey. by rewrite Hnone. }
  rewrite (bind_ok _ _ w w false) by (unfold ApiService.getOnline; by rewrite Hoff).
  cbn [negb]. by apply stale_fallback_miss.
Qed.

Lemma fetch_expired_unforced_step1 (w : World) (d : json) (ts e : Z) :
  storage w !! tasksCacheKey = Some (Doc (JEnvelope d ts e)) →
  CACHE_EXPIRATION.SHORT ≤ clock w - ts →
  (cachedData <- StorageService.getCached "tasks_list" CACHE_EXPIRATION.SHORT ;;
   ret (if truthy cachedData then Some cachedData else None)) w
  = (Ok None, withoutTasksCache w).
Proof.
  intros Hentry Hold.
  rewrite (bind_ok _ _ w (withoutTasksCache w) JNull); [reflexivity|].
  rewrite (getCached_envelope _ _ _ _ _ _ Hentry).
  by replace (clock w - ts <? CACHE_EXPIRATION.SHORT) with false
    by (symmetry; by apply Z.ltb_ge).
Qed.

(** X19. Offline with an expired cache entry, the stale data is served only
    on a forced refresh.  [getTasks(true)] goes straight to the raw read and
    returns the merge of the stale tasks with the permanent ones, with
    source 'cache' and offline true, and keeps the entry.  [getTasks(false)]
    first makes the validity-checked read, which deletes the expired entry,
    so that the raw read that follows finds nothing: the data is the merge of
    the permanent tasks alone, and the stale tasks are lost for any later
    call too. *)
Theorem offline_stale_entry_served_only_when_forced
    (w : World) (C L : list Task) (ts e : Z) :
  isOnline w = false →
  storage w !! tasksCacheKey = Some (Doc (JEnvelope (JTasks C) ts e)) →
  CACHE_EXPIRATION.SHORT ≤ clock w - ts →
  holdsTasks w L →
  ∃ withStale localOnly,
    isMergeOf withStale C L ∧ isMergeOf localOnly [] L ∧
    ApiService.getTasks true w
    = (Ok (Reply.mk true (Some withStale) (Some cache) (Some true) None), w) ∧
    ApiService.getTasks false w
    = (Ok (Reply.mk true (Some localOnly) (Some api) (Some false) None),
       withoutTasksCache w) ∧
    ApiService.getTasks true (withoutTasksCache w)
    = (Ok (Reply.mk true (Some localOnly) (Some api) (Some false) None),
       withoutTasksCache w).
Proof.
  intros Hoff Hentry Hold HL.
  assert (HL' : holdsTasks (withoutTasksCache w) L)
    by (by apply holdsTasks_withoutTasksCache).
  assert (Hgone : storage (withoutTasksCache w) !! tasksCacheKey = None)
    by (cbn; apply lookup_delete_eq).
  exists (mergeTasks C L), (mergeTasks [] L).
  split; [apply mergeTasks_isMergeOf|]. split; [apply mergeTasks_isMergeOf|].
  split; [|split].
  - assert (Hfetch : ApiService.fetchTasksFromApi true w
      = (Ok (Reply.mk true (Some (JTasks C)) (Some cache) (Some true) None), w)).
    { unfold ApiService.fetchTasksFromApi. cbn [negb].
      rewrite (bind_ok _ _ w w None) by reflexivity.
      rewrite (bind_ok _ _ w w false) by (unfold ApiService.getOnline; by rewrite Hoff).
      cbn [negb]. by eapply stale_fallback_hit. }
    by rewrite (getTasks_run true w w _ C L Hfetch eq_refl HL).
  - assert (Hfetch : ApiService.fetchTasksFromApi false w
      = (Ok (Reply.mk false None None (Some true)
                      (Some "Offline and no cached data available.")),
         withoutTasksCache w)).
    { unfold ApiService.fetchTasksFromApi. cbn [negb].
      rewrite (bind_ok _ _ _ _ _ (fetch_expired_unforced_step1 w _ ts e Hentry Hold)).
      rewrite (bind_ok _ _ (withoutTasksCache w) (withoutTasksCache w) false)
        by (unfold ApiService.getOnline; cbn; by rewrite Hoff).
      cbn [negb]. by apply stale_fallback_miss. }
    by rewrite (getTasks_run false w _ _ [] L Hfetch eq_refl HL').
  - by rewrite (getTasks_run true _ _ _ [] L
                  (fetch_offline_no_entry true (withoutTasksCache w) Hoff Hgone)
                  eq_refl HL').
Qed.

Lemma offline_stale_entry_served_only_when_forced_witness :
  let w := setOnline false (staleWorld [remoteOne] [localTwo]) in
  isOnline w = false ∧
  storage w !! tasksCacheKey
    = Some (Doc (JEnvelope (JTasks [remoteOne]) (clock sampleWorld - 3600000)
                           CACHE_EXPIRATION.SHORT)) ∧
  CACHE_EXPIRATION.SHORT ≤ clock w - (clock sampleWorld - 3600000) ∧
  holdsTasks w [localTwo] ∧
  (ApiService.getTasks true w).1
  = Ok (Reply.mk true (Some [remoteOne; markLocal localTwo]) (Some cache)
                 (Some true) None) ∧
  (ApiService.getTasks false w).1
  = Ok (Reply.mk true (Some [markLocal localTwo]) (Some api) (Some false) None).
Proof.
  cbv zeta. set (w := setOnline false (staleWorld [remoteOne] [localTwo])).
  assert (Hoff : isOnline w = false) by reflexivity.
  assert (Hentry : storage w !! tasksCacheKey
    = Some (Doc (JEnvelope (JTasks [remoteOne]) (clock sampleWorld - 3600000)
                           CACHE_EXPIRATION.SHORT))) by (vm_compute; reflexivity).
  assert (Hold : CACHE_EXPIRATION.SHORT ≤ clock w - (clock sampleWorld - 3600000))
    by (vm_compute; discriminate).
  assert (HL : holdsTasks w [localTwo]) by (left; vm_compute; reflexivity).
  split; [exact Hoff|]. split; [exact Hentry|]. split; [exact Hold|].
  split; [exact HL|].
  destruct (offline_stale_entry_served_only_when_forced w [remoteOne] [localTwo]
              _ _ Hoff Hentry Hold HL)
    as (withStale & localOnly & [_ Hs] & [_ Hl] & Hforced & Hplain & _).
  assert (Hd1 : Forall dated [remoteOne])
    by (repeat (constructor; [by eexists|]); constructor).
  assert (Hd2 : Forall dated [localTwo])
    by (repeat (constructor; [by eexists|]); constructor).
  assert (Hd0 : Forall dated []) by constructor.
  rewrite Hforced, Hplain, (Hs Hd1 Hd2), (Hl Hd0 Hd2).
  split; vm_compute; reflexivity.
Defined.

Lemma fetch_forced_online_failure (w : World) :
  isOnline w = true →
  server w (requests w) fetchRequest = None →
  ApiService.fetchTasksFromApi true w
  = (expiredCacheData <- StorageService.get ("CACHE_" +:+ "tasks_list") ;;
     if truthy (ApiService.staleData expiredCacheData)
     then ret (Reply.mk true (Some (ApiService.dataOf expiredCacheData))
                        (Some cache) (Some true) None)
     else ret (Reply.mk false None None None (Some "API Error")))
    (logRequest fetchRequest w).
Proof.
  intros Hon Hanswer. unfold ApiService.fetchTasksFromApi. cbn [negb].
  rewrite (bind_ok _ _ w w None) by reflexivity.
  rewrite (bind_ok _ _ w w true) by (unfold ApiService.getOnline; by rewrite Hon).
  cbn [negb]. erewrite try_catch_throw; [reflexivity|].
  by rewrite (bind_throw _ _ _ _ _ (apiCall_failure _ _ _ _ Hanswer)).
Qed.

(** X20. When the request fails while the device is online, a forced
    refresh falls back to the cache entry whatever its age: [getTasks(true)]
    returns the merge of the cached tasks with the permanent ones, with
    source 'cache' and offline true although the device is online.  With no
    cache entry it still answers with success: the data is the merge of the
    permanent tasks alone.  In both cases exactly one request was sent. *)
Theorem online_failure_falls_back_to_cache (w : World) (L : list Task) :
  isOnline w = true →
  server w (requests w) fetchRequest = None →
  holdsTasks w L →
  (∀ C ts e,
     storage w !! tasksCacheKey = Some (Doc (JEnvelope (JTasks C) ts e)) →
     ∃ data,
       isMergeOf data C L ∧
       ApiService.getTasks true w
       = (Ok (Reply.mk true (Some data) (Some cache) (Some true) None),
          logRequest fetchRequest w)) ∧
  (storage w !! tasksCacheKey = None →
   ∃ data,
     isMergeOf data [] L ∧
     ApiService.getTasks true w
     = (Ok (Reply.mk true (Some data) (Some api) (Some false) None),
        logRequest fetchRequest w)).
Proof.
  intros Hon Hanswer HL.
  pose proof (fetch_forced_online_failure w Hon Hanswer) as Hfetch.
  assert (HL' : holdsTasks (logRequest fetchRequest w) L) by exact HL.
  split.
  - intros C ts e Hentry. exists (mergeTasks C L).
    split; [apply mergeTasks_isMergeOf|].
    rewrite (stale_fallback_hit _ (logRequest fetchRequest w) (JTasks C) ts e)
      in Hfetch by done.
    by rewrite (getTasks_run true w _ _ C L Hfetch eq_refl HL').
  - intros Hnone. exists (mergeTasks [] L).
    split; [apply mergeTasks_isMergeOf|].
    rewrite (stale_fallback_miss _ (logRequest fetchRequest w)) in Hfetch by done.
    by rewrite (getTasks_run true w _ _ [] L Hfetch eq_refl HL').
Qed.

Lemma online_failure_falls_back_to_cache_witness :
  let w := staleWorld [remoteOne] [localTwo] in
  isOnline w = true ∧ server w (requests w) fetchRequest = None ∧
  holdsTasks w [localTwo] ∧
  ApiService.getTasks true w
  = (Ok (Reply.mk true (Some [remoteOne; markLocal localTwo]) (Some cache)
                  (Some true) None),
     logRequest fetchRequest w).
Proof.
  cbv zeta.
  assert (HL : holdsTasks (staleWorld [remoteOne] [localTwo]) [localTwo])
    by (left; vm_compute; reflexivity).
  split; [reflexivity|]. split; [reflexivity|]. split; [exact HL|].
  destruct (proj1 (online_failure_falls_back_to_cache
                     (staleWorld [remoteOne] [localTwo]) [localTwo]
                     eq_refl eq_refl HL)
                  [remoteOne] (clock sampleWorld - 3600000) CACHE_EXPIRATION.SHORT)
    as (data & [_ Hexact] & Hrun).
  { vm_compute. reflexivity. }
  rewrite Hrun, Hexact; [reflexivity| |];
    repeat (constructor; [by eexists|]); constructor.
Defined.

(** ** Preloading *)

Lemma preloadTasks_run (w : World) (L : list Task) :
  holdsTasks w L →
  App.preloadTasks w
  = (Ok tt,
     if bool_decide (0 < length L)%nat
     then (StorageService.setCached "tasks_list" (JTasks L)
             CACHE_EXPIRATION.SHORT w).2
     else w).
Proof.
  intros HL. unfold App.preloadTasks. erewrite try_catch_ok; [reflexivity|].
  rewrite (bind_ok _ _ _ _ _ (getTasks_holds w L HL)).
  cbn [App.hasPositiveLength].
  by destruct (bool_decide (0 < length L)%nat).
Qed.

(** X21. [preloadTasks] leaves an empty repository's world as it is.  With
    a repository that is not empty it overwrites the cache entry of the
    tasks collection with the permanent tasks, so for the next five minutes
    [getTasks(false)] is answered from that entry: source 'cache', no
    request even when online, and as data the merge of the permanent tasks
    with themselves.  When the ids of the repository are distinct, the data
    are exactly the permanent tasks, without a source tag, and in the order
    newest first when all of them have a creation date. *)
Theorem preloadTasks_then_getTasks_serves_the_repository
    (w : World) (L : list Task) :
  holdsTasks w L →
  (L = [] → App.preloadTasks w = (Ok tt, w)) ∧
  (L ≠ [] →
   let w1 := (App.preloadTasks w).2 in
   holdsTasks w1 L ∧
   ∀ d, 0 ≤ d < CACHE_EXPIRATION.SHORT →
     ∃ data,
       ApiService.getTasks false (advance d w1)
       = (Ok (Reply.mk true (Some data) (Some cache) (Some false) None),
          advance d w1) ∧
       isMergeOf data L L ∧
       (NoDup (id <$> L) →
        data ≡ₚ L ∧
        (Forall dated L →
         data = sortWith newestFirst L ∧ StronglySorted notOlder data))).
Proof.
  intros HL. rewrite (preloadTasks_run w L HL). split.
  - by intros ->.
  - intros Hne. cbv zeta.
    rewrite bool_decide_eq_true_2 by (destruct L; [done|cbn; lia]).
    cbn [snd]. rewrite setCached_world. cbn [snd].
    set (w1 := setStorage _ w).
    assert (HL1 : holdsTasks w1 L).
    { eapply holdsTasks_same_TASKS; [|exact HL]. subst w1. cbn.
      apply lookup_insert_ne, tasksCacheKey_not_TASKS. }
    split; [exact HL1|]. intros d Hd. exists (mergeTasks L L). split; [|split].
    + assert (Hentry : storage (advance d w1) !! tasksCacheKey
                = Some (Doc (JEnvelope (JTasks L) (clock w) CACHE_EXPIRATION.SHORT)))
        by (subst w1; cbn; apply lookup_insert_eq).
      assert (Hvalid : clock (advance d w1) - clock w < CACHE_EXPIRATION.SHORT)
        by (subst w1; cbn; lia).
      by rewrite (getTasks_run false (advance d w1) (advance d w1) _ L L
                    (fetch_valid_cache _ _ _ _ Hentry Hvalid) eq_refl HL1).
    + apply mergeTasks_isMergeOf.
    + intros Hnd.
      assert (Hsub : ∀ t, t ∈ L → id t ∈ id <$> L).
      { intros t Ht. apply list_elem_of_fmap. by exists t. }
      rewrite (mergeTasks_no_new_ids L L Hnd Hsub).
      split; [apply sortWith_Permutation|].
      intros Hdated. split; [done|by apply sortWith_dated].
Qed.

Lemma preloadTasks_then_getTasks_serves_the_repository_witness :
  let w := setStorage (<[STORAGE_KEYS.TASKS := Doc (JTasks [localOne; localTwo])]> ∅)
                      servedWorld in
  holdsTasks w [localOne; localTwo] ∧ [localOne; localTwo] ≠ [] ∧
  ∃ data,
    ApiService.getTasks false (App.preloadTasks w).2
    = (Ok (Reply.mk true (Some data) (Some cache) (Some false) None),
       (App.preloadTasks w).2) ∧
    data = [localTwo; localOne].
Proof.
  cbv zeta.
  set (w := setStorage (<[STORAGE_KEYS.TASKS := Doc (JTasks [localOne; localTwo])]> ∅)
                       servedWorld).
  assert (HL : holdsTasks w [localOne; localTwo]) by (left; vm_compute; reflexivity).
  assert (Hne : [localOne; localTwo] ≠ []) by discriminate.
  split; [exact HL|]. split; [exact Hne|].
  destruct (proj2 (preloadTasks_then_getTasks_serves_the_repository w
                     [localOne; localTwo] HL) Hne) as [_ Hserve].
  destruct (Hserve 0) as (data & Hrun & _ & Hsame);
    [vm_compute; split; [discriminate|reflexivity]|].
  exists data. split; [exact Hrun|].
  destruct Hsame as [_ Hexact].
  { cbn. apply NoDup_cons. split; [|apply NoDup_singleton].
    intros H. apply list_elem_of_singleton in H. discriminate H. }
  destruct Hexact as [-> _]; [|vm_compute; reflexivity].
  repeat (constructor; [by eexists|]). constructor.
Defined.

(** ** After a cache clear *)

Lemma fetch_online_without_entry (forceRefresh : bool) (w : World) :
  isOnline w = true → storage w !! tasksCacheKey = None →
  ∃ a w1, ApiService.fetchTasksFromApi forceRefresh w = (Ok a, w1) ∧
          requests w1 = (requests w ++ [fetchRequest])%list.
Proof.
  intros Hon Hnone. unfold ApiService.fetchTasksFromApi.
  rewrite (bind_ok _ _ w w None); cycle 1.
  { destruct forceRefresh; cbn [negb]; [reflexivity|].
    rewrite (bind_ok _ _ w w JNull); [reflexivity|].
    unfold StorageService.getCached. run.
    fold tasksCacheKey. by rewrite Hnone. }
  rewrite (bind_ok _ _ w w true) by (unfold ApiService.getOnline; by rewrite Hon).
  cbn [negb].
  destruct (server w (requests w) fetchRequest) as [[items|o]|] eqn:Hanswer.
  - destruct (mapM_mapItem_ok items (logRequest fetchRequest w))
      as (tasks & wm & Hmap & Hdraws).
    erewrite try_catch_ok; cycle 1.
    { rewrite (bind_ok _ _ _ _ _ (apiCall_answer _ _ _ _ _ Hanswer)).
      rewrite (bind_ok _ _ _ (logRequest fetchRequest w) items) by reflexivity.
      rewrite (bind_ok _ _ _ _ _ Hmap). reflexivity. }
    eexists _, _. split; [reflexivity|]. cbn.
    by destruct Hdraws as (_ & _ & _ & _ & _ & ->).
  - erewrite try_catch_throw; cycle 1.
    { rewrite (bind_ok _ _ _ _ _ (apiCall_answer _ _ _ _ _ Hanswer)). reflexivity. }
    destruct (stale_fallback_world
                (Reply.mk false None None None (Some "TypeError"))
                (logRequest fetchRequest w)) as (a & Ha).
    by exists a, (logRequest fetchRequest w).
  - erewrite try_catch_throw; cycle 1.
    { rewrite (bind_throw _ _ _ _ _ (apiCall_failure _ _ _ _ Hanswer)). reflexivity. }
    destruct (stale_fallback_world
                (Reply.mk false None None None (Some "API Error"))
                (logRequest fetchRequest w)) as (a & Ha).
    by exists a, (logRequest fetchRequest w).
Qed.

(** X22. Clearing the caches forces the next read to the server.  After
    [clearAllCaches], with the device online, [getTasks(false)] finds no
    cache entry and sends the GET of the collection, exactly once, whatever
    was cached before; it answers with success, and the permanent tasks are
    still in the repository. *)
Theorem cleared_caches_force_a_fetch (w : World) (L : list Task) :
  holdsTasks w L → isOnline w = true →
  let w1 := (ApiService.clearAllCaches w).2 in
  ApiService.clearAllCaches w = (Ok (Reply.mk true None None None None), w1) ∧
  holdsTasks w1 L ∧
  ∃ reply w2,
    ApiService.getTasks false w1 = (Ok reply, w2) ∧
    Reply.success reply = true ∧
    requests w2 = (requests w ++ [fetchRequest])%list.
Proof.
  intros HL Hon. cbv zeta. rewrite clearAllCaches_world. cbn [snd].
  split; [reflexivity|].
  set (w1 := (StorageService.clearCache w).2).
  assert (HL1 : holdsTasks w1 L).
  { eapply holdsTasks_same_TASKS; [apply clearCache_keeps_TASKS|exact HL]. }
  assert (Hnone : storage w1 !! tasksCacheKey = None)
    by apply clearCache_removes_tasks_cache.
  assert (Hshape : cacheShape w1).
  { intros d ts e H. rewrite Hnone in H. discriminate H. }
  split; [exact HL1|].
  destruct (fetch_outcome false w1 Hshape) as (a & w2 & R & Hfetch & HR & Hkeys & _).
  destruct (fetch_online_without_entry false w1 Hon Hnone) as (a' & w2' & Hfetch' & Hreq).
  rewrite Hfetch in Hfetch'. injection Hfetch' as <- <-.
  assert (HL2 : holdsTasks w2 L).
  { eapply holdsTasks_same_TASKS; [|exact HL1].
    apply Hkeys. intros E. symmetry in E. by apply tasksCacheKey_not_TASKS. }
  eexists _, w2. split; [by eapply getTasks_run|]. split; [reflexivity|].
  exact Hreq.
Qed.

Lemma cleared_caches_force_a_fetch_witness :
  let w := cachedWorld [remoteOne] [localTwo] in
  holdsTasks w [localTwo] ∧ isOnline w = true ∧
  requests (ApiService.getTasks false w).2 = requests w ∧
  ∃ reply w2,
    ApiService.getTasks false (ApiService.clearAllCaches w).2 = (Ok reply, w2) ∧
    requests w2 = (requests w ++ [fetchRequest])%list.
Proof.
  cbv zeta.
  assert (HL : holdsTasks (cachedWorld [remoteOne] [localTwo]) [localTwo])
    by (left; vm_compute; reflexivity).
  split; [exact HL|]. split; [reflexivity|]. split; [vm_compute; reflexivity|].
  destruct (cleared_caches_force_a_fetch (cachedWorld [remoteOne] [localTwo])
              [localTwo] HL eq_refl) as (_ & _ & reply & w2 & Hrun & _ & Hreq).
  exists reply, w2. split; [exact Hrun|exact Hreq].
Defined.

(** ** The theme *)

Lemma getCached_text (k : string) (win : Z) (w : World) (s : string) (ts e : Z) :
  storage w !! (STORAGE_KEYS.CACHE_PREFIX +:+ k) = Some (Doc (JEnvelope (JStr s) ts e)) →
  (StorageService.getCached k win w).1
  = Ok (if clock w - ts <? win then JStr s else JNull).
Proof.
  intros H. rewrite (getCached_envelope _ _ _ _ _ _ H).
  by destruct (clock w - ts <? win).
Qed.

(** X23. The theme chosen with [handleThemeChange] survives the expiry of
    its cache entry.  However much time passes before the application
    starts again, and whatever else the storage holds, [initializeApp] sets
    the dark mode to the value that was chosen: from the cache entry while
    it is younger than a day, from the THEME key (which migration does not
    touch) afterwards. *)
Theorem theme_choice_survives_cache_expiry
    (darkMode : bool) (d : Z) (w : World) :
  (App.initializeApp (advance d (App.handleThemeChange darkMode w).2)).1
  = Ok (Some darkMode).
Proof.
  assert (Hchange : App.handleThemeChange darkMode w
    = (Ok tt,
       setStorage
         (<[STORAGE_KEYS.CACHE_PREFIX +:+ "app_theme" :=
              Doc (JEnvelope (JStr (App.themeName darkMode)) (clock w)
                             CACHE_EXPIRATION.LONG)]>
            (<[STORAGE_KEYS.THEME := Garbled (App.themeName darkMode)]>
               (storage w))) w)) by reflexivity.
  rewrite Hchange. cbn [snd]. set (w1 := advance d _).
  unfold App.initializeApp, try_catch.
  rewrite (bind_ok _ _ _ _ _ (migrateLegacyData_ok w1)).
  set (w2 := (StorageService.migrateLegacyData w1).2).
  assert (Hcache : storage w2 !! (STORAGE_KEYS.CACHE_PREFIX +:+ "app_theme")
    = Some (Doc (JEnvelope (JStr (App.themeName darkMode)) (clock w)
                           CACHE_EXPIRATION.LONG))).
  { subst w2. rewrite migrateLegacyData_lookup.
    replace (fixedByMigration (STORAGE_KEYS.CACHE_PREFIX +:+ "app_theme"))
      with false by reflexivity.
    subst w1. cbn. apply lookup_insert_eq. }
  assert (Htheme : storage w2 !! STORAGE_KEYS.THEME
                   = Some (Garbled (App.themeName darkMode))).
  { subst w2. rewrite migrateLegacyData_lookup.
    replace (fixedByMigration STORAGE_KEYS.THEME) with false by reflexivity.
    subst w1. cbn. rewrite lookup_insert_ne by keys_differ.
    apply lookup_insert_eq. }
  unfold bind at 1.
  rewrite (getCached_envelope _ _ _ _ _ _ Hcache).
  destruct (clock w2 - clock w <? CACHE_EXPIRATION.LONG).
  - by destruct darkMode.
  - unfold StorageService.getTheme, StorageService.get. run.
    cbn [truthy]. cbv beta iota.
    rewrite storage_setStorage, lookup_delete_ne by keys_differ. rewrite Htheme.
    by destruct darkMode.
Qed.
